(** * telegram_streamer: session orchestration, verified against its specification

    A shallow embedding of the Python package [telegram_streamer]
    ([models.py], [config.py], [ffmpeg.py], [streamer.py], [reconnection.py])
    and the theorems that settle the claims C1..C10 of its specification.

    Conventions of the embedding
    - a Python [str] is a [string] of bytes; urls are ASCII, so [str.lower]
      is the ASCII lower-casing;
    - a [datetime] is a [Z], the number of microseconds since the epoch; a
      [timedelta] is the difference of two of them, in microseconds;
    - a [dict] is a [gmap]; a Python object that is shared and mutated in
      place (a [StreamSession], an [asyncio.Task]) lives in a store and is
      named by its location;
    - a function that may raise returns a [result]; a method that mutates
      an object or talks to the outside is a state transformer over the
      [World], which keeps the state reached when an exception is raised;
    - the outside (Telegram, PyTgCalls, subprocesses, clocks, uuid4) is an
      oracle that answers each call from the history of calls so far. *)

From Stdlib Require Import ZArith Ascii String List Bool Lia DecimalString.
From stdpp Require Import gmap strings list fin_maps.

Local Open Scope Z_scope.
Local Open Scope string_scope.

(** ** Python strings *)

Module PyStr.

(** [c.lower()] for one ASCII character. *)
Definition lower_ascii (c : ascii) : ascii :=
  let n := nat_of_ascii c in
  if ((65 <=? n)%nat && (n <=? 90)%nat)%bool then ascii_of_nat (n + 32) else c.

(** [s.lower()]. *)
Fixpoint lower (s : string) : string :=
  match s with
  | EmptyString => EmptyString
  | String c r => String (lower_ascii c) (lower r)
  end.

(** [s.startswith(p)]. *)
Fixpoint startswith (p s : string) : bool :=
  match p, s with
  | EmptyString, _ => true
  | String a p', String b s' => if Ascii.eqb a b then startswith p' s' else false
  | String _ _, EmptyString => false
  end.

(** [sub in s]: try every position, left to right. *)
Fixpoint contains (sub s : string) : bool :=
  if startswith sub s then true
  else match s with
       | EmptyString => false
       | String _ r => contains sub r
       end.

(** [s.endswith(p)]: [p] is what is left of [s] from some position on. *)
Fixpoint endswith (p s : string) : bool :=
  if String.eqb p s then true
  else match s with
       | EmptyString => false
       | String _ r => endswith p r
       end.

(** [str(n)] and [f"{n}"] for an [int]. *)
Definition of_int (n : Z) : string := NilZero.string_of_int (Z.to_int n).

(** [s[:-1]]. *)
Fixpoint drop_last (s : string) : string :=
  match s with
  | EmptyString => EmptyString
  | String c EmptyString => EmptyString
  | String c r => String c (drop_last r)
  end.

(** What the three tests decide, stated without reference to the search. *)
Definition is_prefix (p s : string) : Prop := exists r, s = p +:+ r.
Definition is_suffix (p s : string) : Prop := exists l, s = l +:+ p.
Definition is_infix (p s : string) : Prop := exists l r, s = l +:+ (p +:+ r).

End PyStr.

(** ** Exceptions and results *)

Module Py.

(** The exception classes the package raises or catches, all of them
    subclasses of [Exception].  The first block is [exceptions.py]; the
    second the classes of hydrogram that [streamer.py] names; the third the
    built-in ones.  [asyncio.CancelledError], which is not an [Exception],
    is never a value here: cancellation is a transition of the task that
    is cancelled (see [runtime.Task]). *)
Inductive exn_class :=
| StreamSourceError | StreamConnectionError | ReconnectionError
| ChatNotFoundError | PermissionError
| ChatAdminRequired | UserNotParticipant | PeerIdInvalid | ChannelPrivate
| KeyError | AttributeError | ValueError | RecursionError | RuntimeError.

#[global] Instance exn_class_eq_dec : EqDecision exn_class.
Proof. solve_decision. Defined.

(** An exception object: its class and [str(e)]. *)
Record exn := Exn { exn_class_of : exn_class; str : string }.

Inductive result (A : Type) :=
| Ok (a : A)
| Raise (e : exn).
Arguments Ok {A} a.
Arguments Raise {A} e.

End Py.
Export Py.

(** ** models.py *)

Module models.

Inductive StreamStatus :=
  PENDING | CONNECTING | STREAMING | RECONNECTING | PAUSED | STOPPED | ERROR.

Inductive StreamType := M3U | M3U8 | HLS | RTMP | YOUTUBE | DIRECT.

#[global] Instance StreamStatus_eq_dec : EqDecision StreamStatus.
Proof. solve_decision. Defined.

#[global] Instance StreamType_eq_dec : EqDecision StreamType.
Proof. solve_decision. Defined.

Record StreamSource := mkStreamSource {
  url : string;
  stream_type : StreamType;
  name : option string
}.

(** [StreamSource.detect_type]. *)
Definition detect_type (u : string) : StreamSource :=
  let url_lower := PyStr.lower u in
  if PyStr.contains "youtube.com" url_lower || PyStr.contains "youtu.be" url_lower then
    mkStreamSource u YOUTUBE None
  else if PyStr.endswith ".m3u" url_lower then
    mkStreamSource u M3U None
  else if PyStr.endswith ".m3u8" url_lower || PyStr.contains "/hls/" url_lower then
    mkStreamSource u HLS None
  else if PyStr.startswith "rtmp://" url_lower || PyStr.startswith "rtmps://" url_lower then
    mkStreamSource u RTMP None
  else
    mkStreamSource u HLS None.

(** The fields of the dataclass [TranscodeSettings].  Its last field,
    [PROFILES], is not an argument of the constructor and is the empty
    dict in every instance. *)
Record TranscodeSettings := mkTranscodeSettings {
  width : Z;
  height : Z;
  video_bitrate : string;
  audio_bitrate : string;
  fps : Z
}.

(** [TranscodeSettings(width=.., height=.., video_bitrate=.., fps=..)].
    The generated [__init__] stores the fields and then calls
    [__post_init__], and [__post_init__] evaluates a dict display whose
    three values are built by the same constructor before it assigns the
    dict to the class attribute.  [depth] is the number of nested
    constructor calls the interpreter still allows; beyond it the call
    raises [RecursionError]. *)
Fixpoint TranscodeSettings_init (depth : nat)
    (w h : Z) (vb ab : string) (f : Z) : result TranscodeSettings :=
  match depth with
  | O => Raise (Exn RecursionError "maximum recursion depth exceeded")
  | S d =>
      let self := mkTranscodeSettings w h vb ab f in
      (* self.__post_init__() *)
      match TranscodeSettings_init d 854 480 "1500k" "128k" 30 with
      | Raise e => Raise e
      | Ok _ =>
      match TranscodeSettings_init d 1280 720 "3000k" "128k" 30 with
      | Raise e => Raise e
      | Ok _ =>
      match TranscodeSettings_init d 1920 1080 "5000k" "128k" 30 with
      | Raise e => Raise e
      | Ok _ => Ok self
      end end end
  end.

(** The body of the classmethod [get_profile], for a constructor [cls]:
    build the three entries, then [profiles.get(profile)]. *)
Definition get_profile_of
    (cls : Z -> Z -> string -> string -> Z -> result TranscodeSettings)
    (profile : string) : result (option TranscodeSettings) :=
  match cls 854 480 "1500k" "128k" 30 with
  | Raise e => Raise e
  | Ok p480 =>
  match cls 1280 720 "3000k" "128k" 30 with
  | Raise e => Raise e
  | Ok p720 =>
  match cls 1920 1080 "5000k" "128k" 30 with
  | Raise e => Raise e
  | Ok p1080 =>
      let profiles : gmap string TranscodeSettings :=
        <["1080p" := p1080]> (<["720p" := p720]> (<["480p" := p480]> ∅)) in
      Ok (profiles !! profile)
  end end end.

(** [TranscodeSettings.get_profile]: [cls] is the dataclass itself. *)
Definition get_profile (depth : nat) (profile : string)
    : result (option TranscodeSettings) :=
  get_profile_of (TranscodeSettings_init depth) profile.

(** The same body over the bare record, that is with [__post_init__] left
    out of the constructor: the table the method spells out. *)
Definition profile_table (profile : string) : result (option TranscodeSettings) :=
  get_profile_of (fun w h vb ab f => Ok (mkTranscodeSettings w h vb ab f)) profile.

Record StreamSession := mkStreamSession {
  id : string;
  chat_id : Z;
  source : StreamSource;
  status : StreamStatus;
  profile : string;
  created_at : Z;
  started_at : option Z;
  stopped_at : option Z;
  reconnect_attempts : Z;
  last_reconnect_at : option Z;
  last_error : option string;
  error_count : Z;
  bytes_streamed : Z;
  frames_sent : Z
}.

(** [StreamSession(id=.., chat_id=.., source=.., profile=..)] at time
    [now]: every other field takes its default. *)
Definition StreamSession_init (now : Z) (i : string) (c : Z)
    (src : StreamSource) (p : string) : StreamSession :=
  mkStreamSession i c src PENDING p now None None 0 None None 0 0 0.

(** [self.status = st]. *)
Definition set_status (st : StreamStatus) (s : StreamSession) : StreamSession :=
  mkStreamSession (id s) (chat_id s) (source s) st (profile s)
    (created_at s) (started_at s) (stopped_at s)
    (reconnect_attempts s) (last_reconnect_at s)
    (last_error s) (error_count s) (bytes_streamed s) (frames_sent s).

Definition mark_streaming (now : Z) (s : StreamSession) : StreamSession :=
  mkStreamSession (id s) (chat_id s) (source s) STREAMING (profile s)
    (created_at s) (Some now) (stopped_at s)
    0 (last_reconnect_at s)
    (last_error s) (error_count s) (bytes_streamed s) (frames_sent s).

Definition mark_reconnecting (now : Z) (s : StreamSession) : StreamSession :=
  mkStreamSession (id s) (chat_id s) (source s) RECONNECTING (profile s)
    (created_at s) (started_at s) (stopped_at s)
    (reconnect_attempts s + 1) (Some now)
    (last_error s) (error_count s) (bytes_streamed s) (frames_sent s).

Definition mark_error (error : string) (s : StreamSession) : StreamSession :=
  mkStreamSession (id s) (chat_id s) (source s) ERROR (profile s)
    (created_at s) (started_at s) (stopped_at s)
    (reconnect_attempts s) (last_reconnect_at s)
    (Some error) (error_count s + 1) (bytes_streamed s) (frames_sent s).

Definition mark_stopped (now : Z) (s : StreamSession) : StreamSession :=
  mkStreamSession (id s) (chat_id s) (source s) STOPPED (profile s)
    (created_at s) (started_at s) (Some now)
    (reconnect_attempts s) (last_reconnect_at s)
    (last_error s) (error_count s) (bytes_streamed s) (frames_sent s).

(** The property [duration_seconds], read at time [now], as the exact
    [timedelta] in microseconds.  [total_seconds()] divides it by 10^6
    into a float, which keeps zero and the order. *)
Definition duration_seconds (now : Z) (s : StreamSession) : Z :=
  match started_at s with
  | None => 0
  | Some t0 =>
      let end_ := match stopped_at s with Some t1 => t1 | None => now end in
      end_ - t0
  end.

End models.

(** ** The classification rule in the words of the specification

    The first rule of the specification speaks of the host name of the url
    ("platform-video hostname"); [detect_type] looks for the names anywhere
    in the url.  The reading below takes the specification at its word for
    the first rule and is otherwise the same, lower-casing included. *)

Module spec_words.
Import models.

(** What follows the first "://" of a url, if there is one. *)
Fixpoint after_scheme (s : string) : option string :=
  match s with
  | EmptyString => None
  | String c r =>
      if PyStr.startswith "://" s then Some (String.substring 3 (String.length s - 3) s)
      else after_scheme r
  end.

(** A string up to its first "/", "?" or "#". *)
Fixpoint up_to_path (s : string) : string :=
  match s with
  | EmptyString => EmptyString
  | String c r =>
      if (Ascii.eqb c "/" || Ascii.eqb c "?" || Ascii.eqb c "#")%bool then EmptyString
      else String c (up_to_path r)
  end.

(** The host part of a url (with user and port, when it has them). *)
Definition hostname (u : string) : string :=
  up_to_path (match after_scheme u with Some r => r | None => u end).

Definition platform_video_hostname (h : string) : bool :=
  PyStr.contains "youtube.com" h || PyStr.contains "youtu.be" h.

Definition classify (u : string) : StreamType :=
  let url_lower := PyStr.lower u in
  if platform_video_hostname (hostname url_lower) then YOUTUBE
  else if PyStr.endswith ".m3u" url_lower then M3U
  else if PyStr.endswith ".m3u8" url_lower || PyStr.contains "/hls/" url_lower then HLS
  else if PyStr.startswith "rtmp://" url_lower || PyStr.startswith "rtmps://" url_lower then RTMP
  else HLS.

End spec_words.

(** ** config.py *)

Module config.

Inductive TranscodeProfile := AUTO | P480 | P720 | P1080.

#[global] Instance TranscodeProfile_eq_dec : EqDecision TranscodeProfile.
Proof. solve_decision. Defined.

(** [profile.value]. *)
Definition value (p : TranscodeProfile) : string :=
  match p with
  | AUTO => "auto"
  | P480 => "480p"
  | P720 => "720p"
  | P1080 => "1080p"
  end.

(** The fields of [Settings] that the orchestration reads. *)
Record Settings := mkSettings {
  ffmpeg_path : string;
  ffmpeg_threads : Z;
  reconnect_enabled : bool;
  reconnect_min_delay : Z;
  reconnect_max_delay : Z;
  reconnect_max_attempts : Z;
  reconnect_timeout : Z
}.

End config.

(** ** ffmpeg.py: the argument builder *)

Module ffmpeg.
Import models config.
Local Open Scope list_scope.

(** [int(s)] for a decimal literal. *)
Definition int_of_str (s : string) : result Z :=
  match NilZero.int_of_string s with
  | Some n => Ok (Z.of_int n)
  | None => Raise (Exn ValueError ("invalid literal for int() with base 10: '" +:+ s +:+ "'"))
  end.

Record FFmpegWrapper := mkFFmpegWrapper {
  source : StreamSource;
  profile : TranscodeProfile;
  settings : Settings;
  _process : option Z;      (* the pid of the subprocess, when there is one *)
  _running : bool
}.

(** [FFmpegWrapper(source, profile)]. *)
Definition FFmpegWrapper_init (st : Settings) (src : StreamSource)
    (p : TranscodeProfile) : FFmpegWrapper :=
  mkFFmpegWrapper src p st None false.

Definition reconnect_flags : list string :=
  ["-reconnect"; "1"; "-reconnect_streamed"; "1"; "-reconnect_delay_max"; "5"].

Definition rtmp_live_flags : list string := ["-rtmp_live"; "live"].

Definition _build_input_args (self : FFmpegWrapper) : list string :=
  let args := [] in
  let args :=
    if bool_decide (stream_type (source self) ∈ [HLS; M3U8; M3U])
    then args ++ reconnect_flags else args in
  let args :=
    if bool_decide (stream_type (source self) = RTMP)
    then args ++ rtmp_live_flags else args in
  args ++ ["-analyzeduration"; "5000000";
           "-probesize"; "5000000";
           "-fflags"; "+genpts+discardcorrupt";
           "-i"; url (source self)].

Definition _build_output_args (output : string) : list string :=
  ["-f"; "mpegts"; "-flush_packets"; "1"; output].

Section Builders.
(** [TranscodeSettings.get_profile], as the two builders below call it. *)
Variable lookup : string -> result (option TranscodeSettings).

Definition _build_video_args_of (self : FFmpegWrapper) : result (list string) :=
  match lookup (value (profile self)) with
  | Raise e => Raise e
  | Ok (Some ts) =>
      match int_of_str (PyStr.drop_last (video_bitrate ts)) with
      | Raise e => Raise e
      | Ok n =>
          Ok ["-c:v"; "libx264";
              "-preset"; "ultrafast";
              "-tune"; "zerolatency";
              "-vf"; "scale=" +:+ PyStr.of_int (width ts) +:+ ":" +:+ PyStr.of_int (height ts);
              "-b:v"; video_bitrate ts;
              "-maxrate"; video_bitrate ts;
              "-bufsize"; PyStr.of_int (n * 2) +:+ "k";
              "-r"; PyStr.of_int (fps ts);
              "-g"; PyStr.of_int (fps ts * 2);
              "-pix_fmt"; "yuv420p"]
      end
  | Ok None => Ok ["-c:v"; "copy"]
  end.

Definition _build_audio_args_of (self : FFmpegWrapper) : result (list string) :=
  match lookup (value (profile self)) with
  | Raise e => Raise e
  | Ok (Some ts) => Ok ["-c:a"; "aac"; "-b:a"; audio_bitrate ts; "-ar"; "48000"; "-ac"; "2"]
  | Ok None => Ok ["-c:a"; "copy"]
  end.

Definition build_command_of (self : FFmpegWrapper) (output : string)
    : result (list string) :=
  let cmd := [ffmpeg_path (settings self)] in
  let cmd := cmd ++ ["-y"; "-hide_banner"; "-loglevel"; "warning";
                     "-threads"; PyStr.of_int (ffmpeg_threads (settings self))] in
  let cmd := cmd ++ _build_input_args self in
  match _build_video_args_of self with
  | Raise e => Raise e
  | Ok video =>
      let cmd := cmd ++ video in
      match _build_audio_args_of self with
      | Raise e => Raise e
      | Ok audio =>
          let cmd := cmd ++ audio in
          Ok (cmd ++ _build_output_args output)
      end
  end.
End Builders.

(** The methods of the class: the lookup is [TranscodeSettings.get_profile],
    called with [depth] nested calls left to the interpreter. *)
Definition _build_video_args (depth : nat) := _build_video_args_of (get_profile depth).
Definition _build_audio_args (depth : nat) := _build_audio_args_of (get_profile depth).
Definition build_command (depth : nat) := build_command_of (get_profile depth).

End ffmpeg.

(** ** The objects and the world they live in *)

Module runtime.
Import models config ffmpeg.

Definition loc := nat.        (* the identity of a [StreamSession] object *)
Definition task_id := nat.    (* the identity of an [asyncio.Task] *)

(** Calls made to the outside, in the order they were made (latest first
    in a trace). *)
Inductive Event :=
| EvGetChat (chat_identifier : string)
| EvResolveYoutube (url : string)
| EvPlay (chat_id : Z) (stream_url : string)
| EvLeaveCall (chat_id : Z)
| EvPauseStream (chat_id : Z)
| EvResumeStream (chat_id : Z)
| EvTerminate (pid : Z)
| EvWaitFor (pid : Z)
| EvKill (pid : Z)
| EvWait (pid : Z)
| EvStartStream (chat_id : Z) (url : string) (profile : string)
| EvSleep (seconds : Z).

(** The outside: every answer may depend on the calls made so far. *)
Record Outside := mkOutside {
  utcnow_at : nat -> Z;                                   (* n-th reading of [datetime.utcnow()] *)
  monotonic_at : nat -> Z;                                (* n-th reading of [time.monotonic()], in microseconds *)
  uuid4_at : nat -> string;                               (* [str(uuid.uuid4())], n-th draw *)
  get_chat : list Event -> string -> result Z;            (* [(await client.get_chat(x)).id] *)
  resolve_youtube_url : list Event -> string -> result string;
  play : list Event -> Z -> string -> result unit;        (* [MediaStream(url, ..)] and [tgcalls.play] *)
  leave_call : list Event -> Z -> result unit;
  pause_stream_call : list Event -> Z -> result unit;
  resume_stream_call : list Event -> Z -> result unit;
  terminate : list Event -> Z -> bool;                    (* [false]: [ProcessLookupError] *)
  wait_for : list Event -> Z -> bool;                     (* [false]: [asyncio.TimeoutError] after 5 s *)
  kill : list Event -> Z -> bool                          (* [false]: [ProcessLookupError] *)
}.

(** An [asyncio.Task] that runs [ReconnectionManager._reconnect_loop].
    Between two runs it is suspended at one of the two places where the
    coroutine can be: before its first statement, or in the sleep between
    two attempts (the call of the start function is one atomic step).
    [Sleeping n t0] records tenacity's [attempt_number] and [start_time]. *)
Inductive TaskPc :=
| Created
| Sleeping (attempt_number : Z) (start_time : Z)
| Finished
| Cancelled.

Record Task := mkTask {
  task_session : loc;     (* the [session] argument of the coroutine *)
  pc : TaskPc;
  _must_cancel : bool     (* [cancel()] was called and not yet delivered *)
}.

Definition done (t : Task) : bool :=
  match pc t with Finished | Cancelled => true | _ => false end.

End runtime.

Module TelegramStreamer.
Import runtime.
Inductive Client := Client_handle.
Inductive PyTgCalls := PyTgCalls_handle.

Record t := mk {
  _started : bool;
  _client : option Client;
  _tgcalls : option PyTgCalls;
  _sessions : gmap string loc;
  _ffmpeg_processes : gmap string ffmpeg.FFmpegWrapper;
  _reconnect_tasks : gmap string task_id
}.

Definition with_sessions (m : gmap string loc) (s : t) : t :=
  mk (_started s) (_client s) (_tgcalls s) m (_ffmpeg_processes s) (_reconnect_tasks s).
Definition with_ffmpeg_processes (m : gmap string ffmpeg.FFmpegWrapper) (s : t) : t :=
  mk (_started s) (_client s) (_tgcalls s) (_sessions s) m (_reconnect_tasks s).
Definition with_reconnect_tasks (m : gmap string task_id) (s : t) : t :=
  mk (_started s) (_client s) (_tgcalls s) (_sessions s) (_ffmpeg_processes s) m.
End TelegramStreamer.

Module ReconnectionManager.
Import runtime.
Record t := mk {
  settings : config.Settings;
  _reconnect_tasks : gmap string task_id;
  _active : bool
}.

Definition with_reconnect_tasks (m : gmap string task_id) (s : t) : t :=
  mk (settings s) m (_active s).
Definition with_active (b : bool) (s : t) : t :=
  mk (settings s) (_reconnect_tasks s) b.
End ReconnectionManager.

Module world.
Import models runtime.

(** Everything that the methods read and write. *)
Record World := mkWorld {
  heap : gmap loc StreamSession;       (* the session objects *)
  tasks : gmap task_id Task;           (* the tasks of the event loop *)
  streamer : TelegramStreamer.t;       (* the process-wide [TelegramStreamer] *)
  manager : ReconnectionManager.t;     (* the [ReconnectionManager] *)
  ticks : nat;                         (* clock readings made so far *)
  draws : nat;                         (* uuids drawn so far *)
  trace : list Event                   (* calls made to the outside, latest first *)
}.

Definition with_heap (h : gmap loc StreamSession) (w : World) : World :=
  mkWorld h (tasks w) (streamer w) (manager w) (ticks w) (draws w) (trace w).
Definition with_tasks (t : gmap task_id Task) (w : World) : World :=
  mkWorld (heap w) t (streamer w) (manager w) (ticks w) (draws w) (trace w).
Definition with_streamer (s : TelegramStreamer.t) (w : World) : World :=
  mkWorld (heap w) (tasks w) s (manager w) (ticks w) (draws w) (trace w).
Definition with_manager (m : ReconnectionManager.t) (w : World) : World :=
  mkWorld (heap w) (tasks w) (streamer w) m (ticks w) (draws w) (trace w).
Definition tick (w : World) : World :=
  mkWorld (heap w) (tasks w) (streamer w) (manager w) (S (ticks w)) (draws w) (trace w).
Definition draw (w : World) : World :=
  mkWorld (heap w) (tasks w) (streamer w) (manager w) (ticks w) (S (draws w)) (trace w).
Definition emit (e : Event) (w : World) : World :=
  mkWorld (heap w) (tasks w) (streamer w) (manager w) (ticks w) (draws w) (e :: trace w).

(** A method: from a world to its result and the world it leaves. *)
Definition M (A : Type) : Type := World -> result A * World.

Definition ret {A} (a : A) : M A := fun w => (Ok a, w).
Definition raise {A} (e : exn) : M A := fun w => (Raise e, w).
Definition bind {A B} (m : M A) (k : A -> M B) : M B :=
  fun w => match m w with
           | (Ok a, w') => k a w'
           | (Raise e, w') => (Raise e, w')
           end.
(** [try: m  except Exception as e: h e]. *)
Definition try_except {A} (m : M A) (h : exn -> M A) : M A :=
  fun w => match m w with
           | (Ok a, w') => (Ok a, w')
           | (Raise e, w') => h e w'
           end.
Definition modify (f : World -> World) : M unit := fun w => (Ok tt, f w).
Definition gets {A} (f : World -> A) : M A := fun w => (Ok (f w), w).
Definition lift {A} (r : result A) : M A := fun w => (r, w).

Declare Scope py_scope.
Delimit Scope py_scope with py.
Notation "'let*' x ':=' m 'in' k" := (bind m (fun x => k))
  (at level 10, x name, m at level 100, k at level 200) : py_scope.
Notation "m ';;' k" := (bind m (fun _ => k))
  (at level 100, k at level 200, right associativity) : py_scope.

(** [obj.f(..)] on a session object: the object is updated in place. *)
Definition update_session (l : loc) (f : StreamSession -> StreamSession) : M unit :=
  modify (fun w => with_heap (alter f l (heap w)) w).

(** The object behind a reference. *)
Definition read (l : loc) : M StreamSession :=
  fun w => match heap w !! l with
           | Some s => (Ok s, w)
           | None => (Raise (Exn RuntimeError "dangling reference"), w)
           end.

(** [task.cancel()]: a request, delivered when the task next runs; a
    task that is done ignores it. *)
Definition request_cancel (k : Task) : Task :=
  if done k then k else mkTask (task_session k) (pc k) true.

Definition task_cancel (t : task_id) : M unit :=
  modify (fun w => with_tasks (alter request_cancel t (tasks w)) w).

(** A new session object. *)
Definition alloc (s : StreamSession) : M loc :=
  fun w => let l := fresh (dom (heap w)) in (Ok l, with_heap (<[l := s]> (heap w)) w).

Section Outside.
Variable out : Outside.

(** [datetime.utcnow()]. *)
Definition utcnow : M Z := fun w => (Ok (utcnow_at out (ticks w)), tick w).
(** [time.monotonic()]. *)
Definition monotonic : M Z := fun w => (Ok (monotonic_at out (ticks w)), tick w).
(** [str(uuid.uuid4())]. *)
Definition uuid4 : M string := fun w => (Ok (uuid4_at out (draws w)), draw w).

(** A call to the outside: answered from the history, then logged. *)
Definition call {A} (e : Event) (answer : list Event -> result A) : M A :=
  fun w => (answer (trace w), emit e w).
End Outside.

End world.

(** ** ffmpeg.py: stopping the subprocess *)

Module ffmpeg_process.
Import models config ffmpeg runtime world.
Local Open Scope py_scope.

Section Outside.
Variable out : Outside.

(** [FFmpegWrapper.stop]: terminate, wait five seconds, kill if still
    alive; a [ProcessLookupError] on the way is swallowed.  Returns the
    wrapper as the call leaves it. *)
Definition stop (self : FFmpegWrapper) : M FFmpegWrapper :=
  let self := mkFFmpegWrapper (source self) (profile self) (settings self)
                (_process self) false in
  match _process self with
  | None => ret self
  | Some pid =>
      (let* alive := call (EvTerminate pid) (fun h => Ok (terminate out h pid)) in
       (if alive : bool then
          let* exited := call (EvWaitFor pid) (fun h => Ok (wait_for out h pid)) in
          if exited : bool then ret tt
          else
            let* killed := call (EvKill pid) (fun h => Ok (kill out h pid)) in
            if killed : bool then call (EvWait pid) (fun _ => Ok tt) else ret tt
        else ret tt) ;;
       ret (mkFFmpegWrapper (source self) (profile self) (settings self) None false))
  end.
End Outside.
End ffmpeg_process.

(** ** streamer.py *)

Module streamer.
Import models config runtime world.
Import TelegramStreamer.
Local Open Scope py_scope.
Local Open Scope list_scope.

(** [chat_identifier: str | int]. *)
Inductive ChatIdentifier :=
| IdInt (n : Z)
| IdStr (s : string).

(** The [profile] argument: a [TranscodeProfile], as the signature says,
    or the plain [str] that a caller holding [session.profile] passes. *)
Inductive ProfileArg :=
| AsEnum (p : TranscodeProfile)
| AsStr (s : string).

(** [profile.value]. *)
Definition profile_value (p : ProfileArg) : result string :=
  match p with
  | AsEnum p => Ok (value p)
  | AsStr _ => Raise (Exn AttributeError "'str' object has no attribute 'value'")
  end.

(** [self._sessions.get(session_id)], with the object it names. *)
Definition get_session (w : World) (session_id : string) : option (loc * StreamSession) :=
  match _sessions (streamer w) !! session_id with
  | Some l => match heap w !! l with
              | Some s => Some (l, s)
              | None => None
              end
  | None => None
  end.

(** [self._sessions.values()]. *)
Definition session_values (w : World) : list StreamSession :=
  omap (fun kl => heap w !! snd kl) (map_to_list (_sessions (streamer w))).

(** The test of the loop at the head of [start_stream]. *)
Definition occupies (chat : Z) (s : StreamSession) : bool :=
  bool_decide (chat_id s = chat)
  && bool_decide (status s ∈ [STREAMING; CONNECTING; RECONNECTING]).

Section Outside.
Variable out : Outside.

Definition _resolve_chat_id (chat_identifier : ChatIdentifier) : M Z :=
  let* st := gets streamer in
  match _client st with
  | None => raise (Exn StreamConnectionError "Client not started")
  | Some _ =>
      match chat_identifier with
      | IdInt n => ret n
      | IdStr s =>
          try_except (call (EvGetChat s) (fun h => get_chat out h s))
            (fun e =>
               if bool_decide (exn_class_of e ∈ [PeerIdInvalid; ChannelPrivate])
               then raise (Exn ChatNotFoundError ("Chat not found: " +:+ s))
               else raise (Exn ChatNotFoundError ("Error resolving chat: " +:+ str e)))
      end
  end.

Definition _prepare_stream_url (src : StreamSource) : M string :=
  if bool_decide (stream_type src = YOUTUBE)
  then call (EvResolveYoutube (url src)) (fun h => resolve_youtube_url out h (url src))
  else ret (url src).

(** [start_stream]; the result is the session object.  The value of
    [_map_video_quality(profile)] is not used and the call cannot raise,
    so it leaves no trace here. *)
Definition start_stream (chat_identifier : ChatIdentifier) (source_url : string)
    (profile : ProfileArg) : M loc :=
  let* st := gets streamer in
  if negb (_started st) then raise (Exn StreamConnectionError "Streamer not started")
  else
    let* chat := _resolve_chat_id chat_identifier in
    let* sessions := gets session_values in
    if existsb (occupies chat) sessions
    then raise (Exn StreamConnectionError ("Already streaming to chat " +:+ PyStr.of_int chat))
    else
      let* u := uuid4 out in
      let session_id := String.substring 0 8 u in
      let src := detect_type source_url in
      let* pv := lift (profile_value profile) in
      let* now := utcnow out in
      let* session := alloc (StreamSession_init now session_id chat src pv) in
      modify (fun w => with_streamer
                (with_sessions (<[session_id := session]> (_sessions (streamer w))) (streamer w)) w) ;;
      try_except
        (update_session session (set_status CONNECTING) ;;
         let* stream_url := _prepare_stream_url src in
         let* tg := gets (fun w => _tgcalls (streamer w)) in
         match tg with
         | None => raise (Exn AttributeError "'NoneType' object has no attribute 'play'")
         | Some _ => call (EvPlay chat stream_url) (fun h => play out h chat stream_url)
         end ;;
         let* now := utcnow out in
         update_session session (mark_streaming now) ;;
         ret session)
        (fun e =>
           update_session session (mark_error (str e)) ;;
           if bool_decide (exn_class_of e ∈ [ChatAdminRequired; UserNotParticipant])
           then raise (Exn PermissionError
                  ("Insufficient permissions to join video chat. "
                   +:+ "Ensure the account/bot has permission to manage video chats."))
           else raise (Exn StreamConnectionError ("Failed to start stream: " +:+ str e))).

Definition stop_stream (session_id : string) : M bool :=
  let* found := gets (fun w => get_session w session_id) in
  match found with
  | None => ret false
  | Some (l, session) =>
      (* Cancel reconnect task if running *)
      (let* rt := gets (fun w => _reconnect_tasks (streamer w) !! session_id) in
       match rt with
       | Some t =>
           task_cancel t ;;
           modify (fun w => with_streamer
                     (with_reconnect_tasks (delete session_id (_reconnect_tasks (streamer w)))
                        (streamer w)) w)
       | None => ret tt
       end) ;;
      (* Stop FFmpeg if running *)
      (let* fp := gets (fun w => _ffmpeg_processes (streamer w) !! session_id) in
       match fp with
       | Some f =>
           ffmpeg_process.stop out f ;;
           modify (fun w => with_streamer
                     (with_ffmpeg_processes (delete session_id (_ffmpeg_processes (streamer w)))
                        (streamer w)) w)
       | None => ret tt
       end) ;;
      (* Leave video chat *)
      (let* tg := gets (fun w => _tgcalls (streamer w)) in
       match tg with
       | Some _ =>
           try_except
             (call (EvLeaveCall (chat_id session)) (fun h => leave_call out h (chat_id session)))
             (fun _ => ret tt)
       | None => ret tt
       end) ;;
      let* now := utcnow out in
      update_session l (mark_stopped now) ;;
      ret true
  end.

Definition pause_stream (session_id : string) : M bool :=
  let* found := gets (fun w => get_session w session_id) in
  match found with
  | None => ret false
  | Some (l, session) =>
      if negb (bool_decide (status session = STREAMING)) then ret false
      else
        let* tg := gets (fun w => _tgcalls (streamer w)) in
        match tg with
        | Some _ =>
            try_except
              (call (EvPauseStream (chat_id session))
                    (fun h => pause_stream_call out h (chat_id session)) ;;
               update_session l (set_status PAUSED) ;;
               ret true)
              (fun _ => ret false)
        | None => ret false
        end
  end.

Definition resume_stream (session_id : string) : M bool :=
  let* found := gets (fun w => get_session w session_id) in
  match found with
  | None => ret false
  | Some (l, session) =>
      if negb (bool_decide (status session = PAUSED)) then ret false
      else
        let* tg := gets (fun w => _tgcalls (streamer w)) in
        match tg with
        | Some _ =>
            try_except
              (call (EvResumeStream (chat_id session))
                    (fun h => resume_stream_call out h (chat_id session)) ;;
               update_session l (set_status STREAMING) ;;
               ret true)
              (fun _ => ret false)
        | None => ret false
        end
  end.
End Outside.
End streamer.

(** ** reconnection.py *)

Module reconnection.
Import models config runtime world.
Import ReconnectionManager.
Local Open Scope py_scope.
Local Open Scope list_scope.

(** tenacity's [wait_exponential(multiplier=1, min=lo, max=hi)] after the
    attempt numbered [n]. *)
Definition wait_exponential (lo hi : Z) (n : Z) : Z :=
  Z.max (Z.max 0 lo) (Z.min (1 * 2 ^ (n - 1)) hi).

(** tenacity's [stop_after_attempt(max_attempts) | stop_after_delay(timeout)]:
    [elapsed] is the monotonic time, in microseconds, from the start of the
    iteration to the end of the attempt numbered [n]. *)
Definition should_stop (cfg : Settings) (n : Z) (elapsed : Z) : bool :=
  (reconnect_max_attempts cfg <=? n)%Z || (reconnect_timeout cfg * 1000000 <=? elapsed)%Z.

(** [retry_if_exception_type((StreamConnectionError, StreamSourceError))]. *)
Definition should_retry (e : exn) : bool :=
  bool_decide (exn_class_of e ∈ [StreamConnectionError; StreamSourceError]).

(** [error or "Disconnected"]. *)
Definition error_or_default (error : option string) : string :=
  match error with
  | Some e => if bool_decide (e = "") then "Disconnected" else e
  | None => "Disconnected"
  end.

(** [session.reconnect_attempts = n; session.last_reconnect_at = now]. *)
Definition note_attempt (n : Z) (now : Z) (s : StreamSession) : StreamSession :=
  mkStreamSession (id s) (chat_id s) (source s) (status s) (profile s)
    (created_at s) (started_at s) (stopped_at s)
    n (Some now)
    (last_error s) (error_count s) (bytes_streamed s) (frames_sent s).

Definition set_tasks (m : gmap string task_id) : M unit :=
  modify (fun w => with_manager (with_reconnect_tasks m (manager w)) w).

Definition set_pc (t : task_id) (p : TaskPc) : M unit :=
  modify (fun w => with_tasks
            (alter (fun k => mkTask (task_session k) p false) t (tasks w)) w).

(** [asyncio.create_task(coro)]. *)
Definition create_task (session : loc) : M task_id :=
  fun w => let t := fresh (dom (tasks w)) in
           (Ok t, with_tasks (<[t := mkTask session Created false]> (tasks w)) w).

Section Outside.
Variable out : Outside.
(** [self._start_stream], the start function given to the constructor.
    ([self._stop_stream] is stored and never called.) *)
Variable start_stream_func : Z -> string -> string -> M unit.

Definition handle_disconnect (session : loc) (error : option string) : M unit :=
  let* cfg := gets (fun w => settings (manager w)) in
  if negb (reconnect_enabled cfg)
  then update_session session (mark_error (error_or_default error))
  else
    let* s := read session in
    if (reconnect_max_attempts cfg <=? reconnect_attempts s)%Z
    then update_session session (mark_error "Max reconnection attempts reached")
    else
      let* rt := gets (fun w => _reconnect_tasks (manager w)) in
      match rt !! id s with
      | None =>
          let* task := create_task session in
          set_tasks (<[id s := task]> rt)
      | Some _ => ret tt
      end.

(** The [finally] clause of [_reconnect_loop]. *)
Definition cleanup (session : loc) : M unit :=
  fun w => match heap w !! session with
           | Some s =>
               let rt := _reconnect_tasks (manager w) in
               match rt !! id s with
               | Some _ => set_tasks (delete (id s) rt) w
               | None => (Ok tt, w)
               end
           | None => (Ok tt, w)
           end.

(** The statements of [with attempt:] that come before the call of the
    start function, for the attempt numbered [n]; the result is the
    session as the call reads it. *)
Definition attempt_prologue (session : loc) (n : Z) : M StreamSession :=
  let* active := gets (fun w => _active (manager w)) in
  if negb active then raise (Exn ReconnectionError "Reconnection manager stopped")
  else
    let* now := utcnow out in
    update_session session (note_attempt n now) ;;
    read session.

(** The body of [with attempt:]: the call is logged, then made. *)
Definition attempt_body (session : loc) (n : Z) : M unit :=
  let* s := attempt_prologue session n in
  modify (emit (EvStartStream (chat_id s) (url (source s)) (profile s))) ;;
  start_stream_func (chat_id s) (url (source s)) (profile s) ;;
  let* now := utcnow out in
  update_session session (mark_streaming now).

(** What the coroutine does with an exception that leaves the
    [async for]: the three [except] clauses.  [RetryError] is never
    raised, because of [reraise=True]. *)
Definition handlers (session : loc) (e : exn) : M unit :=
  if bool_decide (exn_class_of e = ReconnectionError) then ret tt
  else update_session session (mark_error (str e)).

(** The coroutine from the attempt numbered [n] up to its next
    suspension: the attempt, tenacity's decision, and either the sleep
    or the end of the coroutine. *)
Definition run_attempt (t : task_id) (session : loc) (n : Z) (start_time : Z) : M unit :=
  fun w =>
    let (r, w) := attempt_body session n w in
    let (ts, w) := (monotonic_at out (ticks w), tick w) in
    let cfg := settings (manager w) in
    match r with
    | Ok _ =>
        (cleanup session ;; set_pc t Finished) w
    | Raise e =>
        if should_retry e && negb (should_stop cfg n (ts - start_time))
        then
          (modify (emit (EvSleep (wait_exponential (reconnect_min_delay cfg)
                                    (reconnect_max_delay cfg) n))) ;;
           set_pc t (Sleeping (n + 1) start_time)) w
        else
          (handlers session e ;; cleanup session ;; set_pc t Finished) w
    end.

(** The event loop gives the task [t] its turn. *)
Definition run_task (t : task_id) : M unit :=
  let* k := gets (fun w => tasks w !! t) in
  match k with
  | None => ret tt
  | Some k =>
      match pc k with
      | Finished | Cancelled => ret tt
      | Created =>
          if _must_cancel k
          then set_pc t Cancelled        (* thrown in before the first statement *)
          else
            let* now := utcnow out in
            update_session (task_session k) (mark_reconnecting now) ;;
            let* start_time := monotonic out in
            run_attempt t (task_session k) 1 start_time
      | Sleeping n start_time =>
          if _must_cancel k
          then cleanup (task_session k) ;; set_pc t Cancelled
          else run_attempt t (task_session k) n start_time
      end
  end.

(** Give [t] its turn until it is done, at most [fuel] times. *)
Fixpoint run_until_done (fuel : nat) (t : task_id) : M unit :=
  match fuel with
  | O => ret tt
  | S fuel' =>
      let* k := gets (fun w => tasks w !! t) in
      match k with
      | Some k => if done k then ret tt else run_task t ;; run_until_done fuel' t
      | None => ret tt
      end
  end.

(** [await task] for a task that was just asked to cancel: it gets its
    turn, ends, and the [CancelledError] it ends with is caught by the
    caller. *)
Definition await_cancelled (t : task_id) : M unit := run_task t.

Definition cancel_reconnection (session_id : string) : M bool :=
  let* rt := gets (fun w => _reconnect_tasks (manager w)) in
  match rt !! session_id with
  | Some t =>
      task_cancel t ;;
      await_cancelled t ;;
      let* rt := gets (fun w => _reconnect_tasks (manager w)) in
      match rt !! session_id with
      | Some _ => set_tasks (delete session_id rt) ;; ret true
      | None => raise (Exn KeyError ("'" +:+ session_id +:+ "'"))
      end
  | None => ret false
  end.

Definition is_reconnecting (session_id : string) : M bool :=
  let* rt := gets (fun w => _reconnect_tasks (manager w)) in
  ret (bool_decide (is_Some (rt !! session_id))).
End Outside.
End reconnection.

(** ** Propositions used in the statements *)

Module props.
Import models runtime world streamer.
Import TelegramStreamer.

(** The tests of [detect_type], as propositions on the lower-cased url. *)
Definition names_platform (l : string) : Prop :=
  PyStr.is_infix "youtube.com" l \/ PyStr.is_infix "youtu.be" l.
Definition is_m3u (l : string) : Prop := PyStr.is_suffix ".m3u" l.
Definition is_hls (l : string) : Prop :=
  PyStr.is_suffix ".m3u8" l \/ PyStr.is_infix "/hls/" l.
Definition is_rtmp (l : string) : Prop :=
  PyStr.is_prefix "rtmp://" l \/ PyStr.is_prefix "rtmps://" l.

(** The error that [start_stream] raises for a target that is taken.  The
    package has no class of its own for it: it is a
    [StreamConnectionError] with this message. *)
Definition AlreadyStreaming (chat : Z) : exn :=
  Exn StreamConnectionError ("Already streaming to chat " +:+ PyStr.of_int chat).

(** The states that reserve a target. *)
Definition occupying (st : StreamStatus) : Prop :=
  st = CONNECTING \/ st = STREAMING \/ st = RECONNECTING.

(** A request to move the session [session_id] from [from] to [to]
    answered [r] and led from [w] to [w']: either it answered true, the
    session was in [from] and only its status has changed, to [to]; or it
    answered false and no session has changed.  The registry, the tasks
    and the manager are as they were in both cases. *)
Definition status_change (from to : StreamStatus) (session_id : string)
    (w : World) (r : result bool) (w' : World) : Prop :=
  streamer w' = streamer w /\ tasks w' = tasks w /\ manager w' = manager w /\
  ( (r = Ok true /\
     exists l s, get_session w session_id = Some (l, s) /\ status s = from
                 /\ heap w' = <[l := set_status to s]> (heap w))
    \/ (r = Ok false /\ heap w' = heap w) ).

(** The calls of the start function that a trace records. *)
Definition is_start_call (e : Event) : bool :=
  match e with EvStartStream _ _ _ => true | _ => false end.
Definition start_calls (tr : list Event) : list Event := List.filter is_start_call tr.

(** Two session values that are the same session as far as a start call
    can tell: same id, target, source and profile. *)
Definition same_identity (s s' : StreamSession) : Prop :=
  id s' = id s /\ chat_id s' = chat_id s /\ source s' = source s /\ profile s' = profile s.

(** What is asked of a start function, to speak of the session's own
    target, url and profile from one call to the next: a call leaves the
    tasks and the manager alone, keeps the session object [l] and its
    identity, and logs no start call of its own. *)
Definition keeps_session (f : Z -> string -> string -> M unit) (l : loc) : Prop :=
  forall c u p w r w', f c u p w = (r, w') ->
    tasks w' = tasks w /\ manager w' = manager w
    /\ start_calls (trace w') = start_calls (trace w)
    /\ forall s, heap w !! l = Some s ->
         exists s', heap w' !! l = Some s' /\ same_identity s s'.

(** The turns that a loop may still need before it is done, when the
    manager allows [max] attempts. *)
Definition turns_left (max : Z) (p : TaskPc) : nat :=
  match p with
  | Created => Z.to_nat (max - 1) + 1
  | Sleeping n _ => Z.to_nat (max - n) + 1
  | Finished | Cancelled => 0
  end.

(** What a request for the change [from] -> [to] comes to, step by step:
    [ev] is the call made to the transport and [answer] its result. *)
Definition transition (from to : StreamStatus) (ev : Z -> Event)
    (answer : list Event -> Z -> result unit) (session_id : string) : M bool :=
  fun w =>
    match get_session w session_id with
    | Some (l, s) =>
        if bool_decide (status s = from) then
          match _tgcalls (streamer w) with
          | Some _ =>
              match answer (trace w) (chat_id s) with
              | Ok _ => (Ok true, with_heap (<[l := set_status to s]> (heap w))
                                    (emit (ev (chat_id s)) w))
              | Raise _ => (Ok false, emit (ev (chat_id s)) w)
              end
          | None => (Ok false, w)
          end
        else (Ok false, w)
    | None => (Ok false, w)
    end.

(** The start function of the specification.  There the loop re-invokes
    the start pathway of the registry; the package itself never builds a
    [ReconnectionManager], so no module says which function that is.
    This is [TelegramStreamer.start_stream] in that place, called the way
    [_reconnect_loop] calls its start function: with the chat id, the url
    and the profile string of the session. *)
Definition registry_start (out : Outside) : Z -> string -> string -> M unit :=
  fun chat u p =>
    bind (start_stream out (IdInt chat) u (AsStr p)) (fun _ => ret tt).

End props.

(** ** Worlds for the examples *)

Module examples.
Import models config runtime world.
Local Open Scope list_scope.

(** An outside where every call succeeds; the clocks advance by one
    second per reading. *)
Definition calm : Outside :=
  mkOutside
    (fun n => 1000000 * Z.of_nat n)
    (fun n => 1000000 * Z.of_nat n)
    (fun n => "0f8fad5b-d9cb-469f-a165-70867728950e")
    (fun _ _ => Ok (-1001234567890))
    (fun _ u => Ok u)
    (fun _ _ _ => Ok tt)
    (fun _ _ => Ok tt) (fun _ _ => Ok tt) (fun _ _ => Ok tt)
    (fun _ _ => true) (fun _ _ => true) (fun _ _ => true).

(** The same outside with a transport that refuses to pause or resume. *)
Definition stubborn : Outside :=
  mkOutside
    (utcnow_at calm) (monotonic_at calm) (uuid4_at calm) (get_chat calm)
    (resolve_youtube_url calm) (play calm) (leave_call calm)
    (fun _ _ => Raise (Exn RuntimeError "not in a call"))
    (fun _ _ => Raise (Exn RuntimeError "not in a call"))
    (terminate calm) (wait_for calm) (kill calm).

Definition test_settings : Settings := mkSettings "ffmpeg" 2 true 1 5 3 30.

(** A session for the chat of the tests, in the given status. *)
Definition session_in (st : StreamStatus) (started stopped : option Z) : StreamSession :=
  mkStreamSession "abc12345" (-1001234567890)
    (detect_type "https://example.com/live/stream.m3u8") st "720p"
    0 started stopped 0 None None 0 0 0.

(** A started streamer that holds the session [s] under its id. *)
Definition holding (s : StreamSession) : World :=
  mkWorld {[ 0%nat := s ]} ∅
    (TelegramStreamer.mk true (Some TelegramStreamer.Client_handle)
       (Some TelegramStreamer.PyTgCalls_handle) {[ id s := 0%nat ]} ∅ ∅)
    (ReconnectionManager.mk test_settings ∅ true)
    7 0 [].

(** The same registry after [TelegramStreamer.stop]: the sessions stay,
    the client and the transport are gone. *)
Definition shut_down (s : StreamSession) : World :=
  mkWorld {[ 0%nat := s ]} ∅
    (TelegramStreamer.mk false None None {[ id s := 0%nat ]} ∅ ∅)
    (ReconnectionManager.mk test_settings ∅ true)
    7 0 [].

(** A start function that finds the target unreachable, every time. *)
Definition unreachable : Z -> string -> string -> M unit :=
  fun _ _ _ => raise (Exn StreamConnectionError "no route to host").

(** A start function that succeeds, as the [AsyncMock] of the tests. *)
Definition reachable : Z -> string -> string -> M unit :=
  fun _ _ _ => ret tt.

(** The session of [holding] has lost its connection: the manager is
    told, and the task it creates gets its first turn.  With the target
    unreachable the first attempt fails and the loop sleeps. *)
Definition streaming : World := holding (session_in STREAMING (Some 100) None).
Definition disconnected : World :=
  snd (reconnection.handle_disconnect 0%nat None streaming).
Definition retrying : World :=
  snd (reconnection.run_task calm unreachable 0%nat disconnected).

End examples.

(** ** streamer.py: the listings and the shutdown of the streamer *)

Module streamer_admin.
Import models config runtime world streamer.
Import TelegramStreamer.
Local Open Scope py_scope.
Local Open Scope list_scope.

(** [get_all_sessions]: [list(self._sessions.values())].  The list comes
    in the order of the keys here, and in the order of insertion in
    Python; what is proved of it does not depend on the order. *)
Definition get_all_sessions (w : World) : list StreamSession := session_values w.

(** [get_active_sessions]. *)
Definition get_active_sessions (w : World) : list StreamSession :=
  List.filter (fun s => bool_decide (status s ∈ [STREAMING; PAUSED; RECONNECTING]))
    (session_values w).

Definition with_started (b : bool) (s : TelegramStreamer.t) : TelegramStreamer.t :=
  mk b (_client s) (_tgcalls s) (_sessions s) (_ffmpeg_processes s) (_reconnect_tasks s).
Definition with_client (c : option Client) (s : TelegramStreamer.t) : TelegramStreamer.t :=
  mk (_started s) c (_tgcalls s) (_sessions s) (_ffmpeg_processes s) (_reconnect_tasks s).
Definition with_tgcalls (c : option PyTgCalls) (s : TelegramStreamer.t) : TelegramStreamer.t :=
  mk (_started s) (_client s) c (_sessions s) (_ffmpeg_processes s) (_reconnect_tasks s).

(** [for task in tasks: task.cancel()]. *)
Fixpoint cancel_tasks (ts : list task_id) : M unit :=
  match ts with
  | [] => ret tt
  | t :: ts => task_cancel t ;; cancel_tasks ts
  end.

Section Outside.
Variable out : Outside.
(** [await self._tgcalls.stop()] and [await self._client.stop()]: what the
    two libraries answer, given the calls made so far.  The two calls are
    not among the events of a trace. *)
Variable tgcalls_stop : list Event -> result unit.
Variable client_stop : list Event -> result unit.

(** [for session_id in ids: await self.stop_stream(session_id)]. *)
Fixpoint stop_sessions (ids : list string) : M unit :=
  match ids with
  | [] => ret tt
  | session_id :: ids => stop_stream out session_id ;; stop_sessions ids
  end.

(** [TelegramStreamer.stop].  [ids] is [list(self._sessions.keys())]: the
    registered ids in the order of their insertion, which the map does not
    record. *)
Definition stop (ids : list string) : M unit :=
  (* Stop all active streams *)
  stop_sessions ids ;;
  (* Stop reconnect tasks *)
  (let* rt := gets (fun w => _reconnect_tasks (streamer w)) in
   cancel_tasks (map snd (map_to_list rt))) ;;
  modify (fun w => with_streamer (with_reconnect_tasks ∅ (streamer w)) w) ;;
  (* Stop PyTgCalls *)
  (let* tg := gets (fun w => _tgcalls (streamer w)) in
   match tg with
   | Some _ =>
       try_except (fun w => (tgcalls_stop (trace w), w)) (fun _ => ret tt) ;;
       modify (fun w => with_streamer (with_tgcalls None (streamer w)) w)
   | None => ret tt
   end) ;;
  (* Stop Pyrogram *)
  (let* cl := gets (fun w => _client (streamer w)) in
   match cl with
   | Some _ =>
       try_except (fun w => (client_stop (trace w), w)) (fun _ => ret tt) ;;
       modify (fun w => with_streamer (with_client None (streamer w)) w)
   | None => ret tt
   end) ;;
  modify (fun w => with_streamer (with_started false (streamer w)) w).
End Outside.
End streamer_admin.

(** ** reconnection.py: the shutdown of the manager, the health monitor *)

Module manager_admin.
Import models config runtime world reconnection.
Import ReconnectionManager.
Local Open Scope py_scope.
Local Open Scope list_scope.

Section Outside.
Variable out : Outside.
Variable start_stream_func : Z -> string -> string -> M unit.

(** [for session_id in ids: await self.cancel_reconnection(session_id)]. *)
Fixpoint cancel_each (ids : list string) : M unit :=
  match ids with
  | [] => ret tt
  | session_id :: ids =>
      cancel_reconnection out start_stream_func session_id ;; cancel_each ids
  end.

(** [ReconnectionManager.stop].  [ids] is
    [list(self._reconnect_tasks.keys())], in the order of insertion. *)
Definition stop (ids : list string) : M unit :=
  modify (fun w => with_manager (with_active false (manager w)) w) ;;
  cancel_each ids.
End Outside.
End manager_admin.

Module HealthMonitor.
Import models config runtime world.
Local Open Scope py_scope.
Local Open Scope list_scope.

(** The fields of a [HealthMonitor] that its checks use.  (The reference
    to the [ReconnectionManager], which it also stores, is never read.) *)
Record t := mk {
  _check_interval : Z;
  _sessions : gmap string loc;
  _active : bool
}.

(** [register_session], for the session object [session] whose id is
    [session_id]. *)
Definition register_session (session_id : string) (session : loc) (self : t) : t :=
  mk (_check_interval self) (<[session_id := session]> (_sessions self)) (_active self).

Definition unregister_session (session_id : string) (self : t) : t :=
  match _sessions self !! session_id with
  | Some _ => mk (_check_interval self) (delete session_id (_sessions self)) (_active self)
  | None => self
  end.

Section Outside.
Variable out : Outside.

(** [_check_session]: a session that is streaming or paused has its
    duration read, for the log; reading the duration reads the clock when
    the session has started and is not stopped. *)
Definition _check_session (session : loc) : M unit :=
  let* s := read session in
  if negb (bool_decide (status s ∈ [STREAMING; PAUSED])) then ret tt
  else
    match started_at s, stopped_at s with
    | Some _, None => utcnow out ;; ret tt
    | _, _ => ret tt
    end.

Fixpoint check_each (sessions : list loc) : M unit :=
  match sessions with
  | [] => ret tt
  | session :: sessions => _check_session session ;; check_each sessions
  end.

(** [_check_all_sessions]: [for session in list(self._sessions.values())]. *)
Definition _check_all_sessions (self : t) : M unit :=
  check_each (map snd (map_to_list (_sessions self))).
End Outside.
End HealthMonitor.

(** ** Invariants of the registry *)

Module invariants.
Import models runtime world streamer props.
Import TelegramStreamer.

(** Every registered id names a session object. *)
Definition registered_live (w : World) : Prop :=
  forall session_id l, _sessions (streamer w) !! session_id = Some l -> is_Some (heap w !! l).

(** No two registered sessions reserve the same chat. *)
Definition exclusive (w : World) : Prop :=
  forall i j li lj si sj,
    i <> j ->
    get_session w i = Some (li, si) -> get_session w j = Some (lj, sj) ->
    occupying (status si) -> occupying (status sj) ->
    chat_id si <> chat_id sj.

(** The session that [start_stream] builds for the chat [chat], before it
    connects: the constructor with the defaults, then [CONNECTING]. *)
Definition connecting_session (now : Z) (session_id : string) (chat : Z)
    (source_url : string) (profile : config.TranscodeProfile) : StreamSession :=
  set_status CONNECTING
    (StreamSession_init now session_id chat (detect_type source_url) (config.value profile)).

(** From [w] to [w'] every session object is still there, is the same
    session, and is still stopped if it was. *)
Definition stopped_more (w w' : World) : Prop :=
  forall l s, heap w !! l = Some s ->
    exists s', heap w' !! l = Some s' /\ same_identity s s'
               /\ (status s = STOPPED -> status s' = STOPPED).
End invariants.

(** ** More worlds for the examples *)

Module scenarios.
Import models config runtime world examples.

(** A start function that is refused for lack of permission. *)
Definition forbidden : Z -> string -> string -> M unit :=
  fun _ _ _ => raise (Exn PermissionError "not allowed to manage video chats").

(** The world of [retrying] after the manager was told to stop. *)
Definition manager_off : World :=
  with_manager (ReconnectionManager.with_active false (manager retrying)) retrying.

(** The session of [streaming] is paused, and then a second session is
    started for its chat. *)
Definition paused : World := snd (streamer.pause_stream calm "abc12345" streaming).
Definition doubled : World :=
  snd (streamer.start_stream calm (streamer.IdInt (-1001234567890)) "rtmp://h/k"
         (streamer.AsEnum AUTO) paused).

(** A health monitor with nothing to watch. *)
Definition idle_monitor : HealthMonitor.t := HealthMonitor.mk 30 ∅ false.
End scenarios.

(** * Theorems *)

Import models config runtime world.

(** ** Strings: the searches decide what they are meant to decide *)

Section StringSearch.
Import PyStr.

Lemma append_cons (c : ascii) (l r : string) : String c l +:+ r = String c (l +:+ r).
Proof. reflexivity. Qed.

Lemma append_nil (r : string) : "" +:+ r = r.
Proof. reflexivity. Qed.

Lemma startswith_spec (p s : string) : startswith p s = true <-> is_prefix p s.
Proof.
  revert s. induction p as [|a p IH]; intros s; simpl.
  - split; [intros _; exists s; reflexivity | reflexivity].
  - destruct s as [|b s].
    + split; [discriminate | intros [r Hr]; discriminate].
    + destruct (Ascii.eqb_spec a b) as [->|Hab].
      * rewrite IH. split.
        -- intros [r ->]. exists r. reflexivity.
        -- intros [r Hr]. rewrite append_cons in Hr. injection Hr as ->. exists r. reflexivity.
      * split; [discriminate|]. intros [r Hr]. rewrite append_cons in Hr. congruence.
Qed.

Lemma contains_spec (p s : string) : contains p s = true <-> is_infix p s.
Proof.
  split.
  - induction s as [|c s IH]; simpl.
    + destruct (startswith p "") eqn:E; [|discriminate].
      intros _. apply startswith_spec in E as [r Hr]. exists "", r. exact Hr.
    + destruct (startswith p (String c s)) eqn:E.
      * intros _. apply startswith_spec in E as [r Hr]. exists "", r. exact Hr.
      * intros H. destruct (IH H) as (l & r & ->). exists (String c l), r. reflexivity.
  - intros (l & r & ->). induction l as [|c l IH].
    + rewrite append_nil.
      assert (E : startswith p (p +:+ r) = true)
        by (apply startswith_spec; exists r; reflexivity).
      destruct (p +:+ r); simpl; rewrite E; reflexivity.
    + rewrite append_cons. simpl.
      destruct (startswith p (String c (l +:+ (p +:+ r)))); [reflexivity|exact IH].
Qed.

Lemma endswith_spec (p s : string) : endswith p s = true <-> is_suffix p s.
Proof.
  split.
  - induction s as [|c s IH]; simpl.
    + destruct (String.eqb_spec p "") as [->|]; [|discriminate].
      intros _. exists "". reflexivity.
    + destruct (String.eqb_spec p (String c s)) as [->|].
      * intros _. exists "". reflexivity.
      * intros H. destruct (IH H) as [l ->]. exists (String c l). reflexivity.
  - intros [l ->]. induction l as [|c l IH].
    + rewrite append_nil. destruct p; simpl; rewrite ?String.eqb_refl, ?Ascii.eqb_refl; reflexivity.
    + rewrite append_cons. simpl.
      destruct (String.eqb p (String c (l +:+ p))); [reflexivity|exact IH].
Qed.

End StringSearch.

(** ** Source classification (C3) *)

Section Classification.
Import PyStr props.

Lemma orb_spec_prop (a b : bool) (P Q : Prop) :
  (a = true <-> P) -> (b = true <-> Q) -> (a || b = true <-> P \/ Q).
Proof. intros HP HQ. rewrite orb_true_iff, HP, HQ. reflexivity. Qed.

Lemma names_platform_dec (l : string) :
  contains "youtube.com" l || contains "youtu.be" l = true <-> names_platform l.
Proof. apply orb_spec_prop; apply contains_spec. Qed.

Lemma is_hls_dec (l : string) :
  endswith ".m3u8" l || contains "/hls/" l = true <-> is_hls l.
Proof. apply orb_spec_prop; [apply endswith_spec | apply contains_spec]. Qed.

Lemma is_rtmp_dec (l : string) :
  startswith "rtmp://" l || startswith "rtmps://" l = true <-> is_rtmp l.
Proof. apply orb_spec_prop; apply startswith_spec. Qed.

End Classification.

Import props.

(** C3, as amended.  [detect_type] is total, keeps the url, and decides the
    kind by the first rule that applies to the lower-cased url: the url
    names a video platform anywhere in it (not only in its host); it ends
    in ".m3u"; it ends in ".m3u8" or contains "/hls/"; it starts with
    "rtmp://" or "rtmps://"; otherwise HLS.  The six example urls of the
    specification get HLS, M3U, RTMP, RTMP, YOUTUBE and HLS. *)
Theorem detect_type_rules (u : string) :
  let l := PyStr.lower u in
  let kind := stream_type (detect_type u) in
  url (detect_type u) = u /\
  ( (names_platform l /\ kind = YOUTUBE)
    \/ (~ names_platform l /\ is_m3u l /\ kind = M3U)
    \/ (~ names_platform l /\ ~ is_m3u l /\ is_hls l /\ kind = HLS)
    \/ (~ names_platform l /\ ~ is_m3u l /\ ~ is_hls l /\ is_rtmp l /\ kind = RTMP)
    \/ (~ names_platform l /\ ~ is_m3u l /\ ~ is_hls l /\ ~ is_rtmp l /\ kind = HLS) ) /\
  stream_type (detect_type "https://x/live/a.m3u8") = HLS /\
  stream_type (detect_type "https://x/a.m3u") = M3U /\
  stream_type (detect_type "rtmp://h/k") = RTMP /\
  stream_type (detect_type "rtmps://h/k") = RTMP /\
  stream_type (detect_type "https://youtu.be/z") = YOUTUBE /\
  stream_type (detect_type "https://x/video/feed") = HLS.
Proof.
  intros l kind. subst kind. unfold detect_type. fold l.
  pose proof (names_platform_dec l) as Hy.
  pose proof (endswith_spec ".m3u" l) as Hm. fold (is_m3u l) in Hm.
  pose proof (is_hls_dec l) as Hh.
  pose proof (is_rtmp_dec l) as Hr.
  split; [|split; [|repeat split; reflexivity]].
  - repeat match goal with |- context [if ?b then _ else _] => destruct b end; reflexivity.
  - assert (neg : forall P : Prop, (false = true <-> P) -> ~ P)
      by (intros P HP N; apply HP in N; discriminate).
    destruct (PyStr.contains "youtube.com" l || PyStr.contains "youtu.be" l).
    { left. split; [apply Hy; reflexivity | reflexivity]. }
    apply neg in Hy. right.
    destruct (PyStr.endswith ".m3u" l).
    { left. repeat split; [exact Hy | apply Hm; reflexivity]. }
    apply neg in Hm. right.
    destruct (PyStr.endswith ".m3u8" l || PyStr.contains "/hls/" l).
    { left. repeat split; [exact Hy | exact Hm | apply Hh; reflexivity]. }
    apply neg in Hh. right.
    destruct (PyStr.startswith "rtmp://" l || PyStr.startswith "rtmps://" l).
    { left. repeat split; [exact Hy | exact Hm | exact Hh | apply Hr; reflexivity]. }
    apply neg in Hr. right.
    repeat split; assumption.
Qed.

(** C3, as stated, fails: the url below has the host "example.com", which
    is no video platform, and ends in ".m3u", so the rules of the claim
    make it a playlist; [detect_type] finds "youtube.com" in its path and
    answers YOUTUBE. *)
Lemma detect_type_not_by_hostname :
  spec_words.hostname "https://example.com/lists/youtube.com.m3u" = "example.com"
  /\ spec_words.classify "https://example.com/lists/youtube.com.m3u" = M3U
  /\ stream_type (detect_type "https://example.com/lists/youtube.com.m3u") = YOUTUBE
  /\ stream_type (detect_type "https://example.com/lists/youtube.com.m3u")
     <> spec_words.classify "https://example.com/lists/youtube.com.m3u".
Proof. repeat split; try reflexivity. vm_compute. discriminate. Qed.

(** ** The profile catalog (C6) *)

Lemma TranscodeSettings_init_raises (depth : nat) (w h : Z) (vb ab : string) (f : Z) :
  TranscodeSettings_init depth w h vb ab f
  = Raise (Exn RecursionError "maximum recursion depth exceeded").
Proof.
  revert w h vb ab f. induction depth as [|d IH]; intros w h vb ab f.
  - reflexivity.
  - cbn [TranscodeSettings_init]. rewrite IH. reflexivity.
Qed.

(** C6: the code does not do what the claim says.  Whatever the profile
    name and however deep the interpreter may still recurse, [get_profile]
    raises [RecursionError]: building the first entry of its table runs
    [__post_init__], which builds the table again. *)
Theorem get_profile_raises (depth : nat) (profile : string) :
  get_profile depth profile = Raise (Exn RecursionError "maximum recursion depth exceeded").
Proof.
  unfold get_profile, get_profile_of. rewrite TranscodeSettings_init_raises. reflexivity.
Qed.

(** The table that [get_profile] spells out, had the constructor returned:
    the entries of the claim. *)
Lemma profile_table_entries :
  profile_table "480p" = Ok (Some (mkTranscodeSettings 854 480 "1500k" "128k" 30)) /\
  profile_table "720p" = Ok (Some (mkTranscodeSettings 1280 720 "3000k" "128k" 30)) /\
  profile_table "1080p" = Ok (Some (mkTranscodeSettings 1920 1080 "5000k" "128k" 30)) /\
  profile_table "auto" = Ok None.
Proof. repeat split; reflexivity. Qed.

Lemma profile_table_unknown (profile : string) :
  profile <> "480p" -> profile <> "720p" -> profile <> "1080p" ->
  profile_table profile = Ok None.
Proof.
  intros H1 H2 H3. unfold profile_table, get_profile_of. f_equal.
  rewrite !lookup_insert_ne by congruence. apply lookup_empty.
Qed.

(** ** The argument builder (C7) *)

Section Builder.
Import ffmpeg.
Local Open Scope list_scope.

(** C7: the code does not do what the claim says.  [build_command] asks
    [TranscodeSettings.get_profile] for the profile, under AUTO as under
    a named profile, so for every source, profile and output it raises
    [RecursionError] and builds no argument list (the defect of C6). *)
Theorem build_command_raises (depth : nat) (self : FFmpegWrapper) (output : string) :
  build_command depth self output
  = Raise (Exn RecursionError "maximum recursion depth exceeded")
  /\ _build_video_args depth self
     = Raise (Exn RecursionError "maximum recursion depth exceeded")
  /\ _build_audio_args depth self
     = Raise (Exn RecursionError "maximum recursion depth exceeded").
Proof.
  unfold build_command, build_command_of, _build_video_args, _build_audio_args,
    _build_video_args_of, _build_audio_args_of.
  unfold get_profile, get_profile_of.
  rewrite !TranscodeSettings_init_raises. repeat split; reflexivity.
Qed.

(** The two builders that do not consult the catalog behave as the claim
    says: reconnect flags exactly for HLS, M3U8 and M3U sources, the live
    flag exactly for RTMP, and a flushed mpegts container on the output. *)
Lemma _build_input_args_flags (self : FFmpegWrapper) :
  _build_input_args self
  = (if bool_decide (stream_type (source self) ∈ [HLS; M3U8; M3U]) then reconnect_flags else [])
    ++ (if bool_decide (stream_type (source self) = RTMP) then rtmp_live_flags else [])
    ++ ["-analyzeduration"; "5000000"; "-probesize"; "5000000";
        "-fflags"; "+genpts+discardcorrupt"; "-i"; url (source self)].
Proof.
  unfold _build_input_args.
  destruct (bool_decide (stream_type (source self) ∈ [HLS; M3U8; M3U]));
    destruct (bool_decide (stream_type (source self) = RTMP)); reflexivity.
Qed.

Lemma _build_output_args_container (output : string) :
  _build_output_args output = ["-f"; "mpegts"; "-flush_packets"; "1"; output].
Proof. reflexivity. Qed.

(** With the table of [profile_table_entries] in the place of the lookup,
    the command is the one the claim describes. *)
Lemma build_command_of_table (self : FFmpegWrapper) (output : string) :
  build_command_of profile_table self output
  = Ok ([ffmpeg_path (settings self); "-y"; "-hide_banner"; "-loglevel"; "warning";
         "-threads"; PyStr.of_int (ffmpeg_threads (settings self))]
        ++ _build_input_args self
        ++ match profile self with
           | AUTO => ["-c:v"; "copy"; "-c:a"; "copy"]
           | P480 => ["-c:v"; "libx264"; "-preset"; "ultrafast"; "-tune"; "zerolatency";
                      "-vf"; "scale=854:480"; "-b:v"; "1500k"; "-maxrate"; "1500k";
                      "-bufsize"; "3000k"; "-r"; "30"; "-g"; "60"; "-pix_fmt"; "yuv420p";
                      "-c:a"; "aac"; "-b:a"; "128k"; "-ar"; "48000"; "-ac"; "2"]
           | P720 => ["-c:v"; "libx264"; "-preset"; "ultrafast"; "-tune"; "zerolatency";
                      "-vf"; "scale=1280:720"; "-b:v"; "3000k"; "-maxrate"; "3000k";
                      "-bufsize"; "6000k"; "-r"; "30"; "-g"; "60"; "-pix_fmt"; "yuv420p";
                      "-c:a"; "aac"; "-b:a"; "128k"; "-ar"; "48000"; "-ac"; "2"]
           | P1080 => ["-c:v"; "libx264"; "-preset"; "ultrafast"; "-tune"; "zerolatency";
                       "-vf"; "scale=1920:1080"; "-b:v"; "5000k"; "-maxrate"; "5000k";
                       "-bufsize"; "10000k"; "-r"; "30"; "-g"; "60"; "-pix_fmt"; "yuv420p";
                       "-c:a"; "aac"; "-b:a"; "128k"; "-ar"; "48000"; "-ac"; "2"]
           end
        ++ ["-f"; "mpegts"; "-flush_packets"; "1"; output]).
Proof.
  unfold build_command_of, _build_video_args_of, _build_audio_args_of.
  destruct (profile self); cbn [value];
    [ replace (profile_table "auto") with (@Ok (option TranscodeSettings) None) by reflexivity
    | replace (profile_table "480p")
        with (Ok (Some (mkTranscodeSettings 854 480 "1500k" "128k" 30))) by reflexivity
    | replace (profile_table "720p")
        with (Ok (Some (mkTranscodeSettings 1280 720 "3000k" "128k" 30))) by reflexivity
    | replace (profile_table "1080p")
        with (Ok (Some (mkTranscodeSettings 1920 1080 "5000k" "128k" 30))) by reflexivity ];
    cbn -[_build_input_args PyStr.of_int app]; rewrite <- ?app_assoc; reflexivity.
Qed.
End Builder.

(** ** The derived duration (C9) *)

(** C9.  The duration is zero as long as [started_at] is unset, and
    otherwise runs from [started_at] to [stopped_at], or to the present
    when [stopped_at] is unset.  After [mark_streaming] it does not
    decrease as time passes, and it is the time passed since then while the
    session is not stopped; after [mark_stopped] it no longer depends on
    the present. *)
Theorem duration_seconds_spec (s : StreamSession) :
  (forall now, started_at s = None -> duration_seconds now s = 0) /\
  (forall now t0, started_at s = Some t0 ->
     duration_seconds now s
     = (match stopped_at s with Some t1 => t1 | None => now end) - t0) /\
  (forall t now1 now2, now1 <= now2 ->
     duration_seconds now1 (mark_streaming t s) <= duration_seconds now2 (mark_streaming t s)) /\
  (forall t now, stopped_at s = None ->
     duration_seconds now (mark_streaming t s) = now - t) /\
  (forall t now1 now2,
     duration_seconds now1 (mark_stopped t s) = duration_seconds now2 (mark_stopped t s)).
Proof.
  unfold duration_seconds. repeat split.
  - intros now ->. reflexivity.
  - intros now t0 ->. reflexivity.
  - intros t now1 now2 Hle. cbn. destruct (stopped_at s); lia.
  - intros t now H. cbn. rewrite H. reflexivity.
Qed.

(** A session that streams since 100 and is stopped at 160. *)
Lemma duration_seconds_spec_witness :
  let s := mark_streaming 100
             (StreamSession_init 0 "abc12345" (-1001234567890)
                (detect_type "https://x/live/a.m3u8") "720p") in
  duration_seconds 50 (StreamSession_init 0 "abc12345" (-1001234567890)
                         (detect_type "https://x/live/a.m3u8") "720p") = 0
  /\ duration_seconds 130 s = 30
  /\ duration_seconds 130 s <= duration_seconds 150 s
  /\ duration_seconds 170 (mark_stopped 160 s) = 60
  /\ duration_seconds 990 (mark_stopped 160 s) = 60.
Proof.
  intros s.
  pose proof (duration_seconds_spec
                (StreamSession_init 0 "abc12345" (-1001234567890)
                   (detect_type "https://x/live/a.m3u8") "720p")) as (H0 & _ & Hmono & Hrun & _).
  pose proof (duration_seconds_spec s) as (_ & _ & _ & _ & Hfrozen).
  split; [apply H0; reflexivity|].
  split; [apply (Hrun 100 130); reflexivity|].
  split; [apply (Hmono 100 130 150); lia|].
  split; [reflexivity|].
  rewrite (Hfrozen 160 990 170). reflexivity.
Defined.

(** ** The registry: stop, pause, resume, start *)

Section Registry.
Import streamer TelegramStreamer props.
Local Open Scope list_scope.
Variable out : Outside.

(** Unfolding of the monad. *)
Ltac mred :=
  unfold task_cancel, update_session, utcnow, monotonic, uuid4, call, try_except, lift,
    bind, ret, raise, gets, modify in *;
  cbn beta iota zeta in *.

Ltac in_list := rewrite ?elem_of_cons; tauto.
Ltac not_in_list :=
  rewrite ?not_elem_of_cons; repeat split; try discriminate; apply not_elem_of_nil.

(** [FFmpegWrapper.stop] does not raise, touches nothing but the
    subprocess, and signals the process if there is one. *)
Lemma ffmpeg_stop_frame (f : ffmpeg.FFmpegWrapper) (w : World) :
  exists f' evs,
    ffmpeg_process.stop out f w
    = (Ok f', mkWorld (heap w) (tasks w) (streamer w) (manager w) (ticks w) (draws w)
                (evs ++ trace w))
    /\ ffmpeg._process f' = None /\ ffmpeg._running f' = false
    /\ (forall pid, ffmpeg._process f = Some pid -> EvTerminate pid ∈ evs)
    /\ (forall c, EvLeaveCall c ∉ evs).
Proof.
  unfold ffmpeg_process.stop. cbn [ffmpeg._process].
  destruct (ffmpeg._process f) as [pid|] eqn:Ep.
  - destruct (terminate out (trace w) pid) eqn:E1;
      [destruct (wait_for out (EvTerminate pid :: trace w) pid) eqn:E2;
        [|destruct (kill out (EvWaitFor pid :: EvTerminate pid :: trace w) pid) eqn:E3]|];
      mred; cbn; rewrite ?E1; cbn; rewrite ?E2; cbn; rewrite ?E3; cbn.
    + exists (ffmpeg.mkFFmpegWrapper (ffmpeg.source f) (ffmpeg.profile f) (ffmpeg.settings f) None false),
        [EvWaitFor pid; EvTerminate pid].
      repeat split; [intros p Hp; injection Hp as <-; in_list | intros c; not_in_list].
    + exists (ffmpeg.mkFFmpegWrapper (ffmpeg.source f) (ffmpeg.profile f) (ffmpeg.settings f) None false),
        [EvWait pid; EvKill pid; EvWaitFor pid; EvTerminate pid].
      repeat split; [intros p Hp; injection Hp as <-; in_list | intros c; not_in_list].
    + exists (ffmpeg.mkFFmpegWrapper (ffmpeg.source f) (ffmpeg.profile f) (ffmpeg.settings f) None false),
        [EvKill pid; EvWaitFor pid; EvTerminate pid].
      repeat split; [intros p Hp; injection Hp as <-; in_list | intros c; not_in_list].
    + exists (ffmpeg.mkFFmpegWrapper (ffmpeg.source f) (ffmpeg.profile f) (ffmpeg.settings f) None false),
        [EvTerminate pid].
      repeat split; [intros p Hp; injection Hp as <-; in_list | intros c; not_in_list].
  - mred.
    exists (ffmpeg.mkFFmpegWrapper (ffmpeg.source f) (ffmpeg.profile f) (ffmpeg.settings f) None false), [].
    destruct w. repeat split; [intros p Hp; discriminate Hp | intros c; not_in_list].
Qed.

Lemma stop_stream_unknown (w : World) (session_id : string) :
  _sessions (streamer w) !! session_id = None ->
  stop_stream out session_id w = (Ok false, w).
Proof.
  intros H. unfold stop_stream, get_session. mred. rewrite H. reflexivity.
Qed.

(** What [stop_stream] does to a session it finds. *)
Lemma stop_stream_known (w : World) (session_id : string) (l : loc) (s : StreamSession) :
  get_session w session_id = Some (l, s) ->
  exists w' evs,
    stop_stream out session_id w = (Ok true, w')
    /\ heap w' = alter (mark_stopped (utcnow_at out (ticks w))) l (heap w)
    /\ _sessions (streamer w') = _sessions (streamer w)
    /\ _started (streamer w') = _started (streamer w)
    /\ _client (streamer w') = _client (streamer w)
    /\ _tgcalls (streamer w') = _tgcalls (streamer w)
    /\ _reconnect_tasks (streamer w') = delete session_id (_reconnect_tasks (streamer w))
    /\ tasks w' = match _reconnect_tasks (streamer w) !! session_id with
                  | Some t => alter request_cancel t (tasks w)
                  | None => tasks w
                  end
    /\ _ffmpeg_processes (streamer w') = delete session_id (_ffmpeg_processes (streamer w))
    /\ manager w' = manager w
    /\ ticks w' = S (ticks w)
    /\ draws w' = draws w
    /\ trace w' = match _tgcalls (streamer w) with
                  | Some _ => [EvLeaveCall (chat_id s)]
                  | None => []
                  end ++ evs ++ trace w
    /\ (forall c, EvLeaveCall c ∉ evs)
    /\ (forall f pid, _ffmpeg_processes (streamer w) !! session_id = Some f ->
                      ffmpeg._process f = Some pid -> EvTerminate pid ∈ evs).
Proof.
  intros H. unfold stop_stream. mred. rewrite H. cbn.
  assert (Hnil : forall c, EvLeaveCall c ∉ @nil Event) by (intros c Hc; inversion Hc).
  destruct (_reconnect_tasks (streamer w) !! session_id) as [t|] eqn:Et;
    destruct (_ffmpeg_processes (streamer w) !! session_id) as [f|] eqn:Ef;
    destruct (_tgcalls (streamer w)) eqn:Etg;
    cbn; rewrite ?Ef; cbn;
    try (match goal with |- context [ffmpeg_process.stop out f ?w0] =>
           destruct (ffmpeg_stop_frame f w0) as (f' & evs & -> & _ & _ & Hterm & Hleave) end;
         cbn);
    rewrite ?Etg; cbn;
    try (destruct (leave_call out _ _); cbn);
    eexists;
    first [ exists evs; split; [reflexivity|]
          | exists (@nil Event); split; [reflexivity|] ];
    cbn; repeat split;
    first [ reflexivity
          | assumption
          | symmetry; apply delete_id; assumption
          | exact Hleave
          | exact Hnil
          | intros f0 pid Hf Hp; first [discriminate Hf | injection Hf as <-; eauto] ].
Qed.

Lemma get_session_Some (w : World) (session_id : string) (l : loc) (s : StreamSession) :
  get_session w session_id = Some (l, s) <->
  _sessions (streamer w) !! session_id = Some l /\ heap w !! l = Some s.
Proof.
  unfold get_session.
  destruct (_sessions (streamer w) !! session_id) as [l'|]; [|split; [discriminate|intros [? _]; discriminate]].
  destruct (heap w !! l') as [s'|] eqn:E.
  - split; [intros [= <- <-]; auto | intros [[= <-] H]; congruence].
  - split; [discriminate | intros [[= <-] H]; congruence].
Qed.

Lemma alter_at (h : gmap loc StreamSession) (l : loc) (s : StreamSession)
    (f : StreamSession -> StreamSession) :
  h !! l = Some s -> alter f l h = <[l := f s]> h.
Proof.
  intros H. rewrite <- (insert_id h l s H) at 1. apply alter_insert_eq.
Qed.

(** C4, as amended.  [stop_stream] on an unknown id returns false and
    leaves the world as it is.  On a known id it asks the task registered
    for the id in the streamer's own task table to cancel and drops it,
    stops the transcoder registered for the id and drops it, calls the
    transport's leave when the streamer has a transport (a failure of the
    call is swallowed), marks the session stopped and returns true; a
    second call on the same id returns true again and does not raise. *)
Theorem stop_stream_spec (w : World) (session_id : string) :
  (_sessions (streamer w) !! session_id = None ->
     stop_stream out session_id w = (Ok false, w)) /\
  (forall l s, get_session w session_id = Some (l, s) ->
     exists w1 w2,
       stop_stream out session_id w = (Ok true, w1)
       /\ (forall t k, _reconnect_tasks (streamer w) !! session_id = Some t ->
                       tasks w !! t = Some k -> done k = false ->
                       tasks w1 !! t = Some (mkTask (task_session k) (pc k) true))
       /\ _reconnect_tasks (streamer w1) !! session_id = None
       /\ (forall f pid, _ffmpeg_processes (streamer w) !! session_id = Some f ->
                         ffmpeg._process f = Some pid -> EvTerminate pid ∈ trace w1)
       /\ _ffmpeg_processes (streamer w1) !! session_id = None
       /\ (forall tg, _tgcalls (streamer w) = Some tg ->
                      exists evs, trace w1 = EvLeaveCall (chat_id s) :: evs ++ trace w)
       /\ heap w1 = <[l := mark_stopped (utcnow_at out (ticks w)) s]> (heap w)
       /\ status (mark_stopped (utcnow_at out (ticks w)) s) = STOPPED
       /\ _sessions (streamer w1) = _sessions (streamer w)
       /\ stop_stream out session_id w1 = (Ok true, w2)).
Proof.
  split; [apply stop_stream_unknown|].
  intros l s H.
  destruct (stop_stream_known w session_id l s H)
    as (w1 & evs & E1 & Hheap & Hsess & _ & _ & Htg & Hrt & Htasks & Hff & _ & _ & _
        & Htrace & _ & Hterm).
  pose proof (proj1 (get_session_Some _ _ _ _) H) as [Hl Hs].
  rewrite (alter_at _ _ _ _ Hs) in Hheap.
  assert (H1 : get_session w1 session_id
               = Some (l, mark_stopped (utcnow_at out (ticks w)) s)).
  { apply get_session_Some. rewrite Hsess, Hheap, lookup_insert_eq. auto. }
  destruct (stop_stream_known w1 session_id l _ H1) as (w2 & _ & E2 & _).
  exists w1, w2. repeat split; try assumption.
  - intros t k Ht Hk Hd. rewrite Htasks, Ht, lookup_alter_eq, Hk. cbn.
    unfold request_cancel. rewrite Hd. reflexivity.
  - rewrite Hrt. apply lookup_delete_eq.
  - intros f pid Hf Hp. rewrite Htrace. apply elem_of_app. right.
    apply elem_of_app. left. eapply Hterm; eassumption.
  - rewrite Hff. apply lookup_delete_eq.
  - intros tg Etg. rewrite Htrace, Etg. exists evs. reflexivity.
Qed.

(** X13.  [stop_stream] looks for a task in the streamer's own table
    only: when that table has none for the id, stopping the session
    leaves the reconnection manager and every task as they are, so a loop
    that the manager runs for the session is neither cancelled nor
    removed. *)
Lemma stop_stream_leaves_manager_loops (w : World) (session_id : string) (l : loc)
    (s : StreamSession) :
  get_session w session_id = Some (l, s) ->
  _reconnect_tasks (streamer w) !! session_id = None ->
  exists w', stop_stream out session_id w = (Ok true, w')
             /\ manager w' = manager w /\ tasks w' = tasks w.
Proof.
  intros H Hn.
  destruct (stop_stream_known w session_id l s H)
    as (w' & evs & E & _ & _ & _ & _ & _ & _ & Htasks & _ & Hm & _).
  rewrite Hn in Htasks. exists w'. split; [exact E|]. split; [exact Hm | exact Htasks].
Qed.

(** C10.  Stopping a session that is already stopped returns true again
    and writes the time of this call into [stopped_at]: from then on the
    duration runs to this call, and differs from the one measured to the
    earlier stop by the time between the two stops. *)
Theorem stop_stream_again (w : World) (session_id : string) (l : loc) (s : StreamSession) :
  get_session w session_id = Some (l, s) ->
  status s = STOPPED ->
  exists w' s',
    stop_stream out session_id w = (Ok true, w')
    /\ heap w' !! l = Some s'
    /\ status s' = STOPPED
    /\ stopped_at s' = Some (utcnow_at out (ticks w))
    /\ (forall now t0, started_at s = Some t0 ->
          duration_seconds now s' = utcnow_at out (ticks w) - t0)
    /\ (forall now t0 t1, started_at s = Some t0 -> stopped_at s = Some t1 ->
          duration_seconds now s' - duration_seconds now s = utcnow_at out (ticks w) - t1).
Proof.
  intros H _.
  destruct (stop_stream_known w session_id l s H) as (w' & evs & E & Hheap & _).
  pose proof (proj1 (get_session_Some _ _ _ _) H) as [Hl Hs].
  exists w', (mark_stopped (utcnow_at out (ticks w)) s).
  split; [exact E|]. split; [rewrite Hheap, lookup_alter_eq, Hs; reflexivity|].
  split; [reflexivity|]. split; [reflexivity|]. split.
  - intros now t0 H0. unfold duration_seconds. cbn. rewrite H0. reflexivity.
  - intros now t0 t1 H0 H1. unfold duration_seconds. cbn. rewrite H0, H1. lia.
Qed.

(** Resolving the chat only talks to the outside. *)
Lemma _resolve_chat_id_frame (ident : ChatIdentifier) (w w1 : World) (r : result Z) :
  _resolve_chat_id out ident w = (r, w1) ->
  heap w1 = heap w /\ streamer w1 = streamer w /\ tasks w1 = tasks w
  /\ manager w1 = manager w /\ ticks w1 = ticks w /\ draws w1 = draws w.
Proof.
  unfold _resolve_chat_id. mred.
  destruct (_client (streamer w)); [|intros [= <- <-]; auto 10].
  destruct ident as [n|i]; [intros [= <- <-]; auto 10|].
  destruct (get_chat out (trace w) i); [intros [= <- <-]; auto 10|].
  destruct (bool_decide _); intros [= <- <-]; auto 10.
Qed.

Lemma session_values_elem (w : World) (session_id : string) (l : loc) (s : StreamSession) :
  get_session w session_id = Some (l, s) -> s ∈ session_values w.
Proof.
  intros H. apply get_session_Some in H as [Hl Hs].
  unfold session_values. apply list_elem_of_omap.
  exists (session_id, l). split; [apply elem_of_map_to_list; exact Hl | exact Hs].
Qed.

(** The check at the head of [start_stream] finds the session. *)
Lemma start_stream_taken (w w1 : World) (chat_identifier : ChatIdentifier)
    (source_url : string) (profile : ProfileArg)
    (T : Z) (session_id : string) (l : loc) (s : StreamSession) :
  _started (streamer w) = true ->
  _resolve_chat_id out chat_identifier w = (Ok T, w1) ->
  get_session w session_id = Some (l, s) ->
  chat_id s = T ->
  occupying (status s) ->
  start_stream out chat_identifier source_url profile w = (Raise (AlreadyStreaming T), w1).
Proof.
  intros Hst Hres Hget Hchat Hocc.
  pose proof (_resolve_chat_id_frame _ _ _ _ Hres) as (Hh & Hs & Ht & Hm & Hti & Hd).
  unfold start_stream. mred. rewrite Hst. cbn [negb]. rewrite Hres.
  assert (Hv : session_values w1 = session_values w)
    by (unfold session_values; rewrite Hh, Hs; reflexivity).
  rewrite Hv.
  assert (Hex : existsb (occupies T) (session_values w) = true).
  { apply existsb_exists. exists s. split.
    - apply list_elem_of_In. eapply session_values_elem. exact Hget.
    - unfold occupies. rewrite Hchat, bool_decide_eq_true_2 by reflexivity. cbn.
      apply bool_decide_eq_true_2.
      destruct Hocc as [-> | [-> | ->]]; in_list. }
  rewrite Hex. reflexivity.
Qed.

(** C1.  When the streamer is started, the chat resolves to [T], and the
    registry holds a session for [T] that is connecting, streaming or
    reconnecting, [start_stream] raises the already-streaming error; no
    session object is created, no id is drawn, and the registry and every
    session are as they were (resolving the chat is the only thing that
    has happened). *)
Theorem start_stream_occupied (w w1 : World) (chat_identifier : ChatIdentifier)
    (source_url : string) (profile : ProfileArg)
    (T : Z) (session_id : string) (l : loc) (s : StreamSession) :
  _started (streamer w) = true ->
  _resolve_chat_id out chat_identifier w = (Ok T, w1) ->
  get_session w session_id = Some (l, s) ->
  chat_id s = T ->
  occupying (status s) ->
  start_stream out chat_identifier source_url profile w = (Raise (AlreadyStreaming T), w1)
  /\ heap w1 = heap w /\ streamer w1 = streamer w /\ tasks w1 = tasks w
  /\ manager w1 = manager w /\ ticks w1 = ticks w /\ draws w1 = draws w.
Proof.
  intros Hst Hres Hget Hchat Hocc. split.
  - eapply start_stream_taken; eassumption.
  - exact (_resolve_chat_id_frame _ _ _ _ Hres).
Qed.

(** [set_status] changes the status and nothing else. *)
Lemma set_status_fields (st : StreamStatus) (s : StreamSession) :
  set_status st s
  = mkStreamSession (id s) (chat_id s) (source s) st (profile s) (created_at s)
      (started_at s) (stopped_at s) (reconnect_attempts s) (last_reconnect_at s)
      (last_error s) (error_count s) (bytes_streamed s) (frames_sent s).
Proof. reflexivity. Qed.

Lemma pause_stream_transition (session_id : string) (w : World) :
  pause_stream out session_id w
  = transition STREAMING PAUSED EvPauseStream (pause_stream_call out) session_id w.
Proof.
  unfold pause_stream, transition. mred.
  destruct (get_session w session_id) as [[l s]|] eqn:Hget; [|reflexivity].
  pose proof (proj1 (get_session_Some _ _ _ _) Hget) as [Hl Hs].
  destruct (bool_decide (status s = STREAMING)); [|reflexivity]. cbn.
  destruct (_tgcalls (streamer w)); [|reflexivity].
  destruct (pause_stream_call out (trace w) (chat_id s)); [|reflexivity].
  cbn. rewrite (alter_at _ _ _ _ Hs). reflexivity.
Qed.

Lemma resume_stream_transition (session_id : string) (w : World) :
  resume_stream out session_id w
  = transition PAUSED STREAMING EvResumeStream (resume_stream_call out) session_id w.
Proof.
  unfold resume_stream, transition. mred.
  destruct (get_session w session_id) as [[l s]|] eqn:Hget; [|reflexivity].
  pose proof (proj1 (get_session_Some _ _ _ _) Hget) as [Hl Hs].
  destruct (bool_decide (status s = PAUSED)); [|reflexivity]. cbn.
  destruct (_tgcalls (streamer w)); [|reflexivity].
  destruct (resume_stream_call out (trace w) (chat_id s)); [|reflexivity].
  cbn. rewrite (alter_at _ _ _ _ Hs). reflexivity.
Qed.

(** The outcome of a transition, case by case. *)
Lemma transition_cases (from to : StreamStatus) (ev : Z -> Event)
    (answer : list Event -> Z -> result unit) (session_id : string) (w : World) :
  exists r w',
    transition from to ev answer session_id w = (r, w')
    /\ status_change from to session_id w r w'
    /\ (get_session w session_id = None -> r = Ok false /\ w' = w)
    /\ (forall l s, get_session w session_id = Some (l, s) -> status s <> from ->
           r = Ok false /\ w' = w)
    /\ (forall l s e, get_session w session_id = Some (l, s) ->
           answer (trace w) (chat_id s) = Raise e -> r = Ok false /\ heap w' = heap w)
    /\ (forall l s, get_session w session_id = Some (l, s) -> status s = from ->
           is_Some (_tgcalls (streamer w)) -> answer (trace w) (chat_id s) = Ok tt ->
           r = Ok true).
Proof.
  unfold transition, status_change.
  destruct (get_session w session_id) as [[l s]|] eqn:Hget.
  2:{ exists (Ok false), w. split; [reflexivity|]. split; [auto 10|].
      split; [auto|]. split; [discriminate|]. split; discriminate. }
  destruct (bool_decide (status s = from)) eqn:Est.
  2:{ apply bool_decide_eq_false_1 in Est.
      exists (Ok false), w. split; [reflexivity|]. split; [auto 10|].
      split; [auto|]. split; [auto|]. split.
      - auto.
      - intros l0 s0 [= <- <-] Hs. contradiction. }
  apply bool_decide_eq_true_1 in Est.
  destruct (_tgcalls (streamer w)) eqn:Etg.
  2:{ exists (Ok false), w. split; [reflexivity|]. split; [auto 10|].
      split; [auto|]. split; [auto|]. split.
      - auto.
      - intros l0 s0 _ _ [x Hx]. discriminate. }
  destruct (answer (trace w) (chat_id s)) as [[]|e] eqn:Ec.
  - eexists _, _. split; [reflexivity|]. cbn. split.
    { repeat split. left. split; [reflexivity|]. exists l, s. auto. }
    split; [discriminate|]. split.
    { intros l0 s0 [= <- <-] Hne. contradiction. }
    split; [|reflexivity].
    intros l0 s0 e [= <- <-] He. congruence.
  - eexists _, _. split; [reflexivity|]. cbn. split.
    { repeat split. right. auto. }
    split; [discriminate|]. split.
    { intros l0 s0 [= <- <-] Hne. contradiction. }
    split; [auto|].
    intros l0 s0 [= <- <-] _ _ He. congruence.
Qed.

(** C8.  [pause_stream] returns true only for a session that exists and
    is streaming, and then its status, and nothing else, has changed, to
    paused; [resume_stream] likewise from paused to streaming.  For an
    unknown id, a session in another status, or a transport call that
    fails, the answer is false and every session is as it was. *)
Theorem pause_resume_spec (w : World) (session_id : string) :
  (exists r w',
     pause_stream out session_id w = (r, w')
     /\ status_change STREAMING PAUSED session_id w r w'
     /\ (get_session w session_id = None -> r = Ok false /\ w' = w)
     /\ (forall l s, get_session w session_id = Some (l, s) -> status s <> STREAMING ->
            r = Ok false /\ w' = w)
     /\ (forall l s e, get_session w session_id = Some (l, s) ->
            pause_stream_call out (trace w) (chat_id s) = Raise e ->
            r = Ok false /\ heap w' = heap w)
     /\ (forall l s, get_session w session_id = Some (l, s) -> status s = STREAMING ->
            is_Some (_tgcalls (streamer w)) ->
            pause_stream_call out (trace w) (chat_id s) = Ok tt -> r = Ok true))
  /\
  (exists r w',
     resume_stream out session_id w = (r, w')
     /\ status_change PAUSED STREAMING session_id w r w'
     /\ (get_session w session_id = None -> r = Ok false /\ w' = w)
     /\ (forall l s, get_session w session_id = Some (l, s) -> status s <> PAUSED ->
            r = Ok false /\ w' = w)
     /\ (forall l s e, get_session w session_id = Some (l, s) ->
            resume_stream_call out (trace w) (chat_id s) = Raise e ->
            r = Ok false /\ heap w' = heap w)
     /\ (forall l s, get_session w session_id = Some (l, s) -> status s = PAUSED ->
            is_Some (_tgcalls (streamer w)) ->
            resume_stream_call out (trace w) (chat_id s) = Ok tt -> r = Ok true)).
Proof.
  split.
  - destruct (transition_cases STREAMING PAUSED EvPauseStream (pause_stream_call out)
                session_id w) as (r & w' & E & H).
    exists r, w'. rewrite pause_stream_transition. split; [exact E | exact H].
  - destruct (transition_cases PAUSED STREAMING EvResumeStream (resume_stream_call out)
                session_id w) as (r & w' & E & H).
    exists r, w'. rewrite resume_stream_transition. split; [exact E | exact H].
Qed.
End Registry.

(** ** The reconnection manager *)

Section Reconnection.
Import reconnection ReconnectionManager props.
Local Open Scope list_scope.
Variable out : Outside.
Variable start_stream_func : Z -> string -> string -> M unit.

Ltac mred :=
  unfold set_tasks, set_pc, task_cancel, update_session, read,
    utcnow, monotonic, uuid4, call, try_except, lift,
    bind, ret, raise, gets, modify in *;
  cbn beta iota zeta in *.

Ltac wred :=
  cbn [trace heap tasks manager streamer ticks draws
       with_tasks with_heap with_manager with_streamer tick emit draw
       _active settings _reconnect_tasks with_reconnect_tasks with_active].

Ltac wred_in H :=
  cbn [trace heap tasks manager streamer ticks draws
       with_tasks with_heap with_manager with_streamer tick emit draw
       _active settings _reconnect_tasks with_reconnect_tasks with_active] in H.

Abbreviation cancel_reconnection := (cancel_reconnection out start_stream_func).
Abbreviation run_task := (run_task out start_stream_func).

(** No loop registered for the id: [cancel_reconnection] returns false. *)
Lemma cancel_reconnection_absent (w : World) (session_id : string) :
  _reconnect_tasks (manager w) !! session_id = None ->
  cancel_reconnection session_id w = (Ok false, w).
Proof.
  intros H. unfold reconnection.cancel_reconnection. mred. rewrite H. reflexivity.
Qed.


(** The loop is running, asleep between two attempts: the cancellation
    runs its [finally] clause, which deletes the entry, and the [del] of
    [cancel_reconnection] then raises [KeyError]. *)
Lemma cancel_reconnection_sleeping (w : World) (session_id : string) (t : task_id)
    (k : Task) (s : StreamSession) (n start_time : Z) :
  _reconnect_tasks (manager w) !! session_id = Some t ->
  tasks w !! t = Some k ->
  pc k = Sleeping n start_time ->
  heap w !! task_session k = Some s ->
  id s = session_id ->
  exists w', cancel_reconnection session_id w
             = (Raise (Exn KeyError ("'" +:+ session_id +:+ "'")), w')
             /\ _reconnect_tasks (manager w') !! session_id = None
             /\ heap w' = heap w.
Proof.
  intros Hrt Ht Hpc Hs Hid.
  unfold reconnection.cancel_reconnection, await_cancelled, reconnection.run_task, cleanup.
  assert (Hrc : request_cancel k = mkTask (task_session k) (Sleeping n start_time) true)
    by (unfold request_cancel, done; rewrite Hpc; reflexivity).
  mred. rewrite Hrt. cbn. rewrite lookup_alter_eq, Ht. cbn. rewrite Hrc. cbn.
  rewrite Hs, Hid, Hrt. cbn. rewrite lookup_delete_eq.
  eexists. split; [reflexivity|]. cbn. split; [apply lookup_delete_eq | reflexivity].
Qed.

(** *** One attempt *)

Lemma alter_at_session {A : Type} (h : gmap nat A) (l : nat) (s : A) (f : A -> A) :
  h !! l = Some s -> alter f l h = <[l := f s]> h.
Proof.
  intros H. rewrite <- (insert_id h l s H) at 1. apply alter_insert_eq.
Qed.

Lemma same_identity_trans (s1 s2 s3 : StreamSession) :
  same_identity s1 s2 -> same_identity s2 s3 -> same_identity s1 s3.
Proof. unfold same_identity. intros (?&?&?&?) (?&?&?&?). repeat split; congruence. Qed.

(** The world in which the attempt numbered [n] makes its call, from the
    world [w] in which the attempt begins. *)
Lemma attempt_body_eq (w : World) (l : loc) (s : StreamSession) (n : Z) :
  heap w !! l = Some s ->
  _active (manager w) = true ->
  attempt_body out start_stream_func l n w
  = match start_stream_func (chat_id s) (url (source s)) (profile s)
            (emit (EvStartStream (chat_id s) (url (source s)) (profile s))
               (with_heap (<[l := note_attempt n (utcnow_at out (ticks w)) s]> (heap w))
                  (tick w))) with
    | (Ok _, w_ret) =>
        (Ok tt, with_heap (alter (mark_streaming (utcnow_at out (ticks w_ret))) l (heap w_ret))
                  (tick w_ret))
    | (Raise e, w_ret) => (Raise e, w_ret)
    end.
Proof.
  intros Hs Ha. unfold attempt_body, attempt_prologue. mred. rewrite Ha. cbn.
  rewrite lookup_alter_eq, Hs. cbn.
  rewrite (alter_at_session _ _ _ _ Hs).
  destruct (start_stream_func _ _ _ _) as [[[]|e] w_ret]; reflexivity.
Qed.

Lemma cleanup_spec (w : World) (l : loc) (s : StreamSession) :
  heap w !! l = Some s ->
  exists w', cleanup l w = (Ok tt, w')
    /\ _reconnect_tasks (manager w') !! id s = None
    /\ (forall i, i <> id s ->
          _reconnect_tasks (manager w') !! i = _reconnect_tasks (manager w) !! i)
    /\ _active (manager w') = _active (manager w)
    /\ settings (manager w') = settings (manager w)
    /\ heap w' = heap w /\ tasks w' = tasks w /\ trace w' = trace w
    /\ streamer w' = streamer w.
Proof.
  intros Hs. unfold cleanup. rewrite Hs.
  destruct (_reconnect_tasks (manager w) !! id s) eqn:E.
  - mred. eexists. split; [reflexivity|]. cbn. repeat split.
    + apply lookup_delete_eq.
    + intros i Hi. apply lookup_delete_ne. congruence.
  - exists w. repeat split. exact E.
Qed.

Lemma start_calls_cons_sleep (d : Z) (tr : list Event) :
  start_calls (EvSleep d :: tr) = start_calls tr.
Proof. reflexivity. Qed.

(** One attempt of the loop, from the world in which it begins to the
    next suspension of the task or to its end. *)
Lemma run_attempt_spec (w : World) (t : task_id) (k : Task) (l : loc)
    (s : StreamSession) (n start_time : Z) :
  keeps_session start_stream_func l ->
  tasks w !! t = Some k ->
  heap w !! l = Some s ->
  _active (manager w) = true ->
  exists r w_call w_ret w' p',
    start_stream_func (chat_id s) (url (source s)) (profile s) w_call = (r, w_ret)
    /\ start_calls (trace w_call)
       = EvStartStream (chat_id s) (url (source s)) (profile s) :: start_calls (trace w)
    /\ run_attempt out start_stream_func t l n start_time w = (Ok tt, w')
    /\ start_calls (trace w')
       = EvStartStream (chat_id s) (url (source s)) (profile s) :: start_calls (trace w)
    /\ (exists s', heap w' !! l = Some s' /\ same_identity s s')
    /\ _active (manager w') = true
    /\ settings (manager w') = settings (manager w)
    /\ tasks w' = <[t := mkTask (task_session k) p' false]> (tasks w)
    /\ match r with
       | Ok _ =>
           p' = Finished
           /\ trace w' = trace w_ret
           /\ _reconnect_tasks (manager w') !! id s = None
           /\ exists s', heap w' !! l = Some s' /\ status s' = STREAMING
                         /\ reconnect_attempts s' = 0
       | Raise e =>
           (p' = Sleeping (n + 1) start_time /\ manager w' = manager w
            /\ should_retry e = true
            /\ n < reconnect_max_attempts (settings (manager w)))
           \/ (p' = Finished /\ _reconnect_tasks (manager w') !! id s = None)
       end.
Proof.
  intros K Ht Hs Ha.
  unfold run_attempt. rewrite (attempt_body_eq w l s n Hs Ha).
  set (ev := EvStartStream (chat_id s) (url (source s)) (profile s)).
  set (w_call := emit ev _).
  destruct (start_stream_func (chat_id s) (url (source s)) (profile s) w_call)
    as [r w_ret] eqn:Ef.
  destruct (K _ _ _ _ _ _ Ef) as (Htk & Hmg & Hsc & Hkeep).
  destruct (Hkeep (note_attempt n (utcnow_at out (ticks w)) s))
    as (s_ret & Hret & Hid); [apply lookup_insert_eq|].
  assert (Hid' : same_identity s s_ret) by exact Hid.
  destruct Hid' as (Hi1 & Hi2 & Hi3 & Hi4).
  exists r, w_call, w_ret.
  destruct r as [[]|e].
  - (* the call returned *)
    set (w2 := tick (with_heap _ (tick w_ret))).
    assert (Hs2 : heap w2 !! l = Some (mark_streaming (utcnow_at out (ticks w_ret)) s_ret))
      by (subst w2; wred; rewrite lookup_alter_eq, Hret; reflexivity).
    destruct (cleanup_spec w2 l _ Hs2) as (w3 & Ec & Hnone & _ & Hact & Hset & Hh & Htk3 & Htr & _).
    mred. rewrite Ec. cbn.
    eexists _, Finished. split; [exact Ef|].
    split; [reflexivity|]. split; [reflexivity|]. wred.
    split; [rewrite Htr; subst w2; wred; rewrite Hsc; reflexivity|].
    split; [exists (mark_streaming (utcnow_at out (ticks w_ret)) s_ret);
             split; [rewrite Hh; exact Hs2 | exact Hid]|].
    split; [rewrite Hact; subst w2; wred; rewrite Hmg; exact Ha|].
    split; [rewrite Hset; subst w2; wred; rewrite Hmg; reflexivity|].
    split; [rewrite Htk3; subst w2; wred; rewrite Htk; wred; apply (alter_at_session _ _ k (fun k0 => mkTask (task_session k0) Finished false)); exact Ht|].
    split; [reflexivity|]. split; [rewrite Htr; reflexivity|].
    split; [rewrite <- Hi1; exact Hnone|].
    exists (mark_streaming (utcnow_at out (ticks w_ret)) s_ret).
    split; [rewrite Hh; exact Hs2 | split; reflexivity].
  - (* the call raised *)
    cbv beta iota zeta.
    match goal with |- context [if ?b then _ else _] => destruct b eqn:Edec end.
    + apply andb_true_iff in Edec as [Hre Hns].
      assert (Hlt : n < reconnect_max_attempts (settings (manager w))).
      { apply negb_true_iff in Hns. unfold should_stop in Hns.
        apply orb_false_iff in Hns as [Hn _]. wred_in Hn. rewrite Hmg in Hn.
        apply Z.leb_gt in Hn. exact Hn. }
      mred. eexists _, (Sleeping (n + 1) start_time).
      split; [exact Ef|].
      split; [reflexivity|]. split; [reflexivity|]. wred.
      split; [rewrite start_calls_cons_sleep, Hsc; reflexivity|].
      split; [exists s_ret; split; [exact Hret | exact Hid]|].
      split; [rewrite Hmg; exact Ha|].
      split; [rewrite Hmg; reflexivity|].
      split; [rewrite Htk; wred; apply (alter_at_session _ _ k (fun k0 => mkTask (task_session k0) (Sleeping (n + 1) start_time) false)); exact Ht|].
      left. split; [reflexivity|]. split; [exact Hmg|]. split; [exact Hre | exact Hlt].
    + set (w2 := tick w_ret).
      assert (exists w3 s3, handlers l e w2 = (Ok tt, w3)
                /\ heap w3 !! l = Some s3 /\ same_identity s_ret s3
                /\ tasks w3 = tasks w2 /\ manager w3 = manager w2
                /\ trace w3 = trace w2) as (w3 & s3 & Eh & Hs3 & Hid3 & Htk3 & Hmg3 & Htr3).
      { unfold handlers. destruct (bool_decide (exn_class_of e = ReconnectionError)).
        - exists w2, s_ret. repeat split. exact Hret.
        - mred. eexists _, (mark_error (str e) s_ret). split; [reflexivity|]. cbn.
          rewrite lookup_alter_eq, Hret. repeat split. }
      destruct (cleanup_spec w3 l _ Hs3) as (w4 & Ec & Hnone & _ & Hact & Hset & Hh & Htk4 & Htr4 & _).
      mred. fold w2. rewrite Eh. cbn. rewrite Ec. cbn.
      eexists _, Finished. split; [exact Ef|].
      split; [reflexivity|]. split; [reflexivity|]. wred.
      split; [rewrite Htr4, Htr3; subst w2; wred; rewrite Hsc; reflexivity|].
      split; [exists s3; split; [rewrite Hh; exact Hs3
                                | eapply same_identity_trans; [exact Hid | exact Hid3]]|].
      split; [rewrite Hact, Hmg3; subst w2; wred; rewrite Hmg; exact Ha|].
      split; [rewrite Hset, Hmg3; subst w2; wred; rewrite Hmg; reflexivity|].
      split; [rewrite Htk4, Htk3; subst w2; wred; rewrite Htk; cbn;
              apply (alter_at_session _ _ k (fun k0 => mkTask (task_session k0) Finished false)); exact Ht|].
      right. split; [reflexivity|].
      destruct Hid3 as (Hj1 & _). rewrite <- Hi1, <- Hj1. exact Hnone.
Qed.

(** A turn of a task that is neither done nor cancelled, under an active
    manager: one attempt. *)
Lemma run_task_attempt (w : World) (t : task_id) (k : Task) (s : StreamSession) :
  keeps_session start_stream_func (task_session k) ->
  tasks w !! t = Some k ->
  done k = false ->
  _must_cancel k = false ->
  heap w !! task_session k = Some s ->
  _active (manager w) = true ->
  exists r w_call w_ret w' p',
    start_stream_func (chat_id s) (url (source s)) (profile s) w_call = (r, w_ret)
    /\ start_calls (trace w_call)
       = EvStartStream (chat_id s) (url (source s)) (profile s) :: start_calls (trace w)
    /\ run_task t w = (Ok tt, w')
    /\ start_calls (trace w')
       = EvStartStream (chat_id s) (url (source s)) (profile s) :: start_calls (trace w)
    /\ (exists s', heap w' !! task_session k = Some s' /\ same_identity s s')
    /\ _active (manager w') = true
    /\ settings (manager w') = settings (manager w)
    /\ tasks w' = <[t := mkTask (task_session k) p' false]> (tasks w)
    /\ match r with
       | Ok _ =>
           p' = Finished
           /\ trace w' = trace w_ret
           /\ _reconnect_tasks (manager w') !! id s = None
           /\ exists s', heap w' !! task_session k = Some s'
                         /\ status s' = STREAMING /\ reconnect_attempts s' = 0
       | Raise e =>
           (exists n start_time, p' = Sleeping (n + 1) start_time
              /\ manager w' = manager w /\ should_retry e = true
              /\ n < reconnect_max_attempts (settings (manager w))
              /\ (pc k = Created /\ n = 1 \/ pc k = Sleeping n start_time))
           \/ (p' = Finished /\ _reconnect_tasks (manager w') !! id s = None)
       end.
Proof.
  intros K Ht Hd Hc Hs Ha.
  unfold reconnection.run_task. mred. rewrite Ht. cbv beta iota zeta.
  destruct k as [l p c]. cbn [task_session pc _must_cancel] in *. subst c.
  destruct p as [| n start_time | |]; try discriminate Hd.
  - (* first turn: mark_reconnecting, then the first attempt *)
    cbv beta iota zeta.
    set (w1 := tick (with_heap _ (tick w))).
    set (s1 := mark_reconnecting (utcnow_at out (ticks w)) s).
    assert (Hs1 : heap w1 !! l = Some s1)
      by (subst w1 s1; wred; rewrite lookup_alter_eq, Hs; reflexivity).
    assert (Ht1 : tasks w1 !! t = Some (mkTask l Created false)) by exact Ht.
    assert (Ha1 : _active (manager w1) = true) by exact Ha.
    destruct (run_attempt_spec w1 t _ l s1 1 (monotonic_at out (S (ticks w))) K Ht1 Hs1 Ha1)
      as (r & w_call & w_ret & w' & p' & Ef & Hcall & Erun & Hsc & (s' & Hs' & Hid')
          & Hact & Hset & Htk & Hr).
    exists r, w_call, w_ret, w', p'.
    split; [exact Ef|]. split; [exact Hcall|]. split; [exact Erun|]. split; [exact Hsc|].
    split; [exists s'; split; [exact Hs' | exact Hid']|].
    split; [exact Hact|]. split; [exact Hset|]. split; [exact Htk|].
    destruct r as [[]|e]; [exact Hr|].
    destruct Hr as [(-> & Hm & Hre & Hlt) | Hr]; [left; exists 1, (monotonic_at out (S (ticks w))); repeat split; [exact Hm | exact Hre | exact Hlt | left; split; reflexivity] | right; exact Hr].
  - (* a later turn: the next attempt *)
    destruct (run_attempt_spec w t _ l s n start_time K Ht Hs Ha)
      as (r & w_call & w_ret & w' & p' & Ef & Hcall & Erun & Hsc & Hkeep
          & Hact & Hset & Htk & Hr).
    exists r, w_call, w_ret, w', p'.
    split; [exact Ef|]. split; [exact Hcall|]. split; [exact Erun|]. split; [exact Hsc|].
    split; [exact Hkeep|].
    split; [exact Hact|]. split; [exact Hset|]. split; [exact Htk|].
    destruct r as [[]|e]; [exact Hr|].
    destruct Hr as [(-> & Hm & Hre & Hlt) | Hr]; [left; exists n, start_time; repeat split; [exact Hm | exact Hre | exact Hlt | right; reflexivity] | right; exact Hr].
Qed.

(** C2.  Whenever the loop of a session makes an attempt, that is
    whenever its task gets a turn while it is neither done nor cancelled
    and the manager is active, the attempt calls the start function once,
    with the target, the source url and the profile of the session; the
    session keeps its identity through the turn.  If that call returns,
    the session itself is marked streaming with its attempt counter at
    zero, and the loop ends there: the task is finished, its entry is
    gone, and nothing more is done after the call.  If the call raises,
    the task either sleeps until the next attempt or ends. *)
Theorem reconnect_attempt_spec (w : World) (t : task_id) (k : Task) (s : StreamSession) :
  keeps_session start_stream_func (task_session k) ->
  tasks w !! t = Some k ->
  done k = false ->
  _must_cancel k = false ->
  heap w !! task_session k = Some s ->
  _active (manager w) = true ->
  exists r w_call w_ret w' p',
    start_stream_func (chat_id s) (url (source s)) (profile s) w_call = (r, w_ret)
    /\ start_calls (trace w_call)
       = EvStartStream (chat_id s) (url (source s)) (profile s) :: start_calls (trace w)
    /\ run_task t w = (Ok tt, w')
    /\ start_calls (trace w')
       = EvStartStream (chat_id s) (url (source s)) (profile s) :: start_calls (trace w)
    /\ (exists s', heap w' !! task_session k = Some s' /\ same_identity s s')
    /\ _active (manager w') = true
    /\ settings (manager w') = settings (manager w)
    /\ tasks w' = <[t := mkTask (task_session k) p' false]> (tasks w)
    /\ match r with
       | Ok _ =>
           p' = Finished
           /\ trace w' = trace w_ret
           /\ _reconnect_tasks (manager w') !! id s = None
           /\ exists s', heap w' !! task_session k = Some s'
                         /\ status s' = STREAMING /\ reconnect_attempts s' = 0
       | Raise e =>
           (exists n start_time, p' = Sleeping n start_time
                                 /\ manager w' = manager w /\ should_retry e = true
                                 /\ n <= reconnect_max_attempts (settings (manager w)))
           \/ (p' = Finished /\ _reconnect_tasks (manager w') !! id s = None)
       end.
Proof.
  intros K Ht Hd Hc Hs Ha.
  destruct (run_task_attempt w t k s K Ht Hd Hc Hs Ha)
    as (r & w_call & w_ret & w' & p' & Ef & Hcall & Erun & Hsc & Hkeep & Hact & Hset & Htk & Hr).
  exists r, w_call, w_ret, w', p'.
  split; [exact Ef|]. split; [exact Hcall|]. split; [exact Erun|]. split; [exact Hsc|].
  split; [exact Hkeep|]. split; [exact Hact|]. split; [exact Hset|]. split; [exact Htk|].
  destruct r as [[]|e]; [exact Hr|].
  destruct Hr as [(n & t0 & -> & Hm & Hre & Hlt & _) | Hr]; [left | right; exact Hr].
  exists (n + 1), t0. repeat split; [exact Hm | exact Hre | lia].
Qed.

(** *** The other ways out of the loop *)

Lemma should_retry_ReconnectionError (m : string) :
  should_retry (Exn ReconnectionError m) = false.
Proof. reflexivity. Qed.

Lemma handlers_ReconnectionError (l : loc) (m : string) (w : World) :
  handlers l (Exn ReconnectionError m) w = (Ok tt, w).
Proof. reflexivity. Qed.

(** An attempt under a stopped manager: it raises before the call, the
    loop takes it for a cancellation and ends; nothing is called and the
    session is not marked. *)
Lemma run_attempt_manager_stopped (w : World) (t : task_id) (k : Task) (l : loc)
    (s : StreamSession) (n start_time : Z) :
  tasks w !! t = Some k ->
  heap w !! l = Some s ->
  _active (manager w) = false ->
  exists w',
    run_attempt out start_stream_func t l n start_time w = (Ok tt, w')
    /\ trace w' = trace w
    /\ tasks w' = <[t := mkTask (task_session k) Finished false]> (tasks w)
    /\ _reconnect_tasks (manager w') !! id s = None
    /\ heap w' = heap w.
Proof.
  intros Ht Hs Ha.
  unfold run_attempt, attempt_body, attempt_prologue. mred. rewrite Ha.
  cbn [negb]. cbv beta iota zeta.
  rewrite should_retry_ReconnectionError. cbn [andb].
  rewrite handlers_ReconnectionError.
  assert (Hs2 : heap (tick w) !! l = Some s) by exact Hs.
  destruct (cleanup_spec (tick w) l s Hs2)
    as (w3 & Ec & Hnone & _ & _ & _ & Hh & Htk & Htr & _).
  rewrite Ec. eexists. split; [reflexivity|]. wred.
  split; [rewrite Htr; reflexivity|].
  split; [rewrite Htk; wred;
          apply (alter_at_session _ _ k
                   (fun k0 => mkTask (task_session k0) Finished false)); exact Ht|].
  split; [exact Hnone | rewrite Hh; reflexivity].
Qed.

(** The task is cancelled in its sleep: the [finally] clause runs and
    nothing else. *)
Lemma run_task_cancelled (w : World) (t : task_id) (l : loc) (s : StreamSession)
    (n start_time : Z) :
  tasks w !! t = Some (mkTask l (Sleeping n start_time) true) ->
  heap w !! l = Some s ->
  exists w',
    run_task t w = (Ok tt, w')
    /\ trace w' = trace w
    /\ tasks w' = <[t := mkTask l Cancelled false]> (tasks w)
    /\ _reconnect_tasks (manager w') !! id s = None
    /\ heap w' = heap w.
Proof.
  intros Ht Hs.
  unfold reconnection.run_task. mred. rewrite Ht. cbv beta iota zeta.
  cbn [pc _must_cancel task_session].
  destruct (cleanup_spec w l s Hs) as (w3 & Ec & Hnone & _ & _ & _ & Hh & Htk & Htr & _).
  rewrite Ec. eexists. split; [reflexivity|]. wred.
  split; [exact Htr|].
  split; [rewrite Htk;
          apply (alter_at_session _ _ (mkTask l (Sleeping n start_time) true)
                   (fun k0 => mkTask (task_session k0) Cancelled false)); exact Ht|].
  split; [exact Hnone | exact Hh].
Qed.

(** X17.  Every way out of the loop goes through its [finally] clause:
    when a turn of a task that had begun, or begins, to run leaves it
    done (by success, by a failure that ends it, by a stopped manager or
    by cancellation), the manager holds no entry for the session any
    more.  (A task cancelled before its first turn never runs.) *)
Lemma run_task_exit_cleans (w w' : World) (t : task_id) (k k' : Task) (s : StreamSession) :
  keeps_session start_stream_func (task_session k) ->
  tasks w !! t = Some k ->
  done k = false ->
  (pc k = Created -> _must_cancel k = false) ->
  heap w !! task_session k = Some s ->
  run_task t w = (Ok tt, w') ->
  tasks w' !! t = Some k' ->
  done k' = true ->
  _reconnect_tasks (manager w') !! id s = None.
Proof.
  intros K Ht Hd Hcr Hs Erun Ht' Hd'.
  destruct k as [l p c]. cbn [task_session pc _must_cancel] in *.
  destruct c.
  - (* cancelled *)
    destruct p as [| n start_time | |]; try discriminate Hd.
    + specialize (Hcr eq_refl). discriminate Hcr.
    + destruct (run_task_cancelled w t l s n start_time Ht Hs) as (w2 & E & _ & _ & Hnone & _).
      rewrite E in Erun. injection Erun as <-. exact Hnone.
  - destruct (_active (manager w)) eqn:Ha.
    + destruct (run_task_attempt w t (mkTask l p false) s K Ht Hd eq_refl Hs Ha)
        as (r & w_call & w_ret & w2 & p' & _ & _ & E & _ & _ & _ & _ & Htk & Hr).
      rewrite E in Erun. injection Erun as <-.
      rewrite Htk, lookup_insert_eq in Ht'. injection Ht' as <-.
      destruct r as [[]|e].
      * destruct Hr as (_ & _ & Hnone & _). exact Hnone.
      * destruct Hr as [(n & t0 & -> & _) | (_ & Hnone)]; [discriminate Hd' | exact Hnone].
    + revert Erun. unfold reconnection.run_task. mred. rewrite Ht. cbv beta iota zeta.
      cbn [pc _must_cancel task_session].
      destruct p as [| n start_time | |]; try discriminate Hd; cbv beta iota zeta.
      * set (w1 := tick (with_heap _ (tick w))).
        assert (Hs1 : heap w1 !! l = Some (mark_reconnecting (utcnow_at out (ticks w)) s))
          by (subst w1; wred; rewrite lookup_alter_eq, Hs; reflexivity).
        assert (Ht1 : tasks w1 !! t = Some (mkTask l Created false)) by exact Ht.
        assert (Ha1 : _active (manager w1) = false) by exact Ha.
        destruct (run_attempt_manager_stopped w1 t _ l _ 1 (monotonic_at out (S (ticks w)))
                    Ht1 Hs1 Ha1) as (w2 & E & _ & _ & Hnone & _).
        intros Erun.
        assert (E' : (@Ok unit tt, w2) = (Ok tt, w')) by (rewrite <- E; exact Erun).
        injection E' as <-. exact Hnone.
      * destruct (run_attempt_manager_stopped w t _ l s n start_time Ht Hs Ha)
          as (w2 & E & _ & _ & Hnone & _).
        intros Erun.
        assert (E' : (@Ok unit tt, w2) = (Ok tt, w')) by (rewrite <- E; exact Erun).
        injection E' as <-. exact Hnone.
Qed.

(** *** The whole loop *)

Lemma run_until_done_done (fuel : nat) (w : World) (t : task_id) (k : Task) :
  tasks w !! t = Some k -> done k = true ->
  run_until_done out start_stream_func fuel t w = (Ok tt, w).
Proof.
  intros Ht Hd. destruct fuel; [reflexivity|].
  cbn [run_until_done]. mred. rewrite Ht, Hd. reflexivity.
Qed.

Lemma repeat_snoc_app {A : Type} (a : A) (m : nat) (tl : list A) :
  repeat a m ++ a :: tl = repeat a (S m) ++ tl.
Proof. induction m as [|m IH]; [reflexivity|]. cbn. rewrite IH. reflexivity. Qed.

(** X15.  The loop, from any of its turns on, given at most [fuel]
    turns: every call of the start function carries the target, the url
    and the profile of the session, there is one call per turn, and
    [turns_left] turns are enough for the loop to be done.  So a loop
    makes at most [max(1, reconnect_max_attempts)] attempts and then
    ends. *)
Lemma run_until_done_spec (fuel : nat) :
  forall (w : World) (t : task_id) (k : Task) (s : StreamSession),
    keeps_session start_stream_func (task_session k) ->
    tasks w !! t = Some k ->
    done k = false ->
    _must_cancel k = false ->
    heap w !! task_session k = Some s ->
    _active (manager w) = true ->
    (forall n t0, pc k = Sleeping n t0 -> n <= reconnect_max_attempts (settings (manager w))) ->
    exists w' m,
      run_until_done out start_stream_func fuel t w = (Ok tt, w')
      /\ (m <= fuel)%nat
      /\ start_calls (trace w')
         = repeat (EvStartStream (chat_id s) (url (source s)) (profile s)) m
           ++ start_calls (trace w)
      /\ ((turns_left (reconnect_max_attempts (settings (manager w))) (pc k) <= fuel)%nat ->
          exists k', tasks w' !! t = Some k' /\ done k' = true).
Proof.
  induction fuel as [|fuel IH]; intros w t k s K Ht Hd Hc Hs Ha Hb.
  - exists w, 0%nat. repeat split; [lia|].
    intros Hle. exfalso. destruct k as [l [| n t0 | |] c]; cbn in *; try discriminate Hd; lia.
  - cbn [run_until_done]. mred. rewrite Ht, Hd. cbv beta iota zeta.
    destruct (run_task_attempt w t k s K Ht Hd Hc Hs Ha)
      as (r & w_call & w_ret & w1 & p' & _ & _ & Erun & Hsc & (s1 & Hs1 & Hid) & Hact & Hset
          & Htk & Hr).
    rewrite Erun.
    assert (Ht1 : tasks w1 !! t = Some (mkTask (task_session k) p' false))
      by (rewrite Htk; apply lookup_insert_eq).
    assert (Hfin : p' = Finished ->
              exists w' m,
                run_until_done out start_stream_func fuel t w1 = (Ok tt, w')
                /\ (m <= S fuel)%nat
                /\ start_calls (trace w')
                   = repeat (EvStartStream (chat_id s) (url (source s)) (profile s)) m
                     ++ start_calls (trace w)
                /\ ((turns_left (reconnect_max_attempts (settings (manager w))) (pc k)
                     <= S fuel)%nat ->
                    exists k', tasks w' !! t = Some k' /\ done k' = true)).
    { intros ->. exists w1, 1%nat.
      split; [apply (run_until_done_done fuel w1 t _ Ht1); reflexivity|].
      split; [lia|]. split; [exact Hsc|]. intros _. eexists. split; [exact Ht1 | reflexivity]. }
    destruct r as [[]|e]; [apply Hfin; apply Hr|].
    destruct Hr as [(n & t0 & -> & Hm & _ & Hlt & Hpc) | (Hp & _)]; [|apply Hfin; exact Hp].
    destruct (IH w1 t (mkTask (task_session k) (Sleeping (n + 1) t0) false) s1)
      as (w' & m & Erest & Hm' & Hcalls & Hterm); try assumption; try reflexivity.
    { intros n' t0' [= <- <-]. rewrite Hset. lia. }
    destruct Hid as (_ & Hi2 & Hi3 & Hi4). rewrite Hi2, Hi3, Hi4 in Hcalls.
    exists w', (S m). split; [exact Erest|]. split; [lia|].
    split; [rewrite Hcalls, Hsc; apply repeat_snoc_app|].
    intros Hle. apply Hterm. rewrite Hset. cbn [pc turns_left].
    destruct Hpc as [[Hpc ->] | Hpc]; rewrite Hpc in Hle; cbn [turns_left] in Hle; lia.
Qed.
End Reconnection.

(** C5: the code does not do what the claim says.  The session of the
    tests loses its connection, the manager starts a loop for it, and the
    loop sleeps after a first failed attempt.  [cancel_reconnection] for
    that id then raises [KeyError] where the claim has it return true: the
    loop has removed its own entry, as the claim also says it does, before
    [cancel_reconnection] deletes it. *)
Theorem cancel_reconnection_running_raises :
  reconnection.is_reconnecting "abc12345" examples.retrying
  = (Ok true, examples.retrying)
  /\ tasks examples.retrying !! 0%nat = Some (mkTask 0%nat (Sleeping 2 8000000) false)
  /\ fst (reconnection.cancel_reconnection examples.calm examples.unreachable
            "abc12345" examples.retrying)
     = Raise (Exn KeyError "'abc12345'").
Proof. repeat split; vm_compute; reflexivity. Qed.

(** ** The loop with the registry's own start function *)

Section Wiring.
Import streamer TelegramStreamer props.
Local Open Scope list_scope.
Variable out : Outside.

Ltac mred :=
  unfold task_cancel, update_session, utcnow, monotonic, uuid4, call, try_except, lift,
    bind, ret, raise, gets, modify in *;
  cbn beta iota zeta in *.

(** Called as the loop calls it, [start_stream] never returns: where it
    gets past its checks it fails on [profile.value], the profile being a
    plain string.  It creates no session and calls nothing. *)
Lemma registry_start_raises (chat : Z) (u p : string) (w : World) :
  exists e w',
    registry_start out chat u p w = (Raise e, w')
    /\ heap w' = heap w /\ streamer w' = streamer w /\ tasks w' = tasks w
    /\ manager w' = manager w /\ trace w' = trace w.
Proof.
  unfold registry_start, start_stream, _resolve_chat_id, profile_value. mred.
  destruct (_started (streamer w)); cbn [negb]; [|eexists _, _; repeat split].
  destruct (_client (streamer w)); [|eexists _, _; repeat split].
  destruct (existsb (occupies chat) (session_values w)); eexists _, _; repeat split.
Qed.

Lemma registry_start_keeps (l : loc) : keeps_session (registry_start out) l.
Proof.
  intros c u p w r w' E.
  destruct (registry_start_raises c u p w) as (e & w2 & E2 & Hh & _ & Ht & Hm & Htr).
  rewrite E2 in E. injection E as <- <-.
  split; [exact Ht|]. split; [exact Hm|]. split; [rewrite Htr; reflexivity|].
  intros s Hs. exists s. rewrite Hh. split; [exact Hs | repeat split].
Qed.

(** For a session that the registry holds in an occupying state, the
    failure is the already-streaming error, which the loop retries. *)
Lemma registry_start_occupied (w : World) (session_id : string) (l : loc)
    (s : StreamSession) (u p : string) (c : Client) :
  _started (streamer w) = true ->
  _client (streamer w) = Some c ->
  get_session w session_id = Some (l, s) ->
  occupying (status s) ->
  registry_start out (chat_id s) u p w = (Raise (AlreadyStreaming (chat_id s)), w)
  /\ reconnection.should_retry (AlreadyStreaming (chat_id s)) = true.
Proof.
  intros Hst Hc Hget Hocc. split; [|reflexivity].
  assert (Hres : _resolve_chat_id out (IdInt (chat_id s)) w = (Ok (chat_id s), w))
    by (unfold _resolve_chat_id; mred; rewrite Hc; reflexivity).
  pose proof (start_stream_taken out w w (IdInt (chat_id s)) u (AsStr p) (chat_id s)
                session_id l s Hst Hres Hget eq_refl Hocc) as E.
  unfold registry_start. mred. rewrite E. reflexivity.
Qed.
End Wiring.

(** ** The theorems at work on the worlds of the examples *)

Section Witnesses.
Import examples streamer props.
Local Open Scope list_scope.

(** C4, as stated, fails.  After [TelegramStreamer.stop] the registry
    still knows the session and the streamer has no transport:
    [stop_stream] returns true and calls nothing. *)
Lemma stop_stream_without_transport :
  get_session (shut_down (session_in STOPPED (Some 100) (Some 160))) "abc12345"
  = Some (0%nat, session_in STOPPED (Some 100) (Some 160))
  /\ fst (stop_stream calm "abc12345" (shut_down (session_in STOPPED (Some 100) (Some 160))))
     = Ok true
  /\ trace (snd (stop_stream calm "abc12345"
                   (shut_down (session_in STOPPED (Some 100) (Some 160))))) = [].
Proof. repeat split; vm_compute; reflexivity. Qed.

(** The session of [retrying] is stopped while its loop sleeps: the loop
    stays registered with the manager, and at its next turn, with a start
    function that succeeds, it marks the stopped session streaming. *)
Lemma stopped_session_revived :
  let w1 := snd (stop_stream calm "abc12345" retrying) in
  let w2 := snd (reconnection.run_task calm reachable 0%nat w1) in
  fst (stop_stream calm "abc12345" retrying) = Ok true
  /\ status <$> heap w1 !! 0%nat = Some STOPPED
  /\ ReconnectionManager._reconnect_tasks (manager w1) !! "abc12345" = Some 0%nat
  /\ tasks w1 !! 0%nat = Some (mkTask 0%nat (Sleeping 2 8000000) false)
  /\ status <$> heap w2 !! 0%nat = Some STREAMING.
Proof. repeat split; vm_compute; reflexivity. Qed.

(** The loop of [disconnected] with the registry's own start function:
    the session itself holds the target, every attempt is refused as
    already streaming, and after the third the session is in error. *)
Lemma reconnect_through_registry_exhausts :
  let w := snd (reconnection.run_until_done calm (registry_start calm) 3 0%nat disconnected) in
  tasks w !! 0%nat = Some (mkTask 0%nat Finished false)
  /\ status <$> heap w !! 0%nat = Some ERROR
  /\ last_error <$> heap w !! 0%nat = Some (Some "Already streaming to chat -1001234567890")
  /\ reconnect_attempts <$> heap w !! 0%nat = Some 3
  /\ length (start_calls (trace w)) = 3%nat
  /\ size (TelegramStreamer._sessions (streamer w)) = 1%nat.
Proof. repeat split; vm_compute; reflexivity. Qed.

(** The known session of [streaming] is stopped, twice. *)
Lemma stop_stream_spec_witness :
  exists w1 w2,
    stop_stream calm "abc12345" streaming = (Ok true, w1)
    /\ trace w1 = [EvLeaveCall (-1001234567890)]
    /\ heap w1 !! 0%nat = Some (session_in STOPPED (Some 100) (Some 7000000))
    /\ stop_stream calm "abc12345" w1 = (Ok true, w2).
Proof.
  destruct (stop_stream_spec calm streaming "abc12345") as [_ H].
  destruct (H 0%nat (session_in STREAMING (Some 100) None))
    as (w1 & w2 & E1 & _ & _ & _ & _ & Hleave & Hheap & _ & _ & E2);
    [vm_compute; reflexivity|].
  exists w1, w2. split; [exact E1|]. split; [|split; [|exact E2]].
  - assert (E : snd (stop_stream calm "abc12345" streaming) = w1) by (rewrite E1; reflexivity).
    rewrite <- E. vm_compute. reflexivity.
  - rewrite Hheap, lookup_insert_eq. reflexivity.
Defined.

(** A start for the chat of [streaming], which is taken. *)
Lemma start_stream_occupied_witness :
  start_stream calm (IdStr "@testchannel") "https://example.com/other.m3u8" (AsEnum P720)
    streaming
  = (Raise (AlreadyStreaming (-1001234567890)), emit (EvGetChat "@testchannel") streaming)
  /\ heap (emit (EvGetChat "@testchannel") streaming) = heap streaming
  /\ streamer (emit (EvGetChat "@testchannel") streaming) = streamer streaming.
Proof.
  destruct (start_stream_occupied calm streaming (emit (EvGetChat "@testchannel") streaming)
              (IdStr "@testchannel") "https://example.com/other.m3u8" (AsEnum P720)
              (-1001234567890) "abc12345" 0%nat (session_in STREAMING (Some 100) None))
    as (E & Hh & Hs & _).
  - reflexivity.
  - reflexivity.
  - vm_compute. reflexivity.
  - reflexivity.
  - right. left. reflexivity.
  - split; [exact E|]. split; [exact Hh | exact Hs].
Defined.

(** A second stop, 7 seconds on the clock, of a session stopped at 160. *)
Lemma stop_stream_again_witness :
  exists w' s',
    stop_stream calm "abc12345" (holding (session_in STOPPED (Some 100) (Some 160)))
    = (Ok true, w')
    /\ heap w' !! 0%nat = Some s'
    /\ stopped_at s' = Some 7000000
    /\ duration_seconds 9000000 s' = 6999900.
Proof.
  destruct (stop_stream_again calm (holding (session_in STOPPED (Some 100) (Some 160)))
              "abc12345" 0%nat (session_in STOPPED (Some 100) (Some 160)))
    as (w' & s' & E & Hs' & _ & Hstop & Hdur & _).
  - vm_compute. reflexivity.
  - reflexivity.
  - exists w', s'. split; [exact E|]. split; [exact Hs'|]. split; [exact Hstop|].
    apply (Hdur 9000000 100). reflexivity.
Defined.

(** Pausing and resuming the session of [streaming], with a transport
    that obeys and with one that does not. *)
Lemma pause_resume_spec_witness :
  (exists w', pause_stream calm "abc12345" streaming = (Ok true, w')
              /\ heap w' = <[0%nat := session_in PAUSED (Some 100) None]> (heap streaming))
  /\ (exists w', pause_stream stubborn "abc12345" streaming = (Ok false, w')
                 /\ heap w' = heap streaming)
  /\ resume_stream calm "abc12345" streaming = (Ok false, streaming).
Proof.
  split; [|split].
  - destruct (pause_resume_spec calm streaming "abc12345")
      as [(r & w' & E & (_ & _ & _ & Hch) & _ & _ & _ & Htrue) _].
    assert (Hr : r = Ok true).
    { apply (Htrue 0%nat (session_in STREAMING (Some 100) None)).
      - vm_compute. reflexivity.
      - reflexivity.
      - eexists. reflexivity.
      - reflexivity. }
    subst r. exists w'. split; [exact E|].
    destruct Hch as [(_ & l & s & Hget & _ & Hheap) | (Hf & _)]; [|discriminate Hf].
    assert (Hls : Some (l, s) = Some (0%nat, session_in STREAMING (Some 100) None))
      by (rewrite <- Hget; vm_compute; reflexivity).
    injection Hls as -> ->. exact Hheap.
  - destruct (pause_resume_spec stubborn streaming "abc12345")
      as [(r & w' & E & _ & _ & _ & Hfail & _) _].
    destruct (Hfail 0%nat (session_in STREAMING (Some 100) None)
                (Exn RuntimeError "not in a call")) as [-> Hheap].
    + vm_compute. reflexivity.
    + reflexivity.
    + exists w'. split; [exact E | exact Hheap].
  - destruct (pause_resume_spec calm streaming "abc12345")
      as [_ (r & w' & E & _ & _ & Hwrong & _)].
    destruct (Hwrong 0%nat (session_in STREAMING (Some 100) None)) as [-> ->].
    + vm_compute. reflexivity.
    + discriminate.
    + exact E.
Defined.

(** The loop of [disconnected] gets its first turn with a start function
    that succeeds: one call, for the chat, the url and the profile of the
    session, and the session streams again. *)
Lemma reconnect_attempt_spec_witness :
  exists w',
    reconnection.run_task calm reachable 0%nat disconnected = (Ok tt, w')
    /\ start_calls (trace w')
       = [EvStartStream (-1001234567890) "https://example.com/live/stream.m3u8" "720p"]
    /\ tasks w' !! 0%nat = Some (mkTask 0%nat Finished false)
    /\ ReconnectionManager._reconnect_tasks (manager w') !! "abc12345" = None
    /\ exists s', heap w' !! 0%nat = Some s' /\ status s' = STREAMING
                  /\ reconnect_attempts s' = 0.
Proof.
  assert (K : keeps_session reachable 0%nat).
  { intros c u p w r w' [= <- <-]. repeat split. intros s Hs. exists s.
    split; [exact Hs | repeat split]. }
  destruct (reconnect_attempt_spec calm reachable disconnected 0%nat
              (mkTask 0%nat Created false) (session_in STREAMING (Some 100) None) K)
    as (r & w_call & w_ret & w' & p' & Ef & _ & Erun & Hsc & _ & _ & _ & Htk & Hr).
  - vm_compute. reflexivity.
  - reflexivity.
  - reflexivity.
  - vm_compute. reflexivity.
  - reflexivity.
  - injection Ef as <- <-. destruct Hr as (-> & _ & Hnone & Hs').
    exists w'. split; [exact Erun|]. split; [exact Hsc|].
    split; [rewrite Htk; apply lookup_insert_eq|]. split; [exact Hnone | exact Hs'].
Defined.
End Witnesses.

(** * More of the code *)

(** ** models.py: classification and the session's marks *)

Section Models.
Import PyStr.

Lemma lower_ascii_idempotent (c : ascii) : lower_ascii (lower_ascii c) = lower_ascii c.
Proof. destruct c as [[] [] [] [] [] [] [] []]; reflexivity. Qed.

Lemma lower_idempotent (s : string) : lower (lower s) = lower s.
Proof.
  induction s as [|c s IH]; [reflexivity|].
  cbn [lower]. rewrite lower_ascii_idempotent, IH. reflexivity.
Qed.


(** X2.  The classification does not depend on the case of the letters of
    the url: the url and its lower-cased form get the same kind. *)
Theorem detect_type_ignores_case (u : string) :
  stream_type (detect_type (lower u)) = stream_type (detect_type u).
Proof.
  unfold detect_type. rewrite lower_idempotent.
  repeat match goal with |- context [if ?b then _ else _] => destruct b end; reflexivity.
Qed.

End Models.

(** X3.  [mark_streaming] leaves [stopped_at] as it is.  A session that
    was stopped at [t1] and is marked streaming again at [t2] is STREAMING
    with a duration that no longer moves with the clock: it is [t1 - t2]
    at every later reading, which is negative when the stop came first. *)
Theorem duration_after_restart (s : StreamSession) (t1 t2 : Z) :
  t1 < t2 ->
  status (mark_streaming t2 (mark_stopped t1 s)) = STREAMING
  /\ stopped_at (mark_streaming t2 (mark_stopped t1 s)) = Some t1
  /\ forall now, duration_seconds now (mark_streaming t2 (mark_stopped t1 s)) = t1 - t2
                 /\ duration_seconds now (mark_streaming t2 (mark_stopped t1 s)) < 0.
Proof.
  intros Hlt. split; [reflexivity|]. split; [reflexivity|].
  intros now. unfold duration_seconds. cbn. lia.
Qed.

(** The session of the tests, stopped at 160 and marked streaming at 200. *)
Lemma duration_after_restart_witness :
  duration_seconds 900
    (mark_streaming 200 (mark_stopped 160 (examples.session_in STREAMING (Some 100) None)))
  = -40.
Proof.
  destruct (duration_after_restart (examples.session_in STREAMING (Some 100) None) 160 200)
    as (_ & _ & H); [lia|].
  destruct (H 900) as [E _]. rewrite E. reflexivity.
Defined.

(** ** streamer.py: starting *)

Section Starting.
Import streamer TelegramStreamer props invariants.
Local Open Scope list_scope.
Variable out : Outside.

Ltac mred :=
  unfold task_cancel, update_session, alloc, utcnow, monotonic, uuid4, call, try_except, lift,
    bind, ret, raise, gets, modify in *;
  cbn beta iota zeta in *.

Ltac wred :=
  cbn [heap tasks streamer manager ticks draws trace tick draw emit
       with_heap with_streamer with_tasks with_manager
       _started _client _sessions _tgcalls _ffmpeg_processes _reconnect_tasks
       with_sessions with_reconnect_tasks with_ffmpeg_processes].

Lemma detect_type_url (u : string) : url (detect_type u) = u.
Proof.
  unfold detect_type.
  repeat match goal with |- context [if ?b then _ else _] => destruct b end; reflexivity.
Qed.

Lemma start_stream_cases (chat_identifier : ChatIdentifier) (source_url : string)
    (profile : ProfileArg) (w w' : World) (r : result loc) :
  start_stream out chat_identifier source_url profile w = (r, w') ->
  ( (exists e, r = Raise e
       /\ ( _started (streamer w) = false
            \/ (exists w1, _resolve_chat_id out chat_identifier w = (Raise e, w1))
            \/ (exists T w1, _resolve_chat_id out chat_identifier w = (Ok T, w1)
                   /\ existsb (occupies T) (session_values w) = true)
            \/ (exists p, profile = AsStr p /\ exn_class_of e = AttributeError) ))
    /\ heap w' = heap w /\ streamer w' = streamer w
    /\ tasks w' = tasks w /\ manager w' = manager w )
  \/
  ( exists T w1 p s,
      profile = AsEnum p
      /\ _started (streamer w) = true
      /\ _resolve_chat_id out chat_identifier w = (Ok T, w1)
      /\ existsb (occupies T) (session_values w) = false
      /\ heap w' = <[fresh (dom (heap w)) := s]> (heap w)
      /\ streamer w'
         = with_sessions (<[String.substring 0 8 (uuid4_at out (draws w))
                            := fresh (dom (heap w))]> (_sessions (streamer w))) (streamer w)
      /\ tasks w' = tasks w /\ manager w' = manager w
      /\ ( (r = Ok (fresh (dom (heap w)))
            /\ s = mark_streaming (utcnow_at out (S (ticks w)))
                     (connecting_session (utcnow_at out (ticks w))
                        (String.substring 0 8 (uuid4_at out (draws w))) T source_url p)
            /\ is_Some (_tgcalls (streamer w))
            /\ exists u, trace w' = EvPlay T u :: trace w1 \/
                         trace w' = EvPlay T u :: EvResolveYoutube source_url :: trace w1)
           \/
           (exists e0,
              s = mark_error (str e0)
                    (connecting_session (utcnow_at out (ticks w))
                       (String.substring 0 8 (uuid4_at out (draws w))) T source_url p)
              /\ r = Raise
                       (if bool_decide (exn_class_of e0 ∈ [ChatAdminRequired; UserNotParticipant])
                        then Exn PermissionError
                               ("Insufficient permissions to join video chat. "
                                +:+ "Ensure the account/bot has permission to manage video chats.")
                        else Exn StreamConnectionError
                               ("Failed to start stream: " +:+ str e0))) ) ).
Proof.
  unfold start_stream. mred.
  destruct (_started (streamer w)) eqn:Hst; cbn [negb].
  2: { intros [= <- <-]. left. split; [|auto].
       eexists. split; [reflexivity|]. left. reflexivity. }
  destruct (_resolve_chat_id out chat_identifier w) as [[T|e] w1] eqn:Hres;
    pose proof (_resolve_chat_id_frame out _ _ _ _ Hres) as (Hh & Hs & Ht & Hm & Hti & Hd).
  2: { intros [= <- <-]. left. split; [|auto].
       eexists. split; [reflexivity|]. right. left. exists w1. reflexivity. }
  assert (Hv : session_values w1 = session_values w)
    by (unfold session_values; rewrite Hh, Hs; reflexivity).
  rewrite Hv.
  destruct (existsb (occupies T) (session_values w)) eqn:Hocc.
  { intros [= <- <-]. left. split; [|auto].
    eexists. split; [reflexivity|]. right. right. left. exists T, w1. split; [reflexivity|exact Hocc]. }
  destruct profile as [p|p]; cbn [profile_value].
  2: { intros [= <- <-]. left. split; [|auto].
       eexists. split; [reflexivity|]. right. right. right. exists p. split; reflexivity. }
  unfold _prepare_stream_url. mred.
  wred.
  rewrite ?Hh, ?Hs, ?Hti, ?Hd, ?alter_insert_eq, detect_type_url.
  destruct (bool_decide (stream_type (detect_type source_url) = YOUTUBE));
    cbv beta iota; wred.
  all: try (match goal with |- context [resolve_youtube_url out ?h ?u] =>
              destruct (resolve_youtube_url out h u) as [a|e0] eqn:Ey end;
            cbv beta iota; wred).
  all: destruct (_tgcalls (streamer w)) as [tg|] eqn:Etg; cbv beta iota; wred.
  all: try (match goal with |- context [play out ?h ?c ?a] =>
              destruct (play out h c a) as [[]|e0] eqn:Ep end; cbv beta iota; wred).
  all: repeat match goal with |- context [bool_decide (exn_class_of ?e ∈ ?l)] =>
         let E := fresh "Eperm" in destruct (bool_decide (exn_class_of e ∈ l)) eqn:E end.
  all: cbv beta iota; wred; rewrite ?alter_insert_eq.
  all: (intros [= <- <-]; right; exists T, w1, p; eexists).
  all: split; [reflexivity|]; split; [reflexivity|]; split; [reflexivity|];
    split; [exact Hocc|]; wred; rewrite ?insert_insert_eq, ?Hti.
  all: split; [reflexivity|]; split; [reflexivity|]; split; [exact Ht|]; split; [exact Hm|].
  all: solve
    [ left; split; [reflexivity|]; split; [reflexivity|]; split; [eauto|];
      eexists; first [left; reflexivity | right; reflexivity]
    | right; eexists; split; [reflexivity|]; rewrite Eperm; reflexivity
    | exfalso; vm_compute in Eperm; discriminate Eperm
    | right; exists (Exn AttributeError "'NoneType' object has no attribute 'play'");
      split; reflexivity ].
Qed.

Lemma fresh_loc_unused (w : World) : heap w !! fresh (dom (heap w)) = None.
Proof. apply not_elem_of_dom, is_fresh. Qed.

(** X4.  Past its checks (the streamer is started, the chat resolves, no
    session reserves the chat, the profile is one of the enumeration)
    [start_stream] always leaves a new session object in the registry,
    under the first eight characters of the uuid it draws: STREAMING, with
    its start time set, when the transport accepted the call; in ERROR, with
    one error counted and the start time unset, when anything failed, and
    then the failure is raised as [PermissionError] or
    [StreamConnectionError].  No other session object changes. *)
Theorem start_stream_registers (chat_identifier : ChatIdentifier) (source_url : string)
    (p : TranscodeProfile) (w w1 : World) (T : Z) :
  _started (streamer w) = true ->
  _resolve_chat_id out chat_identifier w = (Ok T, w1) ->
  existsb (occupies T) (session_values w) = false ->
  exists r w' s,
    start_stream out chat_identifier source_url (AsEnum p) w = (r, w')
    /\ heap w !! fresh (dom (heap w)) = None
    /\ heap w' = <[fresh (dom (heap w)) := s]> (heap w)
    /\ _sessions (streamer w')
       = <[String.substring 0 8 (uuid4_at out (draws w)) := fresh (dom (heap w))]>
           (_sessions (streamer w))
    /\ id s = String.substring 0 8 (uuid4_at out (draws w))
    /\ chat_id s = T /\ source s = detect_type source_url /\ models.profile s = value p
    /\ created_at s = utcnow_at out (ticks w)
    /\ match r with
       | Ok l => l = fresh (dom (heap w)) /\ status s = STREAMING
                 /\ started_at s = Some (utcnow_at out (S (ticks w)))
                 /\ last_error s = None /\ error_count s = 0
       | Raise e => status s = ERROR /\ started_at s = None /\ error_count s = 1
                    /\ is_Some (last_error s)
                    /\ (exn_class_of e = PermissionError
                        \/ exn_class_of e = StreamConnectionError)
       end.
Proof.
  intros Hst Hres Hocc.
  destruct (start_stream out chat_identifier source_url (AsEnum p) w) as [r w'] eqn:E.
  destruct (start_stream_cases _ _ _ _ _ _ E) as [[(e & -> & Hwhy) _] | H].
  - exfalso. destruct Hwhy as [H | [(w0 & H) | [(T0 & w0 & H & H') | (p0 & H & _)]]].
    + congruence.
    + congruence.
    + rewrite Hres in H. injection H as -> ->. congruence.
    + discriminate H.
  - destruct H as (T0 & w0 & p0 & s & Hp & _ & Hres' & _ & Hheap & Hstr & _ & _ & Hout).
    injection Hp as <-. rewrite Hres in Hres'. injection Hres' as <- <-.
    exists r, w', s. split; [reflexivity|]. split; [apply fresh_loc_unused|].
    split; [exact Hheap|]. split; [rewrite Hstr; reflexivity|].
    destruct Hout as [(-> & -> & _) | (e0 & -> & ->)].
    + repeat split; reflexivity.
    + repeat split; try reflexivity; [eexists; reflexivity|].
      destruct (bool_decide _); [left | right]; reflexivity.
Qed.

(** X5.  [start_stream] never succeeds and never creates a session when
    its profile argument is a plain string, as it is when
    [_reconnect_loop] passes [session.profile]: whatever the state, the
    call raises and the registry and the session objects are as before.
    Where the call gets past its checks it has drawn a uuid and fails with
    [AttributeError] on [profile.value]. *)
Theorem start_stream_str_profile (chat_identifier : ChatIdentifier) (source_url p : string)
    (w : World) :
  exists e w',
    start_stream out chat_identifier source_url (AsStr p) w = (Raise e, w')
    /\ heap w' = heap w /\ streamer w' = streamer w
    /\ tasks w' = tasks w /\ manager w' = manager w
    /\ forall T w1,
         _started (streamer w) = true ->
         _resolve_chat_id out chat_identifier w = (Ok T, w1) ->
         existsb (occupies T) (session_values w) = false ->
         e = Exn AttributeError "'str' object has no attribute 'value'"
         /\ w' = draw w1.
Proof.
  destruct (start_stream out chat_identifier source_url (AsStr p) w) as [r w'] eqn:E.
  destruct (start_stream_cases _ _ _ _ _ _ E) as [[(e & -> & _) Hfr] | H].
  - exists e, w'. split; [reflexivity|].
    destruct Hfr as (Hh & Hs & Ht & Hm).
    split; [exact Hh|]. split; [exact Hs|]. split; [exact Ht|]. split; [exact Hm|].
    intros T w1 Hst Hres Hocc.
    pose proof (_resolve_chat_id_frame out _ _ _ _ Hres) as (Hh1 & Hs1 & _).
    assert (Hv : session_values w1 = session_values w)
      by (unfold session_values; rewrite Hh1, Hs1; reflexivity).
    revert E. unfold start_stream. mred. rewrite Hst. cbn [negb].
    rewrite Hres, Hv, Hocc. cbn [profile_value]. intros [= <- <-]. split; reflexivity.
  - destruct H as (T0 & w0 & p0 & s & Hp & _). discriminate Hp.
Qed.

Lemma get_session_same (w w' : World) (session_id : string) :
  heap w' = heap w -> streamer w' = streamer w ->
  get_session w' session_id = get_session w session_id.
Proof. intros Hh Hs. unfold get_session. rewrite Hh, Hs. reflexivity. Qed.

Lemma occupies_spec (T : Z) (s : StreamSession) :
  occupies T s = true <-> chat_id s = T /\ occupying (status s).
Proof.
  unfold occupies, occupying. rewrite andb_true_iff, !bool_decide_eq_true, !elem_of_cons.
  split; intros [H1 H2]; (split; [exact H1|]).
  - destruct H2 as [H | [H | [H | H]]]; [tauto | tauto | tauto | ].
    apply elem_of_nil in H. contradiction.
  - tauto.
Qed.

(** X6.  [start_stream] keeps the registry exclusive: if every registered
    id names a session object and no two registered sessions reserve the
    same chat (CONNECTING, STREAMING or RECONNECTING) before the call, the
    same holds after it, whether the call returns or raises. *)
Theorem start_stream_keeps_exclusive (chat_identifier : ChatIdentifier)
    (source_url : string) (profile : ProfileArg) (w w' : World) (r : result loc) :
  registered_live w ->
  exclusive w ->
  start_stream out chat_identifier source_url profile w = (r, w') ->
  registered_live w' /\ exclusive w'.
Proof.
  intros Hlive Hex E.
  destruct (start_stream_cases _ _ _ _ _ _ E) as [[_ (Hh & Hs & _)] | H].
  - split.
    + intros i l Hi. rewrite Hh. rewrite Hs in Hi. eauto.
    + intros i j li lj si sj Hij Hi Hj.
      rewrite (get_session_same w w' i Hh Hs) in Hi.
      rewrite (get_session_same w w' j Hh Hs) in Hj. eauto.
  - destruct H as (T & w1 & p & s & _ & _ & _ & Hocc & Hheap & Hstr & _ & _ & Hout).
    set (l := fresh (dom (heap w))) in *.
    set (sid := String.substring 0 8 (uuid4_at out (draws w))) in *.
    assert (Hl : heap w !! l = None) by apply fresh_loc_unused.
    assert (Hsess : _sessions (streamer w') = <[sid := l]> (_sessions (streamer w)))
      by (rewrite Hstr; reflexivity).
    assert (Hold : forall i, i <> sid -> get_session w' i = get_session w i).
    { intros i Hi. unfold get_session. rewrite Hsess, lookup_insert_ne by congruence.
      destruct (_sessions (streamer w) !! i) as [li|] eqn:Eli; [|reflexivity].
      destruct (Hlive i li Eli) as [si Hsi].
      rewrite Hheap, lookup_insert_ne by congruence. reflexivity. }
    assert (Hnew : get_session w' sid = Some (l, s)).
    { unfold get_session. rewrite Hsess, lookup_insert_eq, Hheap, lookup_insert_eq.
      reflexivity. }
    assert (Hfree : forall j lj sj, get_session w j = Some (lj, sj) ->
                      occupying (status sj) -> occupying (status s) ->
                      chat_id s <> chat_id sj).
    { intros j lj sj Hj Hoj Hos Heq.
      destruct Hout as [(_ & -> & _) | (e0 & -> & _)].
      - assert (Hin : existsb (occupies T) (session_values w) = true).
        { apply existsb_exists. exists sj. split.
          - apply list_elem_of_In. eapply session_values_elem. exact Hj.
          - apply occupies_spec. split; [rewrite <- Heq; reflexivity | exact Hoj]. }
        congruence.
      - destruct Hos as [H | [H | H]]; discriminate H. }
    split.
    + intros i li Hi. rewrite Hsess in Hi. rewrite Hheap.
      destruct (decide (i = sid)) as [->|Hne].
      * rewrite lookup_insert_eq in Hi. injection Hi as <-. rewrite lookup_insert_eq. eauto.
      * rewrite lookup_insert_ne in Hi by congruence.
        destruct (Hlive i li Hi) as [si Hsi].
        rewrite lookup_insert_ne by congruence. eauto.
    + intros i j li lj si sj Hij Hi Hj Hoi Hoj.
      destruct (decide (i = sid)) as [->|Hi'], (decide (j = sid)) as [->|Hj'].
      * contradiction.
      * rewrite Hnew in Hi. injection Hi as <- <-. rewrite (Hold j Hj') in Hj.
        eapply Hfree; eassumption.
      * rewrite Hnew in Hj. injection Hj as <- <-. rewrite (Hold i Hi') in Hi.
        intros Heq. eapply Hfree; [exact Hi | exact Hoi | exact Hoj | symmetry; exact Heq].
      * rewrite (Hold i Hi') in Hi. rewrite (Hold j Hj') in Hj. eauto.
Qed.
End Starting.

(** ** streamer.py: pausing, resuming, and what the registry keeps *)

Section Sessions.
Import streamer TelegramStreamer props invariants.
Local Open Scope list_scope.
Variable out : Outside.

Ltac mred :=
  unfold task_cancel, update_session, alloc, utcnow, monotonic, uuid4, call, try_except, lift,
    bind, ret, raise, gets, modify in *;
  cbn beta iota zeta in *.

Lemma set_status_back (st : StreamStatus) (s : StreamSession) :
  set_status (status s) (set_status st s) = s.
Proof. destruct s. reflexivity. Qed.

(** X8.  Pausing a streaming session and resuming it, with a transport
    that accepts both calls, restores the session exactly: every field is
    as before the pause, [started_at] included, so the time spent paused
    counts into the duration.  Nothing else has changed but the trace,
    which holds the two calls. *)
Theorem pause_resume_round_trip (w : World) (session_id : string) (l : loc)
    (s : StreamSession) :
  get_session w session_id = Some (l, s) ->
  status s = STREAMING ->
  is_Some (_tgcalls (streamer w)) ->
  pause_stream_call out (trace w) (chat_id s) = Ok tt ->
  resume_stream_call out (EvPauseStream (chat_id s) :: trace w) (chat_id s) = Ok tt ->
  exists w1 w2,
    pause_stream out session_id w = (Ok true, w1)
    /\ get_session w1 session_id = Some (l, set_status PAUSED s)
    /\ resume_stream out session_id w1 = (Ok true, w2)
    /\ heap w2 = heap w /\ streamer w2 = streamer w
    /\ tasks w2 = tasks w /\ manager w2 = manager w /\ ticks w2 = ticks w
    /\ trace w2 = [EvResumeStream (chat_id s); EvPauseStream (chat_id s)] ++ trace w.
Proof.
  intros Hget Hst [tg Htg] Hp Hr.
  pose proof (proj1 (get_session_Some _ _ _ _) Hget) as [Hl Hs].
  set (w1 := with_heap (<[l := set_status PAUSED s]> (heap w))
               (emit (EvPauseStream (chat_id s)) w)).
  assert (Hget1 : get_session w1 session_id = Some (l, set_status PAUSED s)).
  { apply get_session_Some. split; [exact Hl | apply lookup_insert_eq]. }
  assert (E1 : pause_stream out session_id w = (Ok true, w1)).
  { rewrite pause_stream_transition. unfold transition.
    rewrite Hget, Hst, bool_decide_eq_true_2, Htg, Hp by reflexivity. reflexivity. }
  assert (E2 : resume_stream out session_id w1
               = (Ok true, with_heap (<[l := set_status STREAMING (set_status PAUSED s)]>
                                        (heap w1))
                             (emit (EvResumeStream (chat_id s)) w1))).
  { rewrite resume_stream_transition. unfold transition. rewrite Hget1.
    cbn [status set_status chat_id]. rewrite bool_decide_eq_true_2 by reflexivity.
    replace (_tgcalls (streamer w1)) with (Some tg) by (symmetry; exact Htg).
    replace (trace w1) with (EvPauseStream (chat_id s) :: trace w) by reflexivity.
    rewrite Hr. reflexivity. }
  exists w1. eexists. split; [exact E1|]. split; [exact Hget1|]. split; [exact E2|].
  cbn [heap streamer tasks manager ticks trace with_heap emit w1].
  subst w1. cbn [heap with_heap emit].
  rewrite insert_insert_eq. rewrite <- Hst at 1. rewrite set_status_back.
  rewrite (insert_id _ _ _ Hs). repeat split.
Qed.

(** X7.  [resume_stream] does not look at the other sessions.  A paused
    session does not reserve its chat, so another session may have been
    started for the same chat meanwhile; resuming the paused one then
    succeeds and leaves two registered sessions that reserve the same chat:
    the registry is no longer exclusive. *)
Theorem resume_stream_not_exclusive (w : World) (i j : string) (li lj : loc)
    (si sj : StreamSession) :
  i <> j ->
  get_session w i = Some (li, si) ->
  get_session w j = Some (lj, sj) ->
  status si = PAUSED ->
  occupying (status sj) ->
  chat_id sj = chat_id si ->
  is_Some (_tgcalls (streamer w)) ->
  resume_stream_call out (trace w) (chat_id si) = Ok tt ->
  existsb (occupies (chat_id si)) [si] = false
  /\ exists w', resume_stream out i w = (Ok true, w')
               /\ get_session w' i = Some (li, set_status STREAMING si)
               /\ get_session w' j = Some (lj, sj)
               /\ ~ exclusive w'.
Proof.
  intros Hij Hi Hj Hsi Hoj Hchat [tg Htg] Hr.
  pose proof (proj1 (get_session_Some _ _ _ _) Hi) as [Hli Hhi].
  pose proof (proj1 (get_session_Some _ _ _ _) Hj) as [Hlj Hhj].
  assert (Hne : li <> lj).
  { intros ->. rewrite Hhi in Hhj. injection Hhj as ->.
    rewrite Hsi in Hoj. destruct Hoj as [H | [H | H]]; discriminate H. }
  split.
  { cbn [existsb]. rewrite orb_false_r. apply not_true_is_false. intros H.
    apply occupies_spec in H as [_ H]. rewrite Hsi in H.
    destruct H as [H | [H | H]]; discriminate H. }
  rewrite resume_stream_transition. unfold transition.
  rewrite Hi, Hsi, bool_decide_eq_true_2, Htg, Hr by reflexivity.
  eexists. split; [reflexivity|].
  assert (Hi' : get_session
                  (with_heap (<[li := set_status STREAMING si]> (heap w))
                     (emit (EvResumeStream (chat_id si)) w)) i
                = Some (li, set_status STREAMING si)).
  { apply get_session_Some. split; [exact Hli | apply lookup_insert_eq]. }
  assert (Hj' : get_session
                  (with_heap (<[li := set_status STREAMING si]> (heap w))
                     (emit (EvResumeStream (chat_id si)) w)) j
                = Some (lj, sj)).
  { apply get_session_Some. split; [exact Hlj|].
    cbn [heap with_heap]. rewrite lookup_insert_ne by exact Hne. exact Hhj. }
  split; [exact Hi'|]. split; [exact Hj'|].
  intros Hex. apply (Hex i j _ _ _ _ Hij Hi' Hj').
  - right. left. reflexivity.
  - exact Hoj.
  - symmetry. exact Hchat.
Qed.

(** X12.  Being listed as active and reserving a chat are different
    things.  Of the registered sessions, [get_active_sessions] lists those
    that are STREAMING, PAUSED or RECONNECTING: a session that is CONNECTING
    reserves its chat and is not listed, and a session that is PAUSED is
    listed and does not reserve its chat. *)
Theorem active_and_occupying (w : World) (s : StreamSession) :
  s ∈ streamer_admin.get_all_sessions w ->
  (s ∈ streamer_admin.get_active_sessions w
   <-> status s = STREAMING \/ status s = PAUSED \/ status s = RECONNECTING)
  /\ (status s = CONNECTING ->
      occupies (chat_id s) s = true /\ s ∉ streamer_admin.get_active_sessions w)
  /\ (status s = PAUSED ->
      occupies (chat_id s) s = false /\ s ∈ streamer_admin.get_active_sessions w).
Proof.
  intros Hin. unfold streamer_admin.get_all_sessions in Hin.
  assert (Hact : s ∈ streamer_admin.get_active_sessions w
                 <-> status s = STREAMING \/ status s = PAUSED \/ status s = RECONNECTING).
  { unfold streamer_admin.get_active_sessions.
    rewrite list_elem_of_In, filter_In, <- list_elem_of_In, bool_decide_eq_true.
    rewrite !elem_of_cons, elem_of_nil. tauto. }
  split; [exact Hact|]. split.
  - intros Hc. split.
    + apply occupies_spec. split; [reflexivity|]. left. exact Hc.
    + rewrite Hact, Hc. intros [H | [H | H]]; discriminate H.
  - intros Hp. split.
    + apply not_true_is_false. rewrite occupies_spec, Hp.
      intros [_ [H | [H | H]]]; discriminate H.
    + apply Hact. right. left. exact Hp.
Qed.

Lemma stop_stream_dangling (w : World) (session_id : string) :
  get_session w session_id = None -> stop_stream out session_id w = (Ok false, w).
Proof. intros H. unfold stop_stream. mred. rewrite H. reflexivity. Qed.


(** X26.  Stopping a session that reserves its chat frees the chat: in a
    registry that is exclusive and whose ids all name a session object,
    [stop_stream] on such a session returns true and afterwards no
    registered session reserves that chat, so the next [start_stream] for
    it is not refused as already streaming; the registry is still
    exclusive. *)
Theorem stop_stream_frees_chat (w : World) (session_id : string) (l : loc)
    (s : StreamSession) :
  registered_live w ->
  exclusive w ->
  get_session w session_id = Some (l, s) ->
  occupying (status s) ->
  exists w',
    stop_stream out session_id w = (Ok true, w')
    /\ existsb (occupies (chat_id s)) (session_values w') = false
    /\ registered_live w' /\ exclusive w'.
Proof.
  intros Hlive Hex Hget Hocc.
  destruct (stop_stream_known out w session_id l s Hget)
    as (w' & evs & E & Hheap & Hsess & _).
  pose proof (proj1 (get_session_Some _ _ _ _) Hget) as [Hl Hs].
  assert (Hback : forall j lj sj', get_session w' j = Some (lj, sj') ->
            occupying (status sj') -> lj <> l /\ get_session w j = Some (lj, sj')).
  { intros j lj sj' Hj Hoj. apply get_session_Some in Hj as [Hjl Hjs].
    rewrite Hsess in Hjl. rewrite Hheap in Hjs.
    destruct (decide (lj = l)) as [->|Hne].
    - exfalso. rewrite lookup_alter_eq, Hs in Hjs. injection Hjs as <-.
      destruct Hoj as [H | [H | H]]; discriminate H.
    - rewrite lookup_alter_ne in Hjs by congruence.
      split; [exact Hne | apply get_session_Some; split; assumption]. }
  exists w'. split; [exact E|]. split; [|split].
  - apply not_true_is_false. intros H.
    apply existsb_exists in H as (sj' & Hin & Ho).
    apply occupies_spec in Ho as [Hchat Hoj].
    apply list_elem_of_In in Hin. unfold session_values in Hin.
    apply list_elem_of_omap in Hin as ([j lj] & Hjl & Hjs). cbn [snd] in Hjs.
    apply elem_of_map_to_list in Hjl.
    assert (Hj : get_session w' j = Some (lj, sj'))
      by (apply get_session_Some; split; assumption).
    destruct (Hback j lj sj' Hj Hoj) as [Hne Hj0].
    assert (Hji : j <> session_id).
    { intros ->. apply get_session_Some in Hj0 as [Hj0 _]. congruence. }
    exact (Hex j session_id lj l sj' s Hji Hj0 Hget Hoj Hocc Hchat).
  - intros j lj Hj. rewrite Hsess in Hj. destruct (Hlive j lj Hj) as [sj Hsj].
    rewrite Hheap. destruct (decide (lj = l)) as [->|Hne].
    + rewrite lookup_alter_eq, Hsj. eauto.
    + rewrite lookup_alter_ne by congruence. eauto.
  - intros i j li lj si sj Hij Hi Hj Hoi Hoj.
    destruct (Hback i li si Hi Hoi) as [_ Hi0].
    destruct (Hback j lj sj Hj Hoj) as [_ Hj0].
    exact (Hex i j li lj si sj Hij Hi0 Hj0 Hoi Hoj).
Qed.

(** X10.  [_resolve_chat_id] fails in two ways only: with
    [StreamConnectionError] when the streamer has no client, whatever the
    identifier, and with [ChatNotFoundError] when the lookup of a name
    fails, whatever the failure was.  A numeric identifier is returned as
    it is, without a call to Telegram; and nothing but the trace changes. *)
Theorem _resolve_chat_id_outcomes (chat_identifier : ChatIdentifier) (w : World) :
  exists r w',
    _resolve_chat_id out chat_identifier w = (r, w')
    /\ heap w' = heap w /\ streamer w' = streamer w /\ tasks w' = tasks w
    /\ manager w' = manager w
    /\ match _client (streamer w), chat_identifier with
       | None, _ => r = Raise (Exn StreamConnectionError "Client not started") /\ w' = w
       | Some _, IdInt n => r = Ok n /\ w' = w
       | Some _, IdStr name =>
           trace w' = EvGetChat name :: trace w
           /\ match get_chat out (trace w) name with
              | Ok n => r = Ok n
              | Raise e => exists m, r = Raise (Exn ChatNotFoundError m)
              end
       end.
Proof.
  unfold _resolve_chat_id. mred.
  destruct (_client (streamer w)) as [c|]; [|eexists _, _; repeat split].
  destruct chat_identifier as [n|name]; [eexists _, _; repeat split|].
  destruct (get_chat out (trace w) name) as [n|e]; [eexists _, _; repeat split|].
  destruct (bool_decide _); eexists _, _; repeat split; eexists; reflexivity.
Qed.
End Sessions.

(** ** streamer.py: the shutdown *)

Section Shutdown.
Import streamer TelegramStreamer props invariants streamer_admin.
Local Open Scope list_scope.
Variable out : Outside.
Variable tgcalls_stop : list Event -> result unit.
Variable client_stop : list Event -> result unit.

Ltac mred :=
  unfold task_cancel, update_session, alloc, utcnow, monotonic, uuid4, call, try_except, lift,
    bind, ret, raise, gets, modify in *;
  cbn beta iota zeta in *.

Lemma stopped_more_trans (w1 w2 w3 : World) :
  stopped_more w1 w2 -> stopped_more w2 w3 -> stopped_more w1 w3.
Proof.
  intros H12 H23 l s Hs.
  destruct (H12 l s Hs) as (s2 & Hs2 & Hid2 & Hst2).
  destruct (H23 l s2 Hs2) as (s3 & Hs3 & Hid3 & Hst3).
  exists s3. split; [exact Hs3|]. split; [|auto].
  destruct Hid2 as (?&?&?&?), Hid3 as (?&?&?&?). repeat split; congruence.
Qed.

Lemma cancel_tasks_frame (ts : list task_id) (w : World) :
  exists w', cancel_tasks ts w = (Ok tt, w')
             /\ heap w' = heap w /\ streamer w' = streamer w /\ manager w' = manager w
             /\ trace w' = trace w.
Proof.
  revert w. induction ts as [|t ts IH]; intros w; cbn [cancel_tasks].
  - exists w. repeat split.
  - mred. destruct (IH (with_tasks (alter request_cancel t (tasks w)) w))
      as (w' & E & Hh & Hs & Hm & Htr).
    rewrite E. exists w'. repeat split; assumption.
Qed.

Lemma stop_stream_step (w : World) (session_id : string) :
  registered_live w ->
  exists r w',
    stop_stream out session_id w = (Ok r, w')
    /\ _sessions (streamer w') = _sessions (streamer w)
    /\ _started (streamer w') = _started (streamer w)
    /\ _client (streamer w') = _client (streamer w)
    /\ _tgcalls (streamer w') = _tgcalls (streamer w)
    /\ manager w' = manager w
    /\ stopped_more w w'
    /\ (forall l, _sessions (streamer w) !! session_id = Some l ->
          exists s', heap w' !! l = Some s' /\ status s' = STOPPED).
Proof.
  intros Hlive.
  destruct (get_session w session_id) as [[l s]|] eqn:Hget.
  - destruct (stop_stream_known out w session_id l s Hget)
      as (w' & evs & E & Hheap & Hs & Hst & Hc & Htg & _ & _ & _ & Hm & _).
    pose proof (proj1 (get_session_Some _ _ _ _) Hget) as [Hl Hsl].
    exists true, w'. split; [exact E|]. repeat (split; [assumption|]). split.
    + intros l0 s0 Hs0. rewrite Hheap.
      destruct (decide (l0 = l)) as [->|Hne].
      * rewrite lookup_alter_eq, Hs0. cbn. eexists. split; [reflexivity|].
        split; [repeat split | reflexivity].
      * rewrite lookup_alter_ne by congruence. exists s0.
        split; [exact Hs0|]. split; [repeat split | auto].
    + intros l0 Hl0. rewrite Hl in Hl0. injection Hl0 as <-.
      rewrite Hheap, lookup_alter_eq, Hsl. cbn. eexists. split; reflexivity.
  - rewrite (stop_stream_dangling out _ _ Hget). exists false, w.
    split; [reflexivity|]. repeat (split; [reflexivity|]). split.
    + intros l s Hs. exists s. split; [exact Hs|]. split; [repeat split | auto].
    + intros l Hl. exfalso. destruct (Hlive _ _ Hl) as [s Hs].
      unfold get_session in Hget. rewrite Hl, Hs in Hget. discriminate Hget.
Qed.

Lemma stop_sessions_spec (ids : list string) :
  forall w, registered_live w ->
  exists w',
    stop_sessions out ids w = (Ok tt, w')
    /\ _sessions (streamer w') = _sessions (streamer w)
    /\ _started (streamer w') = _started (streamer w)
    /\ _client (streamer w') = _client (streamer w)
    /\ _tgcalls (streamer w') = _tgcalls (streamer w)
    /\ manager w' = manager w
    /\ stopped_more w w'
    /\ (forall session_id l, session_id ∈ ids ->
          _sessions (streamer w) !! session_id = Some l ->
          exists s', heap w' !! l = Some s' /\ status s' = STOPPED).
Proof.
  induction ids as [|i ids IH]; intros w Hlive; cbn [stop_sessions].
  - exists w. split; [reflexivity|]. repeat (split; [reflexivity|]). split.
    + intros l s Hs. exists s. split; [exact Hs|]. split; [repeat split | auto].
    + intros session_id l Hin. apply elem_of_nil in Hin. contradiction.
  - destruct (stop_stream_step w i Hlive)
      as (r & w1 & E1 & Hs1 & Hst1 & Hc1 & Htg1 & Hm1 & Hmore1 & Hdone1).
    assert (Hlive1 : registered_live w1).
    { intros j l Hj. rewrite Hs1 in Hj. destruct (Hlive j l Hj) as [s Hs].
      destruct (Hmore1 l s Hs) as (s' & Hs' & _). eauto. }
    destruct (IH w1 Hlive1) as (w' & E & Hs & Hst & Hc & Htg & Hm & Hmore & Hdone).
    exists w'. split; [unfold bind; rewrite E1; exact E|].
    split; [congruence|]. split; [congruence|]. split; [congruence|].
    split; [congruence|]. split; [congruence|].
    split; [eapply stopped_more_trans; eassumption|].
    intros session_id l Hin Hl. apply elem_of_cons in Hin as [-> | Hin].
    + destruct (Hdone1 l Hl) as (s1 & Hsl1 & Hstop1).
      destruct (Hmore l s1 Hsl1) as (s' & Hs' & _ & Hkeep). eauto.
    + apply (Hdone session_id l Hin). rewrite Hs1. exact Hl.
Qed.

Lemma filter_none {A : Type} (f : A -> bool) (l : list A) :
  (forall x, In x l -> f x = false) -> List.filter f l = [].
Proof.
  induction l as [|a l IH]; intros H; [reflexivity|].
  cbn. rewrite (H a) by (left; reflexivity). apply IH. intros x Hx. apply H. right. exact Hx.
Qed.

(** X11.  [TelegramStreamer.stop], for a registry whose ids all name a
    session object, does not raise, whatever the two libraries answer.
    Afterwards every registered session is STOPPED and is otherwise the
    session it was, the registry still holds them all, no session is
    listed as active, the streamer is not started and holds neither client
    nor transport nor reconnect task; and every [start_stream] is refused
    with "Streamer not started". *)
Theorem streamer_stop_spec (ids : list string) (w : World) :
  registered_live w ->
  ids ≡ₚ (map_to_list (_sessions (streamer w))).*1 ->
  exists w',
    stop out tgcalls_stop client_stop ids w = (Ok tt, w')
    /\ _started (streamer w') = false
    /\ _client (streamer w') = None
    /\ _tgcalls (streamer w') = None
    /\ _reconnect_tasks (streamer w') = ∅
    /\ _sessions (streamer w') = _sessions (streamer w)
    /\ manager w' = manager w
    /\ (forall session_id l, _sessions (streamer w) !! session_id = Some l ->
          exists s s', heap w !! l = Some s /\ heap w' !! l = Some s'
                       /\ status s' = STOPPED /\ same_identity s s')
    /\ get_active_sessions w' = []
    /\ (forall chat_identifier source_url profile,
          start_stream out chat_identifier source_url profile w'
          = (Raise (Exn StreamConnectionError "Streamer not started"), w')).
Proof.
  intros Hlive Hperm.
  destruct (stop_sessions_spec ids w Hlive)
    as (w1 & E1 & Hs1 & Hst1 & Hc1 & Htg1 & Hm1 & Hmore1 & Hdone1).
  destruct (cancel_tasks_frame (map snd (map_to_list (_reconnect_tasks (streamer w1)))) w1)
    as (w2 & E2 & Hh2 & Hs2 & Hm2 & Htr2).
  assert (Hall : forall session_id l, _sessions (streamer w) !! session_id = Some l ->
            exists s s', heap w !! l = Some s /\ heap w2 !! l = Some s'
                         /\ status s' = STOPPED /\ same_identity s s').
  { intros session_id l Hl. destruct (Hlive _ _ Hl) as [s Hs].
    assert (Hin : session_id ∈ ids).
    { rewrite Hperm. apply list_elem_of_fmap. exists (session_id, l).
      split; [reflexivity | apply elem_of_map_to_list; exact Hl]. }
    destruct (Hdone1 session_id l Hin Hl) as (s' & Hs' & Hstop).
    destruct (Hmore1 l s Hs) as (s'' & Hs'' & Hid & _).
    rewrite Hs' in Hs''. injection Hs'' as <-.
    exists s, s'. rewrite Hh2. auto. }
  assert (Hactive : forall st : TelegramStreamer.t,
            _sessions st = _sessions (streamer w) ->
            forall w3, heap w3 = heap w2 -> streamer w3 = st ->
            get_active_sessions w3 = []).
  { intros st Hst w3 Hh3 Hstr3. unfold get_active_sessions. apply filter_none.
    intros s Hin. apply list_elem_of_In in Hin. unfold session_values in Hin.
    apply list_elem_of_omap in Hin as ([i l] & Hil & Hsl). cbn [snd] in Hsl.
    apply elem_of_map_to_list in Hil. rewrite Hstr3, Hst in Hil.
    destruct (Hall i l Hil) as (s0 & s' & _ & Hs' & Hstop & _).
    rewrite Hh3, Hs' in Hsl. injection Hsl as <-. rewrite Hstop.
    apply bool_decide_eq_false_2. rewrite !elem_of_cons.
    intros [H | [H | [H | H]]]; try discriminate H. apply elem_of_nil in H. exact H. }
  unfold stop. unfold bind at 1. rewrite E1.
  unfold bind at 1. unfold bind at 1. unfold gets at 1. rewrite E2.
  mred.
  cbn [streamer with_streamer with_reconnect_tasks _tgcalls _client].
  rewrite Hs2, Htg1.
  destruct (_tgcalls (streamer w)) as [tg|] eqn:Etg; cbv beta iota;
    cbn [streamer with_streamer with_reconnect_tasks with_tgcalls _tgcalls _client trace];
    repeat match goal with |- context [tgcalls_stop ?h] => destruct (tgcalls_stop h) end;
    cbv beta iota;
    cbn [streamer with_streamer with_reconnect_tasks with_tgcalls _tgcalls _client trace];
    rewrite ?Hs2, ?Hc1;
    (destruct (_client (streamer w)) as [cl|] eqn:Ecl; cbv beta iota;
     cbn [streamer with_streamer with_reconnect_tasks with_tgcalls with_client
          _tgcalls _client trace];
     repeat match goal with |- context [client_stop ?h] => destruct (client_stop h) end;
     cbv beta iota;
     cbn [streamer with_streamer with_reconnect_tasks with_tgcalls with_client
          _tgcalls _client trace]).
  all: eexists; (split; [reflexivity|]);
    cbn [streamer with_streamer with_reconnect_tasks with_tgcalls with_client with_started
         _tgcalls _client _started _sessions _reconnect_tasks heap manager trace];
    rewrite ?Hs2, ?Htg1, ?Hc1, ?Etg, ?Ecl.
  all: (split; [reflexivity|]); (split; [reflexivity|]); (split; [reflexivity|]);
    (split; [reflexivity|]); (split; [exact Hs1|]); (split; [congruence|]);
    (split; [exact Hall|]);
    (split; [eapply Hactive; [|reflexivity|reflexivity]; cbn [_sessions]; rewrite ?Hs2; exact Hs1|]);
    intros ci su pr; unfold start_stream; mred; reflexivity.
Qed.
End Shutdown.

(** ** reconnection.py: the manager and its loops *)

Section Loops.
Import reconnection ReconnectionManager props.
Local Open Scope list_scope.
Variable out : Outside.
Variable start_stream_func : Z -> string -> string -> M unit.

Ltac mred :=
  unfold set_tasks, set_pc, create_task, task_cancel, update_session, read,
    utcnow, monotonic, uuid4, call, try_except, lift,
    bind, ret, raise, gets, modify in *;
  cbn beta iota zeta in *.

Ltac wred :=
  cbn [trace heap tasks manager streamer ticks draws
       with_tasks with_heap with_manager with_streamer tick emit draw
       _active settings _reconnect_tasks with_reconnect_tasks with_active].

(** X14.  [handle_disconnect] on a session object: with reconnection
    disabled the session is marked in error with the message given, or
    "Disconnected" when none or an empty one is given; at the attempt limit
    it is marked in error with "Max reconnection attempts reached"; in both
    cases no task is created.  Otherwise a loop is registered under the
    session id unless there is one already, in which case nothing happens;
    the session itself is not touched by the call (it becomes RECONNECTING
    only when the task runs), and a second call changes nothing. *)
Theorem handle_disconnect_spec (w : World) (l : loc) (s : StreamSession)
    (error : option string) :
  heap w !! l = Some s ->
  (reconnect_enabled (settings (manager w)) = false ->
     handle_disconnect l error w
     = (Ok tt, with_heap (<[l := mark_error (error_or_default error) s]> (heap w)) w)
     /\ error_or_default (Some "") = "Disconnected"
     /\ error_or_default None = "Disconnected")
  /\ (reconnect_enabled (settings (manager w)) = true ->
      reconnect_max_attempts (settings (manager w)) <= reconnect_attempts s ->
      handle_disconnect l error w
      = (Ok tt, with_heap (<[l := mark_error "Max reconnection attempts reached" s]> (heap w)) w))
  /\ (reconnect_enabled (settings (manager w)) = true ->
      reconnect_attempts s < reconnect_max_attempts (settings (manager w)) ->
      is_Some (_reconnect_tasks (manager w) !! id s) ->
      handle_disconnect l error w = (Ok tt, w))
  /\ (reconnect_enabled (settings (manager w)) = true ->
      reconnect_attempts s < reconnect_max_attempts (settings (manager w)) ->
      _reconnect_tasks (manager w) !! id s = None ->
      exists w',
        handle_disconnect l error w = (Ok tt, w')
        /\ heap w' = heap w /\ trace w' = trace w
        /\ tasks w !! fresh (dom (tasks w)) = None
        /\ tasks w' = <[fresh (dom (tasks w)) := mkTask l Created false]> (tasks w)
        /\ _reconnect_tasks (manager w')
           = <[id s := fresh (dom (tasks w))]> (_reconnect_tasks (manager w))
        /\ is_reconnecting (id s) w' = (Ok true, w')
        /\ forall error', handle_disconnect l error' w' = (Ok tt, w')).
Proof.
  intros Hs. unfold handle_disconnect. split; [|split; [|split]].
  - intros Hoff. mred. rewrite Hoff. cbn [negb].
    rewrite (alter_at_session _ _ _ _ Hs). repeat split.
  - intros Hon Hmax. mred. rewrite Hon. cbn [negb]. cbv beta. rewrite Hs.
    rewrite (proj2 (Z.leb_le _ _) Hmax). cbv beta. rewrite (alter_at_session _ _ _ _ Hs). reflexivity.
  - intros Hon Hlt [t Ht]. mred. rewrite Hon. cbn [negb]. cbv beta. rewrite Hs.
    rewrite (proj2 (Z.leb_gt _ _) Hlt), Ht. reflexivity.
  - intros Hon Hlt Hnone. mred. rewrite Hon. cbn [negb]. cbv beta. rewrite Hs.
    rewrite (proj2 (Z.leb_gt _ _) Hlt), Hnone. wred.
    eexists. split; [reflexivity|]. wred.
    split; [reflexivity|]. split; [reflexivity|].
    split; [apply not_elem_of_dom, is_fresh|]. split; [reflexivity|]. split; [reflexivity|].
    split.
    + unfold is_reconnecting. mred. wred. rewrite lookup_insert_eq.
      rewrite bool_decide_eq_true_2 by eauto. reflexivity.
    + intros error'. wred. rewrite Hon. cbn [negb]. cbv beta. wred. rewrite Hs.
      rewrite (proj2 (Z.leb_gt _ _) Hlt). wred. rewrite lookup_insert_eq. reflexivity.
Qed.

Lemma wait_exponential_bounds (lo hi n : Z) :
  0 <= lo -> lo <= hi -> lo <= wait_exponential lo hi n <= hi.
Proof. intros H0 Hle. unfold wait_exponential. generalize (1 * 2 ^ (n - 1)). lia. Qed.

(** One attempt, with what it leaves when the call of the start function
    raises. *)
Lemma run_attempt_outcome (w : World) (t : task_id) (k : Task) (l : loc)
    (s : StreamSession) (n start_time : Z) :
  keeps_session start_stream_func l ->
  tasks w !! t = Some k ->
  heap w !! l = Some s ->
  _active (manager w) = true ->
  exists r w_call w_ret w' p',
    start_stream_func (chat_id s) (url (source s)) (profile s) w_call = (r, w_ret)
    /\ run_attempt out start_stream_func t l n start_time w = (Ok tt, w')
    /\ tasks w' = <[t := mkTask (task_session k) p' false]> (tasks w)
    /\ _active (manager w') = true
    /\ match r with
       | Ok _ => p' = Finished
       | Raise e =>
           exists s_ret, heap w_ret !! l = Some s_ret /\
           if should_retry e
              && negb (should_stop (settings (manager w)) n
                         (monotonic_at out (ticks w_ret) - start_time))
           then p' = Sleeping (n + 1) start_time
                /\ heap w' = heap w_ret
                /\ trace w'
                   = EvSleep (wait_exponential
                                (reconnect_min_delay (settings (manager w)))
                                (reconnect_max_delay (settings (manager w))) n)
                     :: trace w_ret
           else p' = Finished
                /\ heap w' = <[l := if bool_decide (exn_class_of e = ReconnectionError)
                                    then s_ret else mark_error (str e) s_ret]> (heap w_ret)
                /\ trace w' = trace w_ret
                /\ _reconnect_tasks (manager w') !! id s = None
       end.
Proof.
  intros K Ht Hs Ha.
  unfold run_attempt. rewrite (attempt_body_eq out start_stream_func w l s n Hs Ha).
  set (ev := EvStartStream (chat_id s) (url (source s)) (profile s)).
  set (w_call := emit ev _).
  destruct (start_stream_func (chat_id s) (url (source s)) (profile s) w_call)
    as [r w_ret] eqn:Ef.
  destruct (K _ _ _ _ _ _ Ef) as (Htk & Hmg & Hsc & Hkeep).
  destruct (Hkeep (note_attempt n (utcnow_at out (ticks w)) s))
    as (s_ret & Hret & Hid); [apply lookup_insert_eq|].
  destruct Hid as (Hi1 & _).
  assert (Hmgr : manager w_call = manager w) by reflexivity.
  assert (Htkc : tasks w_call = tasks w) by reflexivity.
  exists r, w_call, w_ret.
  destruct r as [[]|e].
  - set (w2 := tick (with_heap _ (tick w_ret))).
    assert (Hs2 : heap w2 !! l = Some (mark_streaming (utcnow_at out (ticks w_ret)) s_ret))
      by (subst w2; wred; rewrite lookup_alter_eq, Hret; reflexivity).
    destruct (cleanup_spec w2 l _ Hs2)
      as (w3 & Ec & _ & _ & Hact & _ & _ & Htk3 & _).
    mred. rewrite Ec. cbn.
    eexists _, Finished. split; [exact Ef|]. split; [reflexivity|]. wred.
    split; [rewrite Htk3; subst w2; wred; rewrite Htk, Htkc;
            apply (alter_at_session _ _ k (fun k0 => mkTask (task_session k0) Finished false));
            exact Ht|].
    split; [rewrite Hact; subst w2; wred; rewrite Hmg, Hmgr; exact Ha | reflexivity].
  - cbv beta iota zeta. wred. rewrite Hmg, Hmgr.
    destruct (should_retry e
              && negb (should_stop (settings (manager w)) n
                         (monotonic_at out (ticks w_ret) - start_time))) eqn:Edec.
    + mred. eexists _, (Sleeping (n + 1) start_time).
      split; [exact Ef|]. split; [reflexivity|]. wred.
      split; [rewrite Htk, Htkc;
              apply (alter_at_session _ _ k
                       (fun k0 => mkTask (task_session k0) (Sleeping (n + 1) start_time) false));
              exact Ht|].
      split; [rewrite Hmg, Hmgr; exact Ha|].
      exists s_ret. split; [exact Hret|]. repeat split.
    + set (w2 := tick w_ret).
      set (s_end := if bool_decide (exn_class_of e = ReconnectionError)
                    then s_ret else mark_error (str e) s_ret).
      assert (exists w3, handlers l e w2 = (Ok tt, w3)
                /\ heap w3 = <[l := s_end]> (heap w_ret)
                /\ tasks w3 = tasks w2 /\ manager w3 = manager w2
                /\ trace w3 = trace w2) as (w3 & Eh & Hh3 & Htk3 & Hmg3 & Htr3).
      { unfold handlers. subst s_end.
        destruct (bool_decide (exn_class_of e = ReconnectionError)).
        - exists w2. repeat split. symmetry. apply insert_id. exact Hret.
        - mred. eexists. split; [reflexivity|]. wred.
          split; [apply alter_at_session; exact Hret | repeat split]. }
      assert (Hs3 : heap w3 !! l = Some s_end) by (rewrite Hh3; apply lookup_insert_eq).
      assert (Hid3 : id s_end = id s_ret)
        by (subst s_end; destruct (bool_decide _); reflexivity).
      destruct (cleanup_spec w3 l _ Hs3)
        as (w4 & Ec & Hnone & _ & Hact & _ & Hh & Htk4 & Htr4 & _).
      mred. fold w2. rewrite Eh. cbn. rewrite Ec. cbn.
      eexists _, Finished. split; [exact Ef|]. split; [reflexivity|]. wred.
      split; [rewrite Htk4, Htk3; subst w2; wred; rewrite Htk, Htkc;
              apply (alter_at_session _ _ k (fun k0 => mkTask (task_session k0) Finished false));
              exact Ht|].
      split; [rewrite Hact, Hmg3; subst w2; wred; rewrite Hmg, Hmgr; exact Ha|].
      exists s_ret. split; [exact Hret|].
      split; [reflexivity|]. split; [rewrite Hh; exact Hh3|].
      split; [rewrite Htr4, Htr3; reflexivity|].
      replace (id s) with (id s_end); [exact Hnone|]. rewrite Hid3, Hi1. reflexivity.
Qed.

(** A turn of a live task is one attempt: the first, after the session is
    marked reconnecting, or the one the task was sleeping before. *)
Lemma run_task_as_attempt (w : World) (t : task_id) (k : Task) (s : StreamSession) :
  tasks w !! t = Some k ->
  done k = false ->
  _must_cancel k = false ->
  heap w !! task_session k = Some s ->
  exists n start_time w0 s0,
    run_task out start_stream_func t w
    = run_attempt out start_stream_func t (task_session k) n start_time w0
    /\ tasks w0 = tasks w /\ manager w0 = manager w /\ trace w0 = trace w
    /\ heap w0 !! task_session k = Some s0
    /\ id s0 = id s /\ chat_id s0 = chat_id s /\ source s0 = source s
    /\ profile s0 = profile s
    /\ (pc k = Created /\ n = 1 \/ pc k = Sleeping n start_time).
Proof.
  intros Ht Hd Hc Hs. unfold run_task. mred. rewrite Ht. cbv beta iota zeta.
  destruct k as [l p c]. cbn [task_session pc _must_cancel] in *. subst c.
  destruct p as [| n start_time | |]; try discriminate Hd; cbv beta iota zeta.
  - eexists 1, _, _, (mark_reconnecting (utcnow_at out (ticks w)) s).
    split; [reflexivity|]. wred. repeat split; [|left; split; reflexivity].
    rewrite lookup_alter_eq, Hs. reflexivity.
  - exists n, start_time, w, s. repeat split; [exact Hs | right; reflexivity].
Qed.

(** X20.  When the call of an attempt raises and the loop ends there, the
    session is marked in error with the message of that very failure
    (unless the failure is a [ReconnectionError], which marks nothing), and
    the loop has removed its entry.  The loop ends there whenever the
    failure is not a [StreamConnectionError] or [StreamSourceError], and
    whenever the attempt was numbered [reconnect_max_attempts] or more.
    The message
    "Reconnection failed after all attempts" is never recorded. *)
Theorem reconnect_failure_recorded (w : World) (t : task_id) (k : Task) (s : StreamSession) :
  keeps_session start_stream_func (task_session k) ->
  tasks w !! t = Some k ->
  done k = false ->
  _must_cancel k = false ->
  heap w !! task_session k = Some s ->
  _active (manager w) = true ->
  exists r w_call w_ret w' k',
    start_stream_func (chat_id s) (url (source s)) (profile s) w_call = (r, w_ret)
    /\ run_task out start_stream_func t w = (Ok tt, w')
    /\ tasks w' !! t = Some k'
    /\ forall e, r = Raise e ->
         (should_retry e = false -> done k' = true)
         /\ (forall n, (pc k = Created /\ n = 1) \/ (exists t0, pc k = Sleeping n t0) ->
               reconnect_max_attempts (settings (manager w)) <= n -> done k' = true)
         /\ (done k' = true ->
             exists s_ret,
               heap w_ret !! task_session k = Some s_ret
               /\ heap w' !! task_session k
                  = Some (if bool_decide (exn_class_of e = ReconnectionError)
                          then s_ret else mark_error (str e) s_ret)
               /\ _reconnect_tasks (manager w') !! id s = None).
Proof.
  intros K Ht Hd Hc Hs Ha.
  destruct (run_task_as_attempt w t k s Ht Hd Hc Hs)
    as (n & t0 & w0 & s0 & -> & Htk0 & Hm0 & _ & Hs0 & Hid & Hch & Hsrc & Hpr & Hpc).
  assert (Ht0 : tasks w0 !! t = Some k) by (rewrite Htk0; exact Ht).
  assert (Ha0 : _active (manager w0) = true) by (rewrite Hm0; exact Ha).
  destruct (run_attempt_outcome w0 t k (task_session k) s0 n t0 K Ht0 Hs0 Ha0)
    as (r & w_call & w_ret & w' & p' & Ef & Erun & Htk & _ & Hr).
  rewrite Hch, Hsrc, Hpr in Ef.
  exists r, w_call, w_ret, w', (mkTask (task_session k) p' false).
  split; [exact Ef|]. split; [exact Erun|].
  split; [rewrite Htk; apply lookup_insert_eq|].
  intros e ->. destruct Hr as (s_ret & Hret & Hr). rewrite Hm0 in Hr.
  split; [|split].
  - intros Hnr. rewrite Hnr in Hr. cbn [andb] in Hr. destruct Hr as (-> & _). reflexivity.
  - intros n' Hpc' Hmax.
    assert (n' = n) as ->.
    { destruct Hpc as [[Hpc ->] | Hpc], Hpc' as [[Hpc' ->] | [t0' Hpc']];
        rewrite Hpc in Hpc'; first [reflexivity | discriminate Hpc' | idtac].
      injection Hpc' as -> _. reflexivity. }
    assert (Hstop : should_stop (settings (manager w)) n
                      (monotonic_at out (ticks w_ret) - t0) = true).
    { unfold should_stop. apply orb_true_iff. left. apply Z.leb_le. exact Hmax. }
    rewrite Hstop, andb_false_r in Hr. destruct Hr as (-> & _). reflexivity.
  - intros Hdone.
    destruct (should_retry e && negb (should_stop (settings (manager w)) n
                                        (monotonic_at out (ticks w_ret) - t0))).
    + destruct Hr as (-> & _). discriminate Hdone.
    + destruct Hr as (_ & Hh & _ & Hnone). exists s_ret. split; [exact Hret|].
      split; [rewrite Hh; apply lookup_insert_eq|]. rewrite <- Hid. exact Hnone.
Qed.

(** X21.  When a failed attempt leaves the loop asleep, the sleep it has
    asked for lasts no less than [reconnect_min_delay] and no more than
    [reconnect_max_delay] seconds (for settings with
    [0 <= reconnect_min_delay <= reconnect_max_delay]), and the session
    object is as the start function left it: nothing is marked between two
    attempts. *)
Theorem reconnect_sleep_bounds (w : World) (t : task_id) (k : Task) (s : StreamSession) :
  keeps_session start_stream_func (task_session k) ->
  tasks w !! t = Some k ->
  done k = false ->
  _must_cancel k = false ->
  heap w !! task_session k = Some s ->
  _active (manager w) = true ->
  0 <= reconnect_min_delay (settings (manager w)) ->
  reconnect_min_delay (settings (manager w)) <= reconnect_max_delay (settings (manager w)) ->
  exists r w_call w_ret w' k',
    start_stream_func (chat_id s) (url (source s)) (profile s) w_call = (r, w_ret)
    /\ run_task out start_stream_func t w = (Ok tt, w')
    /\ tasks w' !! t = Some k'
    /\ (done k' = false ->
        exists d n start_time,
          pc k' = Sleeping n start_time
          /\ trace w' = EvSleep d :: trace w_ret
          /\ reconnect_min_delay (settings (manager w)) <= d
          /\ d <= reconnect_max_delay (settings (manager w))
          /\ heap w' = heap w_ret).
Proof.
  intros K Ht Hd Hc Hs Ha Hlo Hhi.
  destruct (run_task_as_attempt w t k s Ht Hd Hc Hs)
    as (n & t0 & w0 & s0 & -> & Htk0 & Hm0 & _ & Hs0 & Hid & Hch & Hsrc & Hpr & Hpc).
  assert (Ht0 : tasks w0 !! t = Some k) by (rewrite Htk0; exact Ht).
  assert (Ha0 : _active (manager w0) = true) by (rewrite Hm0; exact Ha).
  destruct (run_attempt_outcome w0 t k (task_session k) s0 n t0 K Ht0 Hs0 Ha0)
    as (r & w_call & w_ret & w' & p' & Ef & Erun & Htk & _ & Hr).
  rewrite Hch, Hsrc, Hpr in Ef.
  exists r, w_call, w_ret, w', (mkTask (task_session k) p' false).
  split; [exact Ef|]. split; [exact Erun|].
  split; [rewrite Htk; apply lookup_insert_eq|].
  intros Hdone. destruct r as [[]|e].
  - subst p'. discriminate Hdone.
  - destruct Hr as (s_ret & Hret & Hr). rewrite Hm0 in Hr.
    destruct (should_retry e && negb (should_stop (settings (manager w)) n
                                        (monotonic_at out (ticks w_ret) - t0))).
    + destruct Hr as (-> & Hh & Htr).
      eexists _, (n + 1), t0. split; [reflexivity|]. split; [exact Htr|].
      pose proof (wait_exponential_bounds _ _ n Hlo Hhi) as [H1 H2].
      split; [exact H1|]. split; [exact H2 | exact Hh].
    + destruct Hr as (-> & _). discriminate Hdone.
Qed.

(** X18.  Under a manager that has been stopped ([_active] is false) a
    loop that gets its turn ends within that turn without calling the start
    function.  It does not mark the session in error either: the session
    keeps the status it had, or is left RECONNECTING when the turn was the
    first of the task, and its error count does not move. *)
Theorem loop_ends_when_manager_stopped (w : World) (t : task_id) (k : Task)
    (s : StreamSession) :
  tasks w !! t = Some k ->
  done k = false ->
  heap w !! task_session k = Some s ->
  _active (manager w) = false ->
  exists w' k' s',
    run_task out start_stream_func t w = (Ok tt, w')
    /\ trace w' = trace w
    /\ tasks w' !! t = Some k' /\ done k' = true
    /\ _active (manager w') = false
    /\ heap w' !! task_session k = Some s'
    /\ error_count s' = error_count s /\ last_error s' = last_error s
    /\ (status s' = status s \/ (pc k = Created /\ status s' = RECONNECTING)).
Proof.
  intros Ht Hd Hs Ha. unfold run_task. mred. rewrite Ht. cbv beta iota zeta.
  destruct k as [l p c]. cbn [task_session pc _must_cancel] in *.
  assert (Hclean : forall w0 s0, heap w0 !! l = Some s0 ->
            exists w1, cleanup l w0 = (Ok tt, w1) /\ heap w1 = heap w0
                       /\ tasks w1 = tasks w0 /\ trace w1 = trace w0
                       /\ _active (manager w1) = _active (manager w0)).
  { intros w0 s0 Hs0. destruct (cleanup_spec w0 l s0 Hs0)
      as (w1 & E & _ & _ & Hact & _ & Hh & Htk & Htr & _). eauto 10. }
  destruct p as [| n start_time | |]; try discriminate Hd; destruct c; cbv beta iota zeta.
  - eexists _, _, s. split; [reflexivity|]. wred. rewrite lookup_alter_eq, Ht.
    repeat split; try assumption; try reflexivity. left. reflexivity.
  - unfold run_attempt, attempt_body, attempt_prologue. mred. wred. rewrite Ha.
    cbn [negb]. cbv beta iota zeta. rewrite should_retry_ReconnectionError.
    cbn [andb]. rewrite handlers_ReconnectionError.
    match goal with |- context [cleanup l ?w0] =>
      destruct (Hclean w0 (mark_reconnecting (utcnow_at out (ticks w)) s))
        as (w1 & E & Hh & Htk & Htr & Hact) end.
    { wred. rewrite lookup_alter_eq, Hs. reflexivity. }
    rewrite E. eexists _, _, _. split; [reflexivity|]. wred.
    rewrite Htk, Htr, Hact, Hh. wred. rewrite !lookup_alter_eq, Ht, Hs.
    repeat split; try assumption; try reflexivity. right. split; reflexivity.
  - destruct (Hclean w s Hs) as (w1 & E & Hh & Htk & Htr & Hact).
    rewrite E. eexists _, _, s. split; [reflexivity|]. wred.
    rewrite Htk, Htr, Hact, Hh, lookup_alter_eq, Ht.
    repeat split; try assumption; try reflexivity. left. reflexivity.
  - unfold run_attempt, attempt_body, attempt_prologue. mred. rewrite Ha.
    cbn [negb]. cbv beta iota zeta. rewrite should_retry_ReconnectionError.
    cbn [andb]. rewrite handlers_ReconnectionError.
    destruct (Hclean (tick w) s Hs) as (w1 & E & Hh & Htk & Htr & Hact).
    rewrite E. eexists _, _, s. split; [reflexivity|]. wred.
    rewrite Htk, Htr, Hact, Hh. wred. rewrite lookup_alter_eq, Ht.
    repeat split; try assumption; try reflexivity. left. reflexivity.
Qed.



End Loops.


(** ** ffmpeg.py: the input arguments and the end of the subprocess *)

Section Transcoder.
Import ffmpeg.
Local Open Scope list_scope.
Variable out : Outside.

Ltac mred :=
  unfold task_cancel, update_session, utcnow, monotonic, uuid4, call, try_except, lift,
    bind, ret, raise, gets, modify in *;
  cbn beta iota zeta in *.

(** X23.  For a source that [detect_type] has classified, the input
    arguments are the reconnect flags for an HLS or M3U source, the live
    flag for an RTMP source and no flag for a YOUTUBE source, followed by
    the probe options and ["-i"; url]: the url is always the last
    argument, as it was given. *)
Theorem _build_input_args_classified (st : Settings) (u : string) (p : TranscodeProfile) :
  _build_input_args (FFmpegWrapper_init st (detect_type u) p)
  = match stream_type (detect_type u) with
    | HLS | M3U => reconnect_flags
    | RTMP => rtmp_live_flags
    | _ => []
    end
    ++ ["-analyzeduration"; "5000000"; "-probesize"; "5000000";
        "-fflags"; "+genpts+discardcorrupt"; "-i"; u]
  /\ last (_build_input_args (FFmpegWrapper_init st (detect_type u) p)) = Some u.
Proof.
  unfold detect_type.
  repeat match goal with |- context [if ?b then _ else _] => destruct b end;
    split; reflexivity.
Qed.

End Transcoder.

(** ** reconnection.py: the health monitor *)

Section Health.
Import HealthMonitor.
Local Open Scope list_scope.
Variable out : Outside.

Ltac mred :=
  unfold task_cancel, update_session, read, utcnow, monotonic, uuid4, call, try_except, lift,
    bind, ret, raise, gets, modify in *;
  cbn beta iota zeta in *.

Lemma _check_session_frame (l : loc) (w : World) :
  exists r w', _check_session out l w = (r, w')
    /\ heap w' = heap w /\ tasks w' = tasks w /\ streamer w' = streamer w
    /\ manager w' = manager w /\ trace w' = trace w /\ draws w' = draws w
    /\ (ticks w <= ticks w')%nat.
Proof.
  unfold _check_session. mred.
  destruct (heap w !! l) as [s|]; [|eexists _, _; repeat split; lia].
  destruct (negb _); [eexists _, _; repeat split; lia|].
  destruct (started_at s), (stopped_at s); eexists _, _; repeat split; cbn; lia.
Qed.

Lemma check_each_frame (ls : list loc) (w : World) :
  exists r w', check_each out ls w = (r, w')
    /\ heap w' = heap w /\ tasks w' = tasks w /\ streamer w' = streamer w
    /\ manager w' = manager w /\ trace w' = trace w /\ draws w' = draws w
    /\ (ticks w <= ticks w')%nat.
Proof.
  revert w. induction ls as [|l ls IH]; intros w; cbn [check_each].
  - exists (Ok tt), w. repeat split. lia.
  - destruct (_check_session_frame l w) as (r1 & w1 & E1 & Hh & Ht & Hs & Hm & Htr & Hd & Hti).
    unfold bind. rewrite E1. destruct r1 as [[]|e].
    + destruct (IH w1) as (r & w' & E & Hh' & Ht' & Hs' & Hm' & Htr' & Hd' & Hti').
      exists r, w'. split; [exact E|]. repeat split; try congruence. lia.
    + exists (Raise e), w1. repeat split; try assumption.
Qed.

(** X24.  The health monitor only observes.  A round of
    [_check_all_sessions] changes no session, no task, nothing of the
    streamer or of the reconnection manager, and calls nothing outside: it
    starts no reconnection.  All it does is read the clock. *)
Theorem health_checks_observe_only (self : HealthMonitor.t) (w : World) :
  exists r w',
    _check_all_sessions out self w = (r, w')
    /\ heap w' = heap w /\ tasks w' = tasks w /\ streamer w' = streamer w
    /\ manager w' = manager w /\ trace w' = trace w /\ draws w' = draws w
    /\ (ticks w <= ticks w')%nat.
Proof. unfold _check_all_sessions. apply check_each_frame. Qed.

(** X25.  Registering a session with the health monitor makes it the one
    checked under its id; unregistering it again gives back the monitor as
    it was, when the id was not registered before; and unregistering an id
    that is not registered changes nothing. *)
Theorem health_register_round_trip (self : HealthMonitor.t) (session_id : string) (l : loc) :
  _sessions self !! session_id = None ->
  _sessions (register_session session_id l self) !! session_id = Some l
  /\ unregister_session session_id (register_session session_id l self) = self
  /\ unregister_session session_id self = self.
Proof.
  intros Hnone. unfold register_session, unregister_session.
  cbn [_sessions _check_interval _active]. rewrite lookup_insert_eq, Hnone.
  split; [reflexivity|]. split; [|reflexivity].
  rewrite delete_insert_eq, (delete_id _ _ Hnone). destruct self. reflexivity.
Qed.
End Health.

(** ** The further theorems at work on the worlds of the examples *)

Section MoreWitnesses.
Import examples scenarios streamer TelegramStreamer props invariants.
Local Open Scope list_scope.

Lemma paused_registry (i : string) (l : loc) :
  _sessions (world.streamer paused) !! i = Some l -> i = "abc12345" /\ l = 0%nat.
Proof.
  change (_sessions (world.streamer paused)) with ({["abc12345" := 0%nat]} : gmap string loc).
  intros H. apply lookup_singleton_Some in H as [<- <-]. split; reflexivity.
Qed.

Lemma paused_live : registered_live paused.
Proof.
  intros i l H. apply paused_registry in H as [-> ->]. eexists. vm_compute. reflexivity.
Qed.

Lemma paused_exclusive : exclusive paused.
Proof.
  intros i j li lj si sj Hij Hi Hj.
  apply get_session_Some in Hi as [Hi _]. apply get_session_Some in Hj as [Hj _].
  apply paused_registry in Hi as [-> _]. apply paused_registry in Hj as [-> _].
  contradiction.
Qed.

(** A second session is started for the chat of the paused one. *)
Lemma start_stream_registers_witness :
  exists l w' s,
    start_stream calm (IdInt (-1001234567890)) "rtmp://h/k" (AsEnum AUTO) paused = (Ok l, w')
    /\ heap w' !! l = Some s
    /\ id s = "0f8fad5b" /\ status s = STREAMING /\ stream_type (source s) = RTMP.
Proof.
  destruct (start_stream_registers calm (IdInt (-1001234567890)) "rtmp://h/k" AUTO
              paused paused (-1001234567890))
    as (r & w' & s & E & _ & Hheap & _ & Hid & _ & Hsrc & _ & _ & Hr).
  - reflexivity.
  - reflexivity.
  - vm_compute. reflexivity.
  - assert (Hfst : fst (start_stream calm (IdInt (-1001234567890)) "rtmp://h/k"
                          (AsEnum AUTO) paused) = Ok 1%nat) by (vm_compute; reflexivity).
    rewrite E in Hfst. cbn [fst] in Hfst. subst r. destruct Hr as (_ & Hst & _).
    exists 1%nat, w', s. split; [exact E|].
    split; [rewrite Hheap; apply lookup_insert_eq|].
    split; [rewrite Hid; reflexivity|]. split; [exact Hst|]. rewrite Hsrc. reflexivity.
Defined.

(** A free chat for the streamer of the tests, whose session is stopped. *)
Lemma start_stream_str_profile_witness :
  exists w',
    start_stream examples.calm (IdInt (-1001234567890)) "https://example.com/live/stream.m3u8"
      (AsStr "720p") (examples.holding (examples.session_in STOPPED (Some 100) (Some 160)))
    = (Raise (Exn AttributeError "'str' object has no attribute 'value'"), w')
    /\ heap w' = heap (examples.holding (examples.session_in STOPPED (Some 100) (Some 160))).
Proof.
  destruct (start_stream_str_profile examples.calm (IdInt (-1001234567890))
              "https://example.com/live/stream.m3u8" "720p"
              (examples.holding (examples.session_in STOPPED (Some 100) (Some 160))))
    as (e & w' & E & Hh & _ & _ & _ & He).
  destruct (He (-1001234567890)
              (examples.holding (examples.session_in STOPPED (Some 100) (Some 160))))
    as [-> _].
  - reflexivity.
  - reflexivity.
  - vm_compute. reflexivity.
  - exists w'. split; [exact E | exact Hh].
Defined.

(** The registry stays exclusive when the second session is started. *)
Lemma start_stream_keeps_exclusive_witness : registered_live doubled /\ exclusive doubled.
Proof.
  apply (start_stream_keeps_exclusive calm (IdInt (-1001234567890)) "rtmp://h/k"
           (AsEnum AUTO) paused doubled (Ok 1%nat)).
  - exact paused_live.
  - exact paused_exclusive.
  - unfold doubled.
    rewrite (surjective_pairing
               (start_stream calm (IdInt (-1001234567890)) "rtmp://h/k" (AsEnum AUTO) paused))
      at 1.
    f_equal.
Defined.

(** The paused session is resumed beside the one started meanwhile. *)
Lemma resume_stream_not_exclusive_witness :
  exists w', resume_stream calm "abc12345" doubled = (Ok true, w') /\ ~ exclusive w'.
Proof.
  edestruct (resume_stream_not_exclusive calm doubled "abc12345" "0f8fad5b" 0%nat 1%nat
               (session_in PAUSED (Some 100) None))
    as (_ & w' & E & _ & _ & Hnot).
  - discriminate.
  - vm_compute. reflexivity.
  - vm_compute. reflexivity.
  - reflexivity.
  - right. left. reflexivity.
  - reflexivity.
  - eexists. reflexivity.
  - reflexivity.
  - exists w'. split; [exact E | exact Hnot].
Defined.

(** The session of [streaming] is paused and resumed. *)
Lemma pause_resume_round_trip_witness :
  exists w1 w2,
    pause_stream calm "abc12345" streaming = (Ok true, w1)
    /\ resume_stream calm "abc12345" w1 = (Ok true, w2)
    /\ heap w2 = heap streaming.
Proof.
  destruct (pause_resume_round_trip calm streaming "abc12345" 0%nat
              (session_in STREAMING (Some 100) None))
    as (w1 & w2 & E1 & _ & E2 & Hh & _).
  - vm_compute. reflexivity.
  - reflexivity.
  - eexists. reflexivity.
  - reflexivity.
  - reflexivity.
  - exists w1, w2. split; [exact E1|]. split; [exact E2 | exact Hh].
Defined.

(** The paused session is listed as active and reserves nothing. *)
Lemma active_and_occupying_witness :
  occupies (-1001234567890) (session_in PAUSED (Some 100) None) = false
  /\ session_in PAUSED (Some 100) None ∈ streamer_admin.get_active_sessions paused.
Proof.
  destruct (active_and_occupying paused (session_in PAUSED (Some 100) None))
    as (_ & _ & H).
  - vm_compute. apply list_elem_of_here.
  - apply H. reflexivity.
Defined.

(** The streamer of [streaming] is shut down; the client fails to stop. *)
Lemma streamer_stop_spec_witness :
  exists w',
    streamer_admin.stop calm (fun _ => Ok tt)
      (fun _ => Raise (Exn RuntimeError "connection lost")) ["abc12345"] streaming
    = (Ok tt, w')
    /\ _started (world.streamer w') = false
    /\ (exists s', heap w' !! 0%nat = Some s' /\ status s' = STOPPED)
    /\ streamer_admin.get_active_sessions w' = [].
Proof.
  destruct (streamer_stop_spec calm (fun _ => Ok tt)
              (fun _ => Raise (Exn RuntimeError "connection lost")) ["abc12345"] streaming)
    as (w' & E & Hst & _ & _ & _ & _ & _ & Hall & Hact & _).
  - intros i l H.
    change (_sessions (world.streamer streaming))
      with ({["abc12345" := 0%nat]} : gmap string loc) in H.
    apply lookup_singleton_Some in H as [<- <-]. eexists. vm_compute. reflexivity.
  - vm_compute. reflexivity.
  - exists w'. split; [exact E|]. split; [exact Hst|]. split; [|exact Hact].
    destruct (Hall "abc12345" 0%nat) as (s & s' & _ & Hs' & Hstop & _);
      [vm_compute; reflexivity|]. eauto.
Defined.

(** The session of [retrying] is stopped while its loop sleeps. *)
Lemma stop_stream_leaves_manager_loops_witness :
  exists w', stop_stream calm "abc12345" retrying = (Ok true, w')
             /\ manager w' = manager retrying /\ tasks w' = tasks retrying.
Proof.
  edestruct (stop_stream_leaves_manager_loops calm retrying "abc12345" 0%nat) as (w' & H).
  - vm_compute. reflexivity.
  - vm_compute. reflexivity.
  - exists w'. exact H.
Defined.

(** The manager is told that the session of [streaming] has lost its
    connection. *)
Lemma handle_disconnect_spec_witness :
  exists w',
    reconnection.handle_disconnect 0%nat None streaming = (Ok tt, w')
    /\ heap w' = heap streaming
    /\ reconnection.is_reconnecting "abc12345" w' = (Ok true, w').
Proof.
  destruct (handle_disconnect_spec streaming 0%nat (session_in STREAMING (Some 100) None) None)
    as (_ & _ & _ & H).
  - vm_compute. reflexivity.
  - destruct H as (w' & E & Hh & _ & _ & _ & _ & Hrec & _).
    + reflexivity.
    + vm_compute. reflexivity.
    + vm_compute. reflexivity.
    + exists w'. split; [exact E|]. split; [exact Hh | exact Hrec].
Defined.

Lemma constant_start_keeps (r : result unit) (l : loc) :
  keeps_session (fun _ _ _ w => (r, w)) l.
Proof.
  intros c u p w r' w' [= <- <-]. repeat split. intros s Hs. exists s.
  split; [exact Hs | repeat split].
Qed.

(** The loop of [disconnected], with the target unreachable and three
    attempts allowed. *)
Lemma run_until_done_spec_witness :
  exists w' m,
    reconnection.run_until_done calm unreachable 3 0%nat disconnected = (Ok tt, w')
    /\ (m <= 3)%nat
    /\ exists k', tasks w' !! 0%nat = Some k' /\ done k' = true.
Proof.
  destruct (run_until_done_spec calm unreachable 3 disconnected 0%nat
              (mkTask 0%nat Created false) (session_in STREAMING (Some 100) None))
    as (w' & m & E & Hm & _ & Hdone).
  - apply (constant_start_keeps (Raise (Exn StreamConnectionError "no route to host"))).
  - vm_compute. reflexivity.
  - reflexivity.
  - reflexivity.
  - vm_compute. reflexivity.
  - reflexivity.
  - intros n t0 H. discriminate H.
  - exists w', m. split; [exact E|]. split; [exact Hm|]. apply Hdone. vm_compute. lia.
Defined.


(** The loop of [disconnected] succeeds at once and is gone from the table. *)
Lemma run_task_exit_cleans_witness :
  ReconnectionManager._reconnect_tasks
    (manager (snd (reconnection.run_task calm reachable 0%nat disconnected))) !! "abc12345"
  = None.
Proof.
  apply (run_task_exit_cleans calm reachable disconnected
           (snd (reconnection.run_task calm reachable 0%nat disconnected)) 0%nat
           (mkTask 0%nat Created false) (mkTask 0%nat Finished false)
           (session_in STREAMING (Some 100) None)).
  - apply (constant_start_keeps (Ok tt)).
  - vm_compute. reflexivity.
  - reflexivity.
  - reflexivity.
  - vm_compute. reflexivity.
  - rewrite (surjective_pairing (reconnection.run_task calm reachable 0%nat disconnected))
      at 1. f_equal.
  - vm_compute. reflexivity.
  - reflexivity.
Defined.

(** The sleeping loop of [retrying] gets its turn after the manager was
    told to stop. *)
Lemma loop_ends_when_manager_stopped_witness :
  exists w' k',
    reconnection.run_task calm reachable 0%nat manager_off = (Ok tt, w')
    /\ trace w' = trace manager_off
    /\ tasks w' !! 0%nat = Some k' /\ done k' = true.
Proof.
  edestruct (loop_ends_when_manager_stopped calm reachable manager_off 0%nat
               (mkTask 0%nat (Sleeping 2 8000000) false))
    as (w' & k' & s' & E & Htr & Ht & Hd & _).
  - vm_compute. reflexivity.
  - reflexivity.
  - vm_compute. reflexivity.
  - reflexivity.
  - exists w', k'. split; [exact E|]. split; [exact Htr|]. split; [exact Ht | exact Hd].
Defined.


(** The first attempt of the loop of [disconnected] is refused for lack
    of permission: the loop ends and the session records that failure. *)
Lemma reconnect_failure_recorded_witness :
  exists w' s',
    reconnection.run_task calm forbidden 0%nat disconnected = (Ok tt, w')
    /\ heap w' !! 0%nat = Some s'
    /\ status s' = ERROR
    /\ last_error s' = Some "not allowed to manage video chats".
Proof.
  destruct (reconnect_failure_recorded calm forbidden disconnected 0%nat
              (mkTask 0%nat Created false) (session_in STREAMING (Some 100) None))
    as (r & w_call & w_ret & w' & k' & Ef & E & _ & Hr).
  - apply (constant_start_keeps
             (Raise (Exn PermissionError "not allowed to manage video chats"))).
  - vm_compute. reflexivity.
  - reflexivity.
  - reflexivity.
  - vm_compute. reflexivity.
  - reflexivity.
  - injection Ef as <- <-.
    destruct (Hr _ eq_refl) as (Hend & _ & Hrec).
    destruct (Hrec (Hend eq_refl)) as (s_ret & _ & Hs' & _).
    eexists w', _. split; [exact E|]. split; [exact Hs'|]. split; reflexivity.
Defined.

(** The first attempt of the loop of [disconnected] fails for an
    unreachable target: the loop sleeps, between one and five seconds. *)
Lemma reconnect_sleep_bounds_witness :
  exists w' d,
    reconnection.run_task calm unreachable 0%nat disconnected = (Ok tt, w')
    /\ hd_error (trace w') = Some (EvSleep d)
    /\ 1 <= d <= 5.
Proof.
  destruct (reconnect_sleep_bounds calm unreachable disconnected 0%nat
              (mkTask 0%nat Created false) (session_in STREAMING (Some 100) None))
    as (r & w_call & w_ret & w' & k' & _ & E & Hk' & Hsleep).
  - apply (constant_start_keeps (Raise (Exn StreamConnectionError "no route to host"))).
  - vm_compute. reflexivity.
  - reflexivity.
  - reflexivity.
  - vm_compute. reflexivity.
  - reflexivity.
  - vm_compute. discriminate.
  - vm_compute. discriminate.
  - assert (Hw' : w' = snd (reconnection.run_task calm unreachable 0%nat disconnected))
      by (rewrite E; reflexivity).
    rewrite Hw' in Hk'. vm_compute in Hk'. injection Hk' as <-.
    destruct (Hsleep eq_refl) as (d & n & t0 & _ & Htr & Hlo & Hhi & _).
    exists w', d. split; [exact E|]. split; [rewrite Htr; reflexivity|].
    split; [exact Hlo | exact Hhi].
Defined.

(** A session is registered with an idle monitor and unregistered again. *)
Lemma health_register_round_trip_witness :
  HealthMonitor.unregister_session "abc12345"
    (HealthMonitor.register_session "abc12345" 0%nat idle_monitor)
  = idle_monitor.
Proof.
  destruct (health_register_round_trip idle_monitor "abc12345" 0%nat) as (_ & H & _).
  - reflexivity.
  - exact H.
Defined.

Lemma streaming_registry (i : string) (l : loc) :
  _sessions (world.streamer streaming) !! i = Some l -> i = "abc12345" /\ l = 0%nat.
Proof.
  change (_sessions (world.streamer streaming))
    with ({["abc12345" := 0%nat]} : gmap string loc).
  intros H. apply lookup_singleton_Some in H as [<- <-]. split; reflexivity.
Qed.

(** The session of [streaming] is stopped: its chat is free again. *)
Lemma stop_stream_frees_chat_witness :
  exists w',
    stop_stream calm "abc12345" streaming = (Ok true, w')
    /\ existsb (occupies (-1001234567890)) (session_values w') = false.
Proof.
  destruct (stop_stream_frees_chat calm streaming "abc12345" 0%nat
              (session_in STREAMING (Some 100) None))
    as (w' & E & Hfree & _).
  - intros i l H. apply streaming_registry in H as [-> ->]. eexists. vm_compute. reflexivity.
  - intros i j li lj si sj Hij Hi Hj.
    apply get_session_Some in Hi as [Hi _]. apply get_session_Some in Hj as [Hj _].
    apply streaming_registry in Hi as [-> _]. apply streaming_registry in Hj as [-> _].
    contradiction.
  - vm_compute. reflexivity.
  - right. left. reflexivity.
  - exists w'. split; [exact E | exact Hfree].
Defined.

End MoreWitnesses.
